(** * StaffScheduler: the CP-SAT schedule optimizer

    A shallow embedding of
    [backend/optimization-scripts/schedule_optimizer.py]
    (class [ScheduleOptimizerORTools]) and the properties its
    specification states about it.

    Layout: the Python built-ins the script relies on ([Py]), the part of
    the [datetime] module it calls ([Datetime]), the JSON-shaped input
    records, the constraint model handed to the solver ([CpModel]), the
    optimizer's methods, and then the theorems. *)

From Stdlib Require Import ZArith List String Ascii Bool Lia.
From Stdlib Require Import Floats Uint63 DecimalString.
Import ListNotations.

Local Open Scope string_scope.
Local Open Scope list_scope.
Local Open Scope Z_scope.

(* ================================================================== *)
(** ** Python built-ins *)
(* ================================================================== *)

Module Py.

(** *** [dict]

    A Python [dict] keeps its keys in insertion order and the script
    iterates over them ([.items()], [.keys()]), so a dict is an
    association list with unique keys.  Storing under a key that is
    already present replaces the value and keeps the key's position. *)
Section Dict.
Context {K V : Type}.
Variable eqb : K -> K -> bool.

Fixpoint get (k : K) (d : list (K * V)) : option V :=
  match d with
  | [] => None
  | (k', v) :: r => if eqb k k' then Some v else get k r
  end.

Fixpoint set (k : K) (v : V) (d : list (K * V)) : list (K * V) :=
  match d with
  | [] => [(k, v)]
  | (k', v') :: r =>
      if eqb k k' then (k', v) :: r else (k', v') :: set k v r
  end.

Definition contains (k : K) (d : list (K * V)) : bool :=
  match get k d with Some _ => true | None => false end.

Definition keys (d : list (K * V)) : list K := map fst d.
End Dict.

Definition dict (K V : Type) : Type := list (K * V).

(** [x in xs] on a list of strings. *)
Definition str_in (x : string) (xs : list string) : bool :=
  existsb (String.eqb x) xs.

(** Keys made of two strings, as in [(employee_id, shift_id)]. *)
Definition pair_eqb (a b : string * string) : bool :=
  String.eqb (fst a) (fst b) && String.eqb (snd a) (snd b).

(** *** [str.split(sep)] with a one-character separator: every
    occurrence splits, empty fields are kept, the result is never
    empty. *)
Fixpoint split (sep : ascii) (s : string) : list string :=
  match s with
  | EmptyString => [EmptyString]
  | String c r =>
      if Ascii.eqb c sep then EmptyString :: split sep r
      else match split sep r with
           | h :: t => String c h :: t
           | [] => [String c EmptyString]
           end
  end.

(** *** [int(str)]

    Surrounding whitespace is dropped, one sign is allowed, and the
    rest is a run of decimal digits in which single underscores may
    separate digits.  Anything else raises [ValueError] ([None]), and
    so does a literal of more than 4300 digits, the interpreter's
    default limit ([sys.int_info.default_max_str_digits]).  Strings are
    taken as ASCII. *)

(** The whitespace [int] skips: tab, line feed, vertical tab, form
    feed, carriage return and space. *)
Definition is_space (c : ascii) : bool :=
  let n := nat_of_ascii c in
  ((9 <=? n) && (n <=? 13) || (n =? 32))%nat.

Definition is_digit (c : ascii) : bool :=
  let n := nat_of_ascii c in ((48 <=? n) && (n <=? 57))%nat.

Definition digit_val (c : ascii) : Z := Z.of_nat (nat_of_ascii c) - 48.

Fixpoint lstrip (s : string) : string :=
  match s with
  | String c r => if is_space c then lstrip r else s
  | EmptyString => EmptyString
  end.

(** [rstrip] returns [""] when only whitespace is left. *)
Fixpoint rstrip (s : string) : string :=
  match s with
  | EmptyString => EmptyString
  | String c r =>
      match rstrip r with
      | EmptyString => if is_space c then EmptyString else String c EmptyString
      | r' => String c r'
      end
  end.

Definition strip (s : string) : string := rstrip (lstrip s).

(** [after_digit] tells whether the previous character was a digit:
    an underscore is legal only then, and the literal must end on a
    digit. *)
Fixpoint digits (s : string) (acc : Z) (after_digit : bool) : option Z :=
  match s with
  | EmptyString => if after_digit then Some acc else None
  | String c r =>
      if is_digit c then digits r (10 * acc + digit_val c) true
      else if Ascii.eqb c "_"%char then
             if after_digit then digits r acc false else None
           else None
  end.

(** The digits of a literal, underscores not counted. *)
Fixpoint count_digits (s : string) : nat :=
  match s with
  | EmptyString => 0
  | String c r => if is_digit c then S (count_digits r) else count_digits r
  end.

Definition max_str_digits : nat := 4300.

Definition literal (s : string) : option Z :=
  if (max_str_digits <? count_digits s)%nat then None else digits s 0 false.

Definition int (s : string) : option Z :=
  match strip s with
  | String "+"%char r => literal r
  | String "-"%char r => option_map Z.opp (literal r)
  | r => literal r
  end.

(** *** [str(n)] for an integer, as an f-string formats it. *)
Definition str (z : Z) : string := NilZero.string_of_int (Z.to_int z).

(** *** [sorted] on strings: ascending by code point, stable. *)
Fixpoint insert_sorted (x : string) (l : list string) : list string :=
  match l with
  | [] => [x]
  | y :: r => if String.leb x y then x :: l else y :: insert_sorted x r
  end.

Definition sorted (l : list string) : list string :=
  fold_right insert_sorted [] l.

(** *** A slice [l[i:j]] with [0 <= i <= j]. *)
Definition slice {A : Type} (i j : nat) (l : list A) : list A :=
  firstn (j - i) (skipn i l).

End Py.

(** Option as the monad of exceptions: a Python exception is [None]. *)
Definition obind {A B : Type} (m : option A) (k : A -> option B) : option B :=
  match m with Some a => k a | None => None end.

Notation "x <-? m ;; k" := (obind m (fun x => k))
  (at level 61, m at next level, right associativity).

(* ================================================================== *)
(** ** The part of [datetime] the script calls *)
(* ================================================================== *)

Module Datetime.

Record date := mkdate { year : Z; month : Z; day : Z }.

Definition is_leap (y : Z) : bool :=
  (y mod 4 =? 0) && (negb (y mod 100 =? 0) || (y mod 400 =? 0)).

Definition days_in_month (y m : Z) : Z :=
  if m =? 2 then (if is_leap y then 29 else 28)
  else if (m =? 4) || (m =? 6) || (m =? 9) || (m =? 11) then 30
  else 31.

(** Days in the years before [y] (proleptic Gregorian calendar). *)
Definition days_before_year (y : Z) : Z :=
  let p := y - 1 in p * 365 + p / 4 - p / 100 + p / 400.

(** Days in year [y] before the first day of month [m]. *)
Definition days_before_month (y m : Z) : Z :=
  nth (Z.to_nat m) [0; 0; 31; 59; 90; 120; 151; 181; 212; 243; 273; 304; 334] 0
  + (if (2 <? m) && is_leap y then 1 else 0).

(** [date.toordinal()]: 0001-01-01 is day 1. *)
Definition toordinal (d : date) : Z :=
  days_before_year (year d) + days_before_month (year d) (month d) + day d.

(** [date.weekday()]: Monday is 0, Sunday is 6. *)
Definition weekday (d : date) : Z := (toordinal d + 6) mod 7.

(** Ordinal of the Monday that starts ISO week 1 of [y]: the week
    holding the year's first Thursday. *)
Definition isoweek1monday (y : Z) : Z :=
  let firstday := toordinal (mkdate y 1 1) in
  let firstweekday := (firstday + 6) mod 7 in
  let week1monday := firstday - firstweekday in
  if 3 <? firstweekday then week1monday + 7 else week1monday.

(** [date.isocalendar()]: (ISO year, ISO week 1..53, ISO weekday 1..7). *)
Definition isocalendar (d : date) : Z * Z * Z :=
  let y := year d in
  let today := toordinal d in
  let week := (today - isoweek1monday y) / 7 in
  let wday := (today - isoweek1monday y) mod 7 in
  if week <? 0 then
    let w1 := isoweek1monday (y - 1) in
    (y - 1, (today - w1) / 7 + 1, (today - w1) mod 7 + 1)
  else if (52 <=? week) && (isoweek1monday (y + 1) <=? today) then
    (y + 1, 1, wday + 1)
  else (y, week + 1, wday + 1).

(** *** [datetime.strptime(s, '%Y-%m-%d')]

    The format compiles to the pattern
    [(\d\d\d\d)-(1[0-2]|0[1-9]|[1-9])-(3[01]|[12]\d|0[1-9]|[1-9]| [1-9])]
    which must consume the whole string; the three numbers must then
    form a date the calendar has. *)
Definition year_field (s : string) : option Z :=
  match s with
  | String a (String b (String c (String d EmptyString))) =>
      if Py.is_digit a && Py.is_digit b && Py.is_digit c && Py.is_digit d
      then Some (1000 * Py.digit_val a + 100 * Py.digit_val b
                 + 10 * Py.digit_val c + Py.digit_val d)
      else None
  | _ => None
  end.

Definition nonzero_digit (c : ascii) : bool :=
  Py.is_digit c && negb (Ascii.eqb c "0"%char).

Definition month_field (s : string) : option Z :=
  match s with
  | String a EmptyString =>
      if nonzero_digit a then Some (Py.digit_val a) else None
  | String a (String b EmptyString) =>
      if Ascii.eqb a "1"%char && Py.is_digit b && (Py.digit_val b <=? 2)
      then Some (10 + Py.digit_val b)
      else if Ascii.eqb a "0"%char && nonzero_digit b
           then Some (Py.digit_val b)
           else None
  | _ => None
  end.

Definition day_field (s : string) : option Z :=
  match s with
  | String a EmptyString =>
      if nonzero_digit a then Some (Py.digit_val a) else None
  | String a (String b EmptyString) =>
      if Ascii.eqb a "3"%char && Py.is_digit b && (Py.digit_val b <=? 1)
      then Some (30 + Py.digit_val b)
      else if (Ascii.eqb a "1"%char || Ascii.eqb a "2"%char) && Py.is_digit b
           then Some (10 * Py.digit_val a + Py.digit_val b)
           else if (Ascii.eqb a "0"%char || Ascii.eqb a " "%char)
                   && nonzero_digit b
                then Some (Py.digit_val b)
                else None
  | _ => None
  end.

Definition strptime_ymd (s : string) : option date :=
  match Py.split "-"%char s with
  | [ys; ms; ds] =>
      y <-? year_field ys ;;
      m <-? month_field ms ;;
      d <-? day_field ds ;;
      if (1 <=? y) && (d <=? days_in_month y m)
      then Some (mkdate y m d) else None
  | _ => None
  end.

End Datetime.

(* ================================================================== *)
(** ** Input records *)
(* ================================================================== *)

(** One entry of [problem_data['shifts']].  The keys the script reads
    with [shift[...]] are plain fields (a record without one raises
    [KeyError]); the keys it reads with [.get] are options. *)
Module Shift.
Record t := mk {
  id : string;
  date : string;
  start_time : string;
  end_time : string;
  min_staff : option Z;
  max_staff : option Z;
  required_skills : option (list string)
}.
End Shift.

(** One entry of [problem_data['employees']].  [max_consecutive_days]
    is a number of days, hence not negative. *)
Module Employee.
Record t := mk {
  id : string;
  skills : option (list string);
  unavailable_dates : option (list string);
  max_hours_per_week : option Z;
  max_consecutive_days : option nat
}.
End Employee.

(** One value of [problem_data['preferences']]. *)
Module Prefs.
Record t := mk {
  preferred_shifts : option (list string);
  avoid_shifts : option (list string)
}.
End Prefs.

(** [d.get(key, default)] on an optional field. *)
Definition get_or {A : Type} (o : option A) (default : A) : A :=
  match o with Some a => a | None => default end.

(** A JSON number: [weights] values and [coverage_percentage] are
    floats or integers. *)
Inductive num :=
| NInt (z : Z)
| NFloat (f : float).

(** [int(x)] on a number: the identity on an integer, truncation toward
    zero on a float; infinities and NaN raise. *)
Definition int_of_float (f : float) : option Z :=
  match Prim2SF f with
  | S754_zero _ => Some 0
  | S754_finite s m e =>
      let mag := if 0 <=? e then Z.pos m * 2 ^ e else Z.pos m / 2 ^ (- e) in
      Some (if s then - mag else mag)
  | S754_infinity _ => None
  | S754_nan => None
  end.

Definition int_of_num (x : num) : option Z :=
  match x with
  | NInt z => Some z
  | NFloat f => int_of_float f
  end.

(** [float(n)] for a count [0 <= n < 2^63] (exact below 2^53, where
    Python's [int / int] is the IEEE quotient of the two floats). *)
Definition float_of_count (n : Z) : float := PrimFloat.of_uint63 (Uint63.of_Z n).

(* ================================================================== *)
(** ** The constraint model handed to CP-SAT *)
(* ================================================================== *)

Module CpModel.

(** The three families of names the script gives its variables:
    [assign_e{e}_s{s}], [worked_e{e}_d{d}] and [consec_e{e}_w{i}]. *)
Inductive VarName :=
| AssignVar (employee_id shift_id : string)
| WorkedVar (employee_id date : string)
| ConsecVar (employee_id : string) (i : nat).

Definition render (n : VarName) : string :=
  match n with
  | AssignVar e s => "assign_e" ++ e ++ "_s" ++ s
  | WorkedVar e d => "worked_e" ++ e ++ "_d" ++ d
  | ConsecVar e i => "consec_e" ++ e ++ "_w" ++ Py.str (Z.of_nat i)
  end%string.

(** A variable handle is the variable's index in creation order. *)
Definition var := nat.

(** A sum of [coefficient * variable] terms. *)
Definition LinExpr := list (Z * var).

Inductive Rel := Le | Lt | Ge | Eq.

(** A literal: a Boolean variable or its [.Not()]. *)
Inductive Lit :=
| Pos (x : var)
| Neg (x : var).

Inductive Constraint :=
| Linear (e : LinExpr) (r : Rel) (bound : Z) (only_enforce_if : option Lit)
| MaxEquality (target : var) (sources : list var).

Record t := mk {
  variables : list VarName;
  constraints : list Constraint;
  objective : option LinExpr
}.

Definition empty : t := mk [] [] None.

(** [sum(vars)]: every variable with coefficient 1. *)
Definition sum_of (xs : list var) : LinExpr := map (fun x => (1, x)) xs.

(** *** Meaning of a model: the assignments of Booleans to its
    variables that the solver may return. *)
Definition valuation := var -> bool.

Definition value (v : valuation) (x : var) : Z := if v x then 1 else 0.

Fixpoint eval (v : valuation) (e : LinExpr) : Z :=
  match e with
  | [] => 0
  | (c, x) :: r => c * value v x + eval v r
  end.

Definition rel_holds (r : Rel) (a b : Z) : bool :=
  match r with
  | Le => a <=? b
  | Lt => a <? b
  | Ge => b <=? a
  | Eq => a =? b
  end.

Definition lit_holds (v : valuation) (l : Lit) : bool :=
  match l with
  | Pos x => v x
  | Neg x => negb (v x)
  end.

Definition sat (v : valuation) (c : Constraint) : bool :=
  match c with
  | Linear e r b None => rel_holds r (eval v e) b
  | Linear e r b (Some l) => implb (lit_holds v l) (rel_holds r (eval v e) b)
  | MaxEquality target sources => Bool.eqb (v target) (existsb v sources)
  end.

Definition satisfies (v : valuation) (m : t) : bool :=
  forallb (sat v) (constraints m).

(** *** What the library takes

    The library keeps integers in signed 64 bits and raises [TypeError]
    on a bound or a coefficient outside that range.  The sum of no
    terms is the Python integer 0, and comparing it gives a Boolean,
    which the model takes whatever the bound. *)
Definition int64 (z : Z) : bool := (- 2 ^ 63 <=? z) && (z <? 2 ^ 63).

Definition fits (c : Constraint) : bool :=
  match c with
  | Linear [] _ _ _ => true
  | Linear e _ bound _ => int64 bound && forallb (fun t => int64 (fst t)) e
  | MaxEquality _ _ => true
  end.

End CpModel.

Import CpModel.

(* ================================================================== *)
(** ** [ScheduleOptimizerORTools] *)
(* ================================================================== *)

(** What [__init__] extracts from [problem_data] and never changes:
    [self.shifts], [self.employees], [self.preferences], [self.weights].
    ([self.skills], [self.constraints_config] and [self.hours_worked]
    are stored but never read.) *)
Record Problem := mkProblem {
  shifts : Py.dict string Shift.t;
  employees : Py.dict string Employee.t;
  preferences : Py.dict string Prefs.t;
  weights : Py.dict string num
}.

(** What the methods mutate: [self.model] and [self.assignments]. *)
Record State := mkState {
  model : CpModel.t;
  assignments : Py.dict (string * string) var
}.

Definition _default_weights : Py.dict string num :=
  [ ("shift_coverage", NFloat 100); ("no_double_booking", NFloat 90);
    ("skill_requirements", NFloat 85); ("availability", NFloat 80);
    ("max_hours_per_week", NFloat 75); ("employee_preferences", NFloat 55);
    ("workload_fairness", NFloat 40); ("consecutive_days", NFloat 30);
    ("rest_periods", NFloat 25); ("shift_continuity", NFloat 20) ]%float.

(** [{x['id']: x for x in xs}]. *)
Definition dict_by_id {A : Type} (id : A -> string) (xs : list A)
  : Py.dict string A :=
  fold_left (fun d x => Py.set String.eqb (id x) x d) xs [].

Definition __init__
  (shift_list : list Shift.t) (employee_list : list Employee.t)
  (prefs : option (Py.dict string Prefs.t))
  (wts : option (Py.dict string num)) : Problem * State :=
  (mkProblem (dict_by_id Shift.id shift_list)
             (dict_by_id Employee.id employee_list)
             (get_or prefs [])
             (get_or wts _default_weights),
   mkState CpModel.empty []).

(** *** Time utilities *)

Definition _parse_time (time_str : string) : option Z :=
  let parts := Py.split ":"%char time_str in
  p0 <-? nth_error parts 0 ;;
  h <-? Py.int p0 ;;
  p1 <-? nth_error parts 1 ;;
  m <-? Py.int p1 ;;
  Some (h * 60 + m).

Definition _calculate_shift_hours (shift : Shift.t) : option Z :=
  start <-? _parse_time (Shift.start_time shift) ;;
  end_ <-? _parse_time (Shift.end_time shift) ;;
  let end_ := if end_ <? start then end_ + 24 * 60 else end_ in
  Some ((end_ - start) / 60).

Definition _get_week_key (date_str : string) : option string :=
  date <-? Datetime.strptime_ymd date_str ;;
  Some (Py.str (Datetime.year date) ++ "-W"
        ++ Py.str (snd (fst (Datetime.isocalendar date))))%string.

(** *** Overlap detector *)

Definition _shifts_overlap (shift1 shift2 : Shift.t) : option bool :=
  start1 <-? _parse_time (Shift.start_time shift1) ;;
  end1 <-? _parse_time (Shift.end_time shift1) ;;
  start2 <-? _parse_time (Shift.start_time shift2) ;;
  end2 <-? _parse_time (Shift.end_time shift2) ;;
  Some (negb ((end1 <=? start2) || (end2 <=? start1))).

Section Detector.
Variable self : Problem.

(** The inner loop: the later identifiers whose shift overlaps
    [shift_1], in input order. *)
Fixpoint overlapping_later (shift_1 : Shift.t) (later : list string)
  : option (list string) :=
  match later with
  | [] => Some []
  | shift_id_2 :: rest =>
      shift_2 <-? Py.get String.eqb shift_id_2 (shifts self) ;;
      b <-? _shifts_overlap shift_1 shift_2 ;;
      tail <-? overlapping_later shift_1 rest ;;
      Some (if b then shift_id_2 :: tail else tail)
  end.

(** The outer loop: at [shift_ids[i]] the inner loop runs over
    [shift_ids[i+1:]], here the tail of the list. *)
Fixpoint _find_overlapping_shifts (shift_ids : list string)
  : option (list (list string)) :=
  match shift_ids with
  | [] => Some []
  | shift_id_1 :: later =>
      shift_1 <-? Py.get String.eqb shift_id_1 (shifts self) ;;
      tail <-? overlapping_later shift_1 later ;;
      let overlap_group := shift_id_1 :: tail in
      overlapping <-? _find_overlapping_shifts later ;;
      Some (if (1 <? List.length overlap_group)%nat
            then overlap_group :: overlapping else overlapping)
  end.
End Detector.

(** *** The builder monad: the methods read [self], update [self.model]
    and [self.assignments], and may raise. *)

Definition M (A : Type) : Type := State -> option (A * State).

Definition ret {A : Type} (a : A) : M A := fun st => Some (a, st).

Definition bind {A B : Type} (m : M A) (k : A -> M B) : M B :=
  fun st => match m st with
            | Some (a, st') => k a st'
            | None => None
            end.

(** A computation that only reads, or raises. *)
Definition lift {A : Type} (o : option A) : M A :=
  fun st => match o with Some a => Some (a, st) | None => None end.

Notation "x <- m ;; k" := (bind m (fun x => k))
  (at level 61, m at next level, right associativity).
Notation "m ;;; k" := (bind m (fun _ => k))
  (at level 61, right associativity).

(** [for x in xs: body(x)], collecting what the bodies return. *)
Fixpoint forM {A B : Type} (xs : list A) (body : A -> M B) : M (list B) :=
  match xs with
  | [] => ret []
  | x :: r => b <- body x ;; bs <- forM r body ;; ret (b :: bs)
  end.

Fixpoint for_ {A : Type} (xs : list A) (body : A -> M unit) : M unit :=
  match xs with
  | [] => ret tt
  | x :: r => body x ;;; for_ r body
  end.

(** [self.model.NewBoolVar(name)] *)
Definition NewBoolVar (name : VarName) : M var :=
  fun st =>
    let m := model st in
    Some (List.length (variables m),
          mkState (CpModel.mk (variables m ++ [name]) (constraints m) (objective m))
                  (assignments st)).

(** The model with one more constraint. *)
Definition with_constraint (c : Constraint) (st : State) : State :=
  let m := model st in
  mkState (CpModel.mk (variables m) (constraints m ++ [c]) (objective m))
          (assignments st).

(** [self.model.Add(...)] and [self.model.AddMaxEquality]: a
    [TypeError] when a bound or a coefficient does not fit. *)
Definition Add (c : Constraint) : M unit :=
  fun st => if fits c then Some (tt, with_constraint c st) else None.

(** [self.model.Add(sum(xs) == len(xs)).OnlyEnforceIf(l)], and the same
    with [<]: the coefficients are 1 and the bound is a [len], which is
    machine-sized, so the range check passes. *)
Definition AddCount (xs : list var) (r : Rel) (l : Lit) : M unit :=
  fun st =>
    Some (tt, with_constraint
                (Linear (sum_of xs) r (Z.of_nat (List.length xs)) (Some l)) st).

(** [self.model.Maximize(sum(terms))]: a [TypeError] when a
    coefficient does not fit. *)
Definition Maximize (terms : LinExpr) : M unit :=
  fun st =>
    if forallb (fun t => int64 (fst t)) terms
    then let m := model st in
         Some (tt, mkState (CpModel.mk (variables m) (constraints m) (Some terms))
                           (assignments st))
    else None.

(** [self.assignments[(e, s)]]: a [KeyError] when the pair has no variable. *)
Definition assignment (employee_id shift_id : string) : M var :=
  fun st =>
    match Py.get Py.pair_eqb (employee_id, shift_id) (assignments st) with
    | Some x => Some (x, st)
    | None => None
    end.

(** [self.assignments[(e, s)] = x] *)
Definition set_assignment (employee_id shift_id : string) (x : var) : M unit :=
  fun st =>
    Some (tt, mkState (model st)
                      (Py.set Py.pair_eqb (employee_id, shift_id) x (assignments st))).

Section Methods.
Variable self : Problem.

Definition _create_assignment_variables : M unit :=
  for_ (shifts self) (fun '(shift_id, shift) =>
    for_ (employees self) (fun '(employee_id, employee) =>
      x <- NewBoolVar (AssignVar employee_id shift_id) ;;
      set_assignment employee_id shift_id x)).

(** *** Constraint builder *)

Definition _add_shift_coverage_constraints : M unit :=
  for_ (shifts self) (fun '(shift_id, shift) =>
    let min_staff := get_or (Shift.min_staff shift) 1 in
    let max_staff := get_or (Shift.max_staff shift) (min_staff + 2) in
    assignments_for_shift <-
      forM (Py.keys (employees self)) (fun emp_id => assignment emp_id shift_id) ;;
    Add (Linear (sum_of assignments_for_shift) Ge min_staff None) ;;;
    Add (Linear (sum_of assignments_for_shift) Le max_staff None)).

(** The grouping loop shared by the double-booking constraints and the
    consecutive-days terms: date -> identifiers of the shifts on it,
    dates in order of first appearance. *)
Definition shifts_by_date : Py.dict string (list string) :=
  fold_left
    (fun acc '(shift_id, shift) =>
       let date := Shift.date shift in
       let acc := if Py.contains String.eqb date acc then acc
                  else Py.set String.eqb date [] acc in
       Py.set String.eqb date
              (get_or (Py.get String.eqb date acc) [] ++ [shift_id]) acc)
    (shifts self) [].

Definition _add_no_double_booking_constraints : M unit :=
  for_ (Py.keys (employees self)) (fun employee_id =>
    for_ shifts_by_date (fun '(date, shift_ids) =>
      overlapping_groups <- lift (_find_overlapping_shifts self shift_ids) ;;
      for_ overlapping_groups (fun overlapping_shifts =>
        assignments <-
          forM overlapping_shifts (fun shift_id => assignment employee_id shift_id) ;;
        Add (Linear (sum_of assignments) Le 1 None)))).

(** [required.issubset(have)] *)
Definition issubset (required have : list string) : bool :=
  forallb (fun r => Py.str_in r have) required.

Definition _add_skill_requirements_constraints : M unit :=
  for_ (shifts self) (fun '(shift_id, shift) =>
    let required_skills := get_or (Shift.required_skills shift) [] in
    match required_skills with
    | [] => ret tt
    | _ =>
        for_ (employees self) (fun '(employee_id, employee) =>
          let employee_skills := get_or (Employee.skills employee) [] in
          if negb (issubset required_skills employee_skills)
          then x <- assignment employee_id shift_id ;;
               Add (Linear [(1, x)] Eq 0 None)
          else ret tt)
    end).

Definition _add_availability_constraints : M unit :=
  for_ (employees self) (fun '(employee_id, employee) =>
    let unavailable_dates := get_or (Employee.unavailable_dates employee) [] in
    for_ (shifts self) (fun '(shift_id, shift) =>
      let shift_date := Shift.date shift in
      if Py.str_in shift_date unavailable_dates
      then x <- assignment employee_id shift_id ;;
           Add (Linear [(1, x)] Eq 0 None)
      else ret tt)).

(** The grouping loop of the weekly cap: week key -> identifiers of
    the shifts whose date has that key. *)
Fixpoint group_by_week (l : Py.dict string Shift.t)
  (acc : Py.dict string (list string)) : option (Py.dict string (list string)) :=
  match l with
  | [] => Some acc
  | (shift_id, shift) :: r =>
      week_key <-? _get_week_key (Shift.date shift) ;;
      let acc := if Py.contains String.eqb week_key acc then acc
                 else Py.set String.eqb week_key [] acc in
      group_by_week r
        (Py.set String.eqb week_key
                (get_or (Py.get String.eqb week_key acc) [] ++ [shift_id]) acc)
  end.

Definition shifts_by_week : option (Py.dict string (list string)) :=
  group_by_week (shifts self) [].

Definition _add_max_hours_constraints : M unit :=
  by_week <- lift shifts_by_week ;;
  for_ (employees self) (fun '(employee_id, employee) =>
    let max_hours := get_or (Employee.max_hours_per_week employee) 40 in
    for_ by_week (fun '(week_key, shift_ids) =>
      total_hours <-
        forM shift_ids (fun shift_id =>
          shift <- lift (Py.get String.eqb shift_id (shifts self)) ;;
          hours <- lift (_calculate_shift_hours shift) ;;
          a <- assignment employee_id shift_id ;;
          ret (hours, a)) ;;
      Add (Linear total_hours Le max_hours None))).

(** *** Objective builder *)

Definition _get_preference (employee_id shift_id : string) : Z :=
  match Py.get String.eqb employee_id (preferences self) with
  | None => 0
  | Some emp_prefs =>
      if Py.str_in shift_id (get_or (Prefs.preferred_shifts emp_prefs) [])
      then 10
      else if Py.str_in shift_id (get_or (Prefs.avoid_shifts emp_prefs) [])
           then -10
           else 0
  end.

(** The body of the loop over a window's dates: a fresh day indicator,
    tied by [AddMaxEquality] to the employee's assignment variables on
    that date. *)
Definition day_indicator (employee_id date : string) : M var :=
  day_shifts <- lift (Py.get String.eqb date shifts_by_date) ;;
  day_var <- NewBoolVar (WorkedVar employee_id date) ;;
  sources <- forM day_shifts (fun s_id => assignment employee_id s_id) ;;
  Add (MaxEquality day_var sources) ;;;
  ret day_var.

(** One pass of the window loop body for employee [employee_id] and
    window number [i]: a day indicator per date of the window, the
    window indicator, its two reified constraints, and the penalty
    term. *)
Definition window_terms (weight : Z) (employee_id : string)
  (sorted_dates : list string) (max_consec i : nat) : M (Z * var) :=
  let window_dates := Py.slice i (i + max_consec + 1) sorted_dates in
  day_worked <- forM window_dates (day_indicator employee_id) ;;
  all_worked <- NewBoolVar (ConsecVar employee_id i) ;;
  AddCount day_worked Eq (Pos all_worked) ;;;
  AddCount day_worked Lt (Neg all_worked) ;;;
  ret (- (1) * weight, all_worked).

Definition employee_terms (weight : Z) (employee_id : string) : M LinExpr :=
  let sorted_dates := Py.sorted (Py.keys shifts_by_date) in
  employee <- lift (Py.get String.eqb employee_id (employees self)) ;;
  let max_consec := get_or (Employee.max_consecutive_days employee) 5%nat in
  forM (seq 0 (List.length sorted_dates - max_consec))
       (window_terms weight employee_id sorted_dates max_consec).

Definition _add_consecutive_days_terms (weight : Z) : M LinExpr :=
  per_employee <- forM (Py.keys (employees self)) (employee_terms weight) ;;
  ret (List.concat per_employee).

(** [int(self.weights.get(key, default))] *)
Definition weight_of (key : string) (default : float) : option Z :=
  int_of_num (get_or (Py.get String.eqb key (weights self)) (NFloat default)).

Definition _build_objective_function : M unit :=
  pref_weight <- lift (weight_of "employee_preferences" 55%float) ;;
  preference_terms <-
    (fun st => Some (map (fun '((emp_id, shift_id), x) =>
                            (_get_preference emp_id shift_id * pref_weight, x))
                         (assignments st), st)) ;;
  fairness_weight <- lift (weight_of "workload_fairness" 40%float) ;;
  consec_weight <- lift (weight_of "consecutive_days" 30%float) ;;
  consecutive_terms <- _add_consecutive_days_terms consec_weight ;;
  Maximize (preference_terms ++ consecutive_terms).

Definition build_model : M unit :=
  _create_assignment_variables ;;;
  _add_shift_coverage_constraints ;;;
  _add_no_double_booking_constraints ;;;
  _add_skill_requirements_constraints ;;;
  _add_availability_constraints ;;;
  _add_max_hours_constraints ;;;
  _build_objective_function.

End Methods.

(** *** Solve orchestrator *)

(** [cp_model]'s status constants. *)
Inductive Status := UNKNOWN | MODEL_INVALID | FEASIBLE | INFEASIBLE | OPTIMAL.

(** The external solver once [solver.Solve(self.model)] has returned:
    the status and what its accessors answer.  [values] is the
    assignment it found; [Value(x)] is 1 or 0. *)
Record CpSolver := mkSolver {
  solve_status : Status;
  ObjectiveValue : float;
  WallTime : float;
  NumBranches : Z;
  NumConflicts : Z;
  values : valuation
}.

Definition Value (solver : CpSolver) (x : var) : Z := value (values solver) x.

(** One entry of [result['assignments']]. *)
Module Assignment.
Record t := mk {
  employee_id : string;
  shift_id : string;
  date : string;
  start_time : string;
  end_time : string;
  hours : Z
}.
End Assignment.

Record CoverageStats := mkCoverage {
  total_shifts : Z;
  fully_covered_shifts : Z;
  coverage_percentage : num
}.

(** A value stored in [result['statistics']]. *)
Inductive StatValue :=
| SInt (z : Z)
| SBool (b : bool)
| SCoverage (c : CoverageStats).

(** The dictionary [solve] returns; [statistics] is itself a dictionary
    whose keys depend on the status. *)
Module Result.
Record t := mk {
  status : string;
  objective_value : option float;
  solve_time_seconds : float;
  assignments : list Assignment.t;
  statistics : Py.dict string StatValue
}.
End Result.

Definition _status_to_string (status : Status) : string :=
  match status with
  | OPTIMAL => "OPTIMAL"
  | FEASIBLE => "FEASIBLE"
  | INFEASIBLE => "INFEASIBLE"
  | MODEL_INVALID => "MODEL_INVALID"
  | UNKNOWN => "UNKNOWN"
  end.

(** [status in [cp_model.OPTIMAL, cp_model.FEASIBLE]] *)
Definition found (status : Status) : bool :=
  match status with
  | OPTIMAL | FEASIBLE => true
  | _ => false
  end.

Section Solve.
Variable self : Problem.

Fixpoint extract (solver : CpSolver) (items : Py.dict (string * string) var)
  : option (list Assignment.t) :=
  match items with
  | [] => Some []
  | ((emp_id, shift_id), x) :: r =>
      if Value solver x =? 1 then
        shift <-? Py.get String.eqb shift_id (shifts self) ;;
        hours <-? _calculate_shift_hours shift ;;
        rest <-? extract solver r ;;
        Some (Assignment.mk emp_id shift_id (Shift.date shift)
                (Shift.start_time shift) (Shift.end_time shift) hours :: rest)
      else extract solver r
  end.

Definition _extract_solution (st : State) (solver : CpSolver)
  : option (list Assignment.t) :=
  extract solver (assignments st).

(** The counting loop: [shift_counts[id] = shift_counts.get(id, 0) + 1]. *)
Definition shift_counts (assignments : list Assignment.t) : Py.dict string Z :=
  fold_left
    (fun counts a =>
       let shift_id := Assignment.shift_id a in
       Py.set String.eqb shift_id
              (get_or (Py.get String.eqb shift_id counts) 0 + 1) counts)
    assignments [].

Definition _calculate_coverage_stats (assignments : list Assignment.t)
  : CoverageStats :=
  let counts := shift_counts assignments in
  let total_shifts := Z.of_nat (List.length (shifts self)) in
  let fully_covered :=
    Z.of_nat (List.length
      (filter (fun '(s_id, shift) =>
                 get_or (Shift.min_staff shift) 1
                 <=? get_or (Py.get String.eqb s_id counts) 0)
              (shifts self))) in
  mkCoverage total_shifts fully_covered
    (if 0 <? total_shifts
     then NFloat (float_of_count fully_covered / float_of_count total_shifts
                  * float_of_count 100)%float
     else NInt 0).

(** [solve]: the solver has run on [model st]; [time_limit_seconds]
    only configures that run. *)
Definition solve (st : State) (solver : CpSolver) : option Result.t :=
  let status := solve_status solver in
  let statistics :=
    [ ("num_branches", SInt (NumBranches solver));
      ("num_conflicts", SInt (NumConflicts solver));
      ("is_optimal", SBool (match status with OPTIMAL => true | _ => false end)) ] in
  let objective_value :=
    if found status then Some (ObjectiveValue solver) else None in
  if found status then
    assigned <-? _extract_solution st solver ;;
    let statistics :=
      Py.set String.eqb "total_assigned_shifts"
             (SInt (Z.of_nat (List.length assigned))) statistics in
    let statistics :=
      Py.set String.eqb "coverage_stats"
             (SCoverage (_calculate_coverage_stats assigned)) statistics in
    Some (Result.mk (_status_to_string status) objective_value
            (WallTime solver) assigned statistics)
  else
    Some (Result.mk (_status_to_string status) objective_value
            (WallTime solver) [] statistics).
End Solve.

(** [build_model] then [solve] on a fresh optimizer, as [main] runs them. *)
Definition run_build (self : Problem) : option State :=
  option_map snd (build_model self (mkState CpModel.empty [])).

(* ================================================================== *)
(** ** Vocabulary of the specification *)
(* ================================================================== *)

(** The text ["HH:MM"] for an hour and a minute, two decimal digits
    each. *)
Definition two_digits (n : Z) : string :=
  String (ascii_of_nat (Z.to_nat (48 + n / 10)))
    (String (ascii_of_nat (Z.to_nat (48 + n mod 10))) EmptyString).

Definition clock (h m : Z) : string :=
  (two_digits h ++ ":" ++ two_digits m)%string.

(** A character occurs in a string. *)
Fixpoint has_char (c : ascii) (s : string) : bool :=
  match s with
  | EmptyString => false
  | String a r => Ascii.eqb a c || has_char c r
  end.

(** The text [a:b], or [a:b:more] when something follows a second
    colon.  Every text with a colon is one of these, with no colon in
    [a] and [b]. *)
Definition time_text (a b : string) (more : option string) : string :=
  match more with
  | None => a ++ ":" ++ b
  | Some r => a ++ ":" ++ b ++ ":" ++ r
  end%string.

(** A shift that only carries its times, for the time utilities. *)
Definition shift_at (id date start_time end_time : string) : Shift.t :=
  Shift.mk id date start_time end_time None None None.

(** A shift from 23:30 to midnight. *)
Definition late_shift : Shift.t := shift_at "late" "2024-03-01" "23:30" "00:00".

(** How many entries of a solution assign shift [s]. *)
Definition count_assigned (s : string) (assigned : list Assignment.t) : Z :=
  Z.of_nat (List.length
    (filter (fun a => String.eqb (Assignment.shift_id a) s) assigned)).

(** The ISO week (ISO year, ISO week number) a date string falls in. *)
Definition iso_week_of (date_str : string) : option (Z * Z) :=
  d <-? Datetime.strptime_ymd date_str ;;
  Some (fst (Datetime.isocalendar d)).

Definition same_iso_week (d1 d2 : string) : bool :=
  match iso_week_of d1, iso_week_of d2 with
  | Some (y1, w1), Some (y2, w2) => (y1 =? y2) && (w1 =? w2)
  | _, _ => false
  end.

(** Hours a solution gives employee [e] in ISO week [wk]. *)
Fixpoint week_hours (assigned : list Assignment.t) (e : string) (wk : Z * Z) : Z :=
  match assigned with
  | [] => 0
  | a :: r =>
      (if String.eqb (Assignment.employee_id a) e
          && match iso_week_of (Assignment.date a) with
             | Some (y, w) => (y =? fst wk) && (w =? snd wk)
             | None => false
             end
       then Assignment.hours a else 0) + week_hours r e wk
  end.

Section Windows.
Variable self : Problem.

(** The dates that carry a shift, ascending. *)
Definition sorted_dates : list string :=
  Py.sorted (Py.keys (shifts_by_date self)).

Definition max_consec_of (employee_id : string) : nat :=
  match Py.get String.eqb employee_id (employees self) with
  | Some e => get_or (Employee.max_consecutive_days e) 5%nat
  | None => 5%nat
  end.

(** Window [i] of an employee: [max_consecutive_days + 1] dates of
    [sorted_dates] from position [i] on. *)
Definition window_dates (employee_id : string) (i : nat) : list string :=
  firstn (max_consec_of employee_id + 1) (skipn i sorted_dates).

Definition num_windows (employee_id : string) : nat :=
  (List.length sorted_dates - max_consec_of employee_id)%nat.

(** Under valuation [v], employee [e] is assigned a shift dated [d]. *)
Definition works_on (asg : Py.dict (string * string) var) (v : valuation)
  (e d : string) : Prop :=
  exists s shift x,
    In (s, shift) (shifts self) /\ Shift.date shift = d
    /\ Py.get Py.pair_eqb (e, s) asg = Some x /\ v x = true.

(** The variables the consecutive-days pass creates for one employee:
    window after window, a day indicator per date of the window and
    then the window's own indicator. *)
Definition window_vars (employee_id : string) : list VarName :=
  flat_map (fun i => map (WorkedVar employee_id) (window_dates employee_id i)
                     ++ [ConsecVar employee_id i])
           (seq 0 (num_windows employee_id)).

(** Every (employee, shift) pair has its assignment variable. *)
Definition assignments_complete (st : State) : Prop :=
  forall e s, In e (Py.keys (employees self)) -> In s (Py.keys (shifts self)) ->
    exists x, Py.get Py.pair_eqb (e, s) (assignments st) = Some x.
End Windows.

(** The identifiers of the shifts dated [d], in input order. *)
Definition ids_on (self : Problem) (d : string) : list string :=
  map fst (filter (fun p => String.eqb (Shift.date (snd p)) d) (shifts self)).

Section Growth.
Variable self : Problem.

(** In state [st'], indicator [y] is true exactly when employee [e]
    works on date [d]. *)
Definition day_ok (st' : State) (y : var) (e d : string) : Prop :=
  forall v, satisfies v (model st') = true ->
    (v y = true <-> works_on self (assignments st') v e d).

(** A run of the objective builder from [st] to [st']: the assignment
    table is untouched, the variables [vs] are appended, constraints are
    only appended, and every day indicator created on the way means
    what its name says. *)
Record grows (st st' : State) (vs : list VarName) : Prop := mk_grows {
  g_assignments : assignments st' = assignments st;
  g_variables : variables (model st') = variables (model st) ++ vs;
  g_constraints :
    exists cs, constraints (model st') = constraints (model st) ++ cs;
  g_days : forall y e d,
      (List.length (variables (model st)) <= y)%nat ->
      nth_error (variables (model st')) y = Some (WorkedVar e d) ->
      day_ok st' y e d
}.

(** Employee [e] has an assignment variable for every shift. *)
Definition covered (e : string) (st : State) : Prop :=
  forall s, In s (Py.keys (shifts self)) ->
    exists x, Py.get Py.pair_eqb (e, s) (assignments st) = Some x.

(** What a window's penalty term [(c, x)] must be in state [st']. *)
Definition window_ok (weight : Z) (e : string) (i : nat)
  (t : Z * var) (st' : State) : Prop :=
  fst t = - weight
  /\ nth_error (variables (model st')) (snd t) = Some (ConsecVar e i)
  /\ forall v, satisfies v (model st') = true ->
       (v (snd t) = true <->
        forall d, In d (window_dates self e i) ->
                  works_on self (assignments st') v e d).

(** What an employee's list of penalty terms must be. *)
Definition employee_ok (weight : Z) (st' : State) (e : string)
  (terms : LinExpr) : Prop :=
  List.length terms = num_windows self e
  /\ ((List.length (sorted_dates self) < max_consec_of self e + 1)%nat ->
      terms = [])
  /\ forall i, (i < num_windows self e)%nat ->
       List.length (window_dates self e i) = (max_consec_of self e + 1)%nat
       /\ exists x, nth_error terms i = Some (- weight, x)
                    /\ window_ok weight e i (- weight, x) st'.
End Growth.

(** A computation that leaves [self.assignments] as it found it. *)
Definition keeps {A : Type} (m : M A) : Prop :=
  forall st a st', m st = Some (a, st') -> assignments st' = assignments st.

(** How often a name occurs among a model's variables. *)
Definition name_eqb (a b : VarName) : bool :=
  match a, b with
  | AssignVar e s, AssignVar e' s' => String.eqb e e' && String.eqb s s'
  | WorkedVar e d, WorkedVar e' d' => String.eqb e e' && String.eqb d d'
  | ConsecVar e i, ConsecVar e' i' => String.eqb e e' && Nat.eqb i i'
  | _, _ => false
  end.

Definition count_name (n : VarName) (m : CpModel.t) : nat :=
  List.length (filter (name_eqb n) (variables m)).

(* ------------------------------------------------------------------ *)
(** *** Worked inputs *)

(** One date, a long shift A and two short shifts B and C inside it that
    do not meet each other. *)
Definition nested_day : Problem :=
  fst (__init__
         [ shift_at "A" "2024-03-01" "09:00" "17:00";
           shift_at "B" "2024-03-01" "09:00" "12:00";
           shift_at "C" "2024-03-01" "13:00" "17:00" ]
         [ Employee.mk "e1" None None None None ] None None).

(** The example of the specification: A 09:00-13:00, B 12:00-16:00,
    C 16:00-20:00 on one date. *)
Definition chained_day : Problem :=
  fst (__init__
         [ shift_at "A" "2024-03-01" "09:00" "13:00";
           shift_at "B" "2024-03-01" "12:00" "16:00";
           shift_at "C" "2024-03-01" "16:00" "20:00" ]
         [ Employee.mk "e1" None None None None ] None None).

(** Four twelve-hour shifts from Monday 2024-12-30 to Thursday
    2025-01-02, one ISO week across the turn of the year, and one
    employee allowed 24 hours a week. *)
Definition year_end : Problem :=
  fst (__init__
         [ shift_at "s1" "2024-12-30" "08:00" "20:00";
           shift_at "s2" "2024-12-31" "08:00" "20:00";
           shift_at "s3" "2025-01-01" "08:00" "20:00";
           shift_at "s4" "2025-01-02" "08:00" "20:00" ]
         [ Employee.mk "e1" None None (Some 24) None ] None None).

(** The solver's answer on [year_end]: every variable true. *)
Definition year_end_solver : CpSolver :=
  mkSolver OPTIMAL 0%float 0%float 0 0 (fun _ => true).

(** Two employees, both away on the date of the only shift, which needs
    two people. *)
Definition nobody_free : Problem :=
  fst (__init__
         [ Shift.mk "s1" "2024-03-01" "09:00" "17:00" (Some 2) (Some 2) None ]
         [ Employee.mk "e1" None (Some ["2024-03-01"]) None None;
           Employee.mk "e2" None (Some ["2024-03-01"]) None None ] None None).

Definition infeasible_solver : CpSolver :=
  mkSolver INFEASIBLE 0%float 0%float 7 3 (fun _ => false).

(** Three dates and an employee who may work one day in a row: two
    windows, the middle date in both. *)
Definition three_days : Problem :=
  fst (__init__
         [ shift_at "s1" "2024-03-01" "09:00" "17:00";
           shift_at "s2" "2024-03-02" "09:00" "17:00";
           shift_at "s3" "2024-03-03" "09:00" "17:00" ]
         [ Employee.mk "e1" None None None (Some 1%nat);
           Employee.mk "e2" None None None None ] None None).

(** The state [build_model] is in when it turns to the objective: the
    assignment variables and the hard constraints are in place. *)
Definition before_objective (self : Problem) : State :=
  match (_create_assignment_variables self ;;;
         _add_shift_coverage_constraints self ;;;
         _add_no_double_booking_constraints self ;;;
         _add_skill_requirements_constraints self ;;;
         _add_availability_constraints self ;;;
         _add_max_hours_constraints self) (mkState CpModel.empty []) with
  | Some (_, st) => st
  | None => mkState CpModel.empty []
  end.

Definition three_days_state : State := before_objective three_days.

(** A valuation of [three_days]' model: e1 works every shift. *)
Definition e1_works_all : valuation :=
  fun x => match x with
           | 0 | 2 | 4 => true
           | 6 | 7 | 8 | 9 | 10 | 11 => true
           | _ => false
           end%nat.

(** Four shifts and one employee, and a solver answer that staffs three
    of them. *)
Definition four_shifts : Problem :=
  fst (__init__
         [ shift_at "s1" "2024-03-01" "09:00" "17:00";
           shift_at "s2" "2024-03-02" "09:00" "17:00";
           shift_at "s3" "2024-03-03" "09:00" "17:00";
           shift_at "s4" "2024-03-04" "09:00" "17:00" ]
         [ Employee.mk "e1" None None None None ] None None).

Definition three_of_four : CpSolver :=
  mkSolver FEASIBLE 0%float 0%float 0 0 (fun x => (x <? 3)%nat).

(** What [solve] returns on [four_shifts] for that answer. *)
Definition three_of_four_result : Result.t :=
  match st <-? run_build four_shifts ;; solve four_shifts st three_of_four with
  | Some r => r
  | None => Result.mk "" None 0%float [] []
  end.

(** The state [build_model] leaves a fresh optimizer in. *)
Definition built (self : Problem) : State :=
  match run_build self with
  | Some st => st
  | None => mkState CpModel.empty []
  end.

(* ------------------------------------------------------------------ *)
(** *** Vocabulary of the built model *)

(** State [st'] comes after [st]: same assignment table, constraints
    only added.  A steady computation only moves the state that way. *)
Definition after (st st' : State) : Prop :=
  assignments st' = assignments st
  /\ exists cs, constraints (model st') = constraints (model st) ++ cs.

Definition steady {A : Type} (m : M A) : Prop :=
  forall st a st', m st = Some (a, st') -> after st st'.

(** How many of the variables [xs] a valuation makes true. *)
Definition count_true (v : valuation) (xs : list var) : Z :=
  Z.of_nat (List.length (filter v xs)).

(** The identifiers of the shifts whose date has week key [key], in
    input order. *)
Definition ids_in_week (self : Problem) (key : string) : list string :=
  map fst
    (filter (fun p => match _get_week_key (Shift.date (snd p)) with
                      | Some k => String.eqb k key
                      | None => false
                      end)
            (shifts self)).

(** Term [t] of a weekly-hours sum stands for shift [s] of employee
    [e]: its coefficient is the shift's duration in hours and its
    variable is the pair's assignment variable. *)
Definition hours_term (self : Problem) (st : State) (e s : string)
  (t : Z * var) : Prop :=
  exists shift,
    Py.get String.eqb s (shifts self) = Some shift
    /\ _calculate_shift_hours shift = Some (fst t)
    /\ Py.get Py.pair_eqb (e, s) (assignments st) = Some (snd t).

(** The (employee, shift) pairs in the order the variables are created:
    shift by shift, employee by employee. *)
Definition all_pairs (self : Problem) : list (string * string) :=
  flat_map (fun s => map (fun e => (e, s)) (Py.keys (employees self)))
           (Py.keys (shifts self)).

(** An entry of the solution is the record of its shift. *)
Definition entry_of_shift (self : Problem) (a : Assignment.t) : Prop :=
  exists shift,
    Py.get String.eqb (Assignment.shift_id a) (shifts self) = Some shift
    /\ Assignment.date a = Shift.date shift
    /\ Assignment.start_time a = Shift.start_time shift
    /\ Assignment.end_time a = Shift.end_time shift
    /\ _calculate_shift_hours shift = Some (Assignment.hours a).

(** A ward: s1 needs a registered nurse and exactly one person, s2 is
    open to all; e1 is a nurse and away on the date of s2, e2 has no
    skill on record. *)
Definition ward_s1 : Shift.t :=
  Shift.mk "s1" "2024-03-01" "09:00" "17:00" (Some 1) (Some 1) (Some ["rn"]).

Definition ward_e1 : Employee.t :=
  Employee.mk "e1" (Some ["rn"]) (Some ["2024-03-02"]) None None.

Definition ward : Problem :=
  fst (__init__
         [ ward_s1;
           Shift.mk "s2" "2024-03-02" "09:00" "17:00" None None None ]
         [ ward_e1;
           Employee.mk "e2" None None None None ] None None).

(** The one schedule the model of [ward] allows: e1 on s1, e2 on s2. *)
Definition ward_values : valuation :=
  fun x => (x =? 0)%nat || (x =? 3)%nat.

Definition ward_solver : CpSolver :=
  mkSolver OPTIMAL 0%float 0%float 0 0 ward_values.

(** What [solve] returns on [ward] for that answer. *)
Definition ward_result : Result.t :=
  match solve ward (built ward) ward_solver with
  | Some r => r
  | None => Result.mk "" None 0%float [] []
  end.

(** [ward] with a weights object that names the fairness weight only. *)
Definition ward_reweighted : Problem :=
  mkProblem (shifts ward) (employees ward) (preferences ward)
            [("workload_fairness", NInt 1000)].

(** Two shifts on one date that share the hour from 12:00 to 13:00, and
    two employees; in [ward_values] each employee takes one of them. *)
Definition split_day_A : Shift.t := shift_at "A" "2024-03-01" "09:00" "13:00".
Definition split_day_B : Shift.t := shift_at "B" "2024-03-01" "12:00" "16:00".

Definition split_day : Problem :=
  fst (__init__
         [ split_day_A; split_day_B ]
         [ Employee.mk "e1" None None None None;
           Employee.mk "e2" None None None None ] None None).

(** The preference score a valuation collects over the assignment
    table: the sum of [_get_preference] over the pairs whose variable
    is true. *)
Fixpoint preference_total (self : Problem) (v : valuation)
  (table : Py.dict (string * string) var) : Z :=
  match table with
  | [] => 0
  | ((e, s), x) :: r =>
      (if v x then _get_preference self e s else 0) + preference_total self v r
  end.

(** The names of the window indicators, employee by employee. *)
Definition window_names (self : Problem) : list VarName :=
  flat_map (fun e => map (ConsecVar e) (seq 0 (num_windows self e)))
           (Py.keys (employees self)).

(* ================================================================== *)
(** ** Theorems *)
(* ================================================================== *)

(** *** The library's range checks *)

Lemma Add_inv (c : Constraint) (st st' : State) (u : unit) :
  Add c st = Some (u, st') -> fits c = true /\ st' = with_constraint c st.
Proof.
  unfold Add. destruct (fits c); [|discriminate].
  intros [= _ <-]. now split.
Qed.

Lemma Maximize_inv (terms : LinExpr) (st st' : State) (u : unit) :
  Maximize terms st = Some (u, st') ->
  forallb (fun t => int64 (fst t)) terms = true
  /\ st' = mkState (CpModel.mk (variables (model st)) (constraints (model st))
                               (Some terms))
                   (assignments st).
Proof.
  unfold Maximize. destruct (forallb (fun t => int64 (fst t)) terms); [|discriminate].
  intros [= _ <-]. now split.
Qed.

(** *** Time utilities *)

Lemma split_no_sep (c : ascii) (s : string) :
  has_char c s = false -> Py.split c s = [s].
Proof.
  induction s as [|a r IH]; simpl; intros H; [reflexivity|].
  apply orb_false_iff in H. destruct H as [Ha Hr].
  rewrite Ha, (IH Hr). reflexivity.
Qed.

(** All 1440 clock texts, parsed one by one. *)
Lemma clock_table :
  forallb (fun h => forallb (fun m =>
     match _parse_time (clock (Z.of_nat h) (Z.of_nat m)) with
     | Some r => r =? Z.of_nat h * 60 + Z.of_nat m
     | None => false
     end) (seq 0 60)) (seq 0 24) = true.
Proof. vm_compute. reflexivity. Qed.

Lemma parse_clock (h m : Z) :
  0 <= h < 24 -> 0 <= m < 60 -> _parse_time (clock h m) = Some (h * 60 + m).
Proof.
  intros Hh Hm.
  pose proof clock_table as T.
  rewrite forallb_forall in T.
  assert (Hin : In (Z.to_nat h) (seq 0 24)) by (apply in_seq; lia).
  specialize (T _ Hin). rewrite forallb_forall in T.
  assert (Hin' : In (Z.to_nat m) (seq 0 60)) by (apply in_seq; lia).
  specialize (T _ Hin').
  rewrite !Z2Nat.id in T by lia.
  destruct (_parse_time (clock h m)) as [r|]; [|discriminate].
  apply Z.eqb_eq in T. congruence.
Qed.

Lemma split_field (c : ascii) (a r : string) :
  has_char c a = false ->
  Py.split c (a ++ String c r) = a :: Py.split c r.
Proof.
  induction a as [|x a' IH]; cbn [has_char append Py.split]; intros H.
  - now rewrite Ascii.eqb_refl.
  - apply orb_false_elim in H. destruct H as [Hx Ha]. rewrite Hx.
    now rewrite (IH Ha).
Qed.

Lemma split_time_text (a b : string) (more : option string) :
  has_char ":"%char a = false -> has_char ":"%char b = false ->
  exists fields, Py.split ":"%char (time_text a b more) = a :: b :: fields.
Proof.
  intros Ha Hb. destruct more as [r|]; cbn [time_text].
  - change (a ++ ":" ++ b ++ ":" ++ r)%string
      with (a ++ String ":"%char (b ++ String ":"%char r))%string.
    rewrite (split_field _ _ _ Ha), (split_field _ _ _ Hb). now eexists.
  - change (a ++ ":" ++ b)%string with (a ++ String ":"%char b)%string.
    rewrite (split_field _ _ _ Ha), (split_no_sep _ _ Hb). now eexists.
Qed.

Lemma parse_time_fields (a b : string) (more : option string) :
  has_char ":"%char a = false -> has_char ":"%char b = false ->
  _parse_time (time_text a b more)
  = match Py.int a, Py.int b with
    | Some h, Some m => Some (h * 60 + m)
    | _, _ => None
    end.
Proof.
  intros Ha Hb. destruct (split_time_text a b more Ha Hb) as [fields E].
  unfold _parse_time. rewrite E. cbn [nth_error obind].
  destruct (Py.int a); cbn [obind]; [|reflexivity].
  destruct (Py.int b); reflexivity.
Qed.

Lemma first_field (c : ascii) (s : string) :
  has_char c s = true ->
  exists a r, has_char c a = false /\ s = (a ++ String c r)%string.
Proof.
  induction s as [|x s' IH]; cbn [has_char]; [discriminate|].
  destruct (Ascii.eqb_spec x c) as [->|N]; cbn [orb].
  - intros _. now exists EmptyString, s'.
  - intros H. destruct (IH H) as [a [r [Ha ->]]].
    exists (String x a), r. split; [|reflexivity].
    cbn [has_char]. rewrite Ha.
    destruct (Ascii.eqb_spec x c); [contradiction | reflexivity].
Qed.

(** C9, as the code has it: a text "HH:MM" with a two-digit hour 00-23
    and a two-digit minute 00-59 parses to 60*HH + MM, a number of
    minutes in 0..1439.  A text without any ':' raises.  Every other
    text is [a:b] or [a:b:more] with no ':' in [a] and [b]; it raises
    when [a] or [b] is not an integer literal as [int] reads it, and
    otherwise yields 60*h + m for the integers h and m that [a] and [b]
    read as, whatever their range and whatever [more] is. *)
Theorem parse_time_clock :
  (forall h m, 0 <= h < 24 -> 0 <= m < 60 ->
     _parse_time (clock h m) = Some (h * 60 + m) /\ 0 <= h * 60 + m <= 1439)
  /\ (forall s, has_char ":"%char s = false -> _parse_time s = None)
  /\ (forall s, has_char ":"%char s = true ->
        exists a b more,
          has_char ":"%char a = false /\ has_char ":"%char b = false
          /\ s = time_text a b more)
  /\ (forall a b more,
        has_char ":"%char a = false -> has_char ":"%char b = false ->
        Py.int a = None \/ Py.int b = None ->
        _parse_time (time_text a b more) = None)
  /\ (forall a b more h m,
        has_char ":"%char a = false -> has_char ":"%char b = false ->
        Py.int a = Some h -> Py.int b = Some m ->
        _parse_time (time_text a b more) = Some (h * 60 + m)).
Proof.
  split; [|split; [|split; [|split]]].
  - intros h m Hh Hm. split; [now apply parse_clock | lia].
  - intros s Hs. unfold _parse_time. rewrite (split_no_sep _ _ Hs). simpl.
    destruct (Py.int s); reflexivity.
  - intros s Hs. destruct (first_field _ _ Hs) as [a [r [Ha ->]]].
    destruct (has_char ":"%char r) eqn:Hr.
    + destruct (first_field _ _ Hr) as [b [r' [Hb ->]]].
      exists a, b, (Some r'). now repeat split.
    + exists a, r, None. now repeat split.
  - intros a b more Ha Hb H. rewrite (parse_time_fields a b more Ha Hb).
    destruct H as [-> | ->]; [reflexivity|]. now destruct (Py.int a).
  - intros a b more h m Ha Hb Ia Ib.
    now rewrite (parse_time_fields a b more Ha Hb), Ia, Ib.
Qed.

Lemma parse_time_clock_witness :
  (_parse_time (clock 9 30) = Some (9 * 60 + 30) /\ 0 <= 9 * 60 + 30 <= 1439)
  /\ _parse_time "0930" = None
  /\ _parse_time (time_text "ab" "cd" None) = None
  /\ _parse_time (time_text "9" "" None) = None
  /\ _parse_time (time_text "25" "00" None) = Some (25 * 60 + 0)
  /\ _parse_time (time_text "12" "30" (Some "45")) = Some (12 * 60 + 30).
Proof.
  destruct parse_time_clock as [Clock [Plain [_ [Bad Good]]]].
  split; [apply (Clock 9 30); lia|].
  split; [apply (Plain "0930"); reflexivity|].
  split; [apply (Bad "ab" "cd" None); [reflexivity | reflexivity | now left]|].
  split; [apply (Bad "9" "" None); [reflexivity | reflexivity | now right]|].
  split; [apply (Good "25" "00" None 25 0); reflexivity|].
  apply (Good "12" "30" (Some "45") 12 30); reflexivity.
Defined.

(** C9 as stated fails: "25:00" is not a time of day and "12:30:45" is
    not of the form "HH:MM", yet the first yields 1500, beyond 1439, and
    the second yields 750 instead of an error. *)
Lemma parse_time_unchecked :
  _parse_time "25:00" = Some 1500 /\ 1439 < 1500
  /\ _parse_time "12:30:45" = Some 750.
Proof. repeat split. Qed.

(** C7, as the code has it: with start and end parsed to [s] and [e]
    minutes, the duration is [e - s], plus 1440 when that is negative,
    floor-divided by 60; 22:00 to 06:00 gives 8; and a shift that ends
    at midnight (00:00) after starting at 00:01..23:59 lasts a positive
    number of minutes, which is a positive number of hours exactly when
    it starts by 23:00. *)
Theorem shift_hours_formula (shift : Shift.t) (s e : Z) :
  _parse_time (Shift.start_time shift) = Some s ->
  _parse_time (Shift.end_time shift) = Some e ->
  _calculate_shift_hours shift
  = Some ((if e - s <? 0 then e - s + 1440 else e - s) / 60)
  /\ (s = 22 * 60 -> e = 6 * 60 -> _calculate_shift_hours shift = Some 8)
  /\ (e = 0 -> 0 < s <= 1439 ->
      0 < e - s + 1440
      /\ exists h, _calculate_shift_hours shift = Some h
                   /\ 0 <= h /\ (0 < h <-> s <= 23 * 60)).
Proof.
  intros Hs He.
  assert (F : _calculate_shift_hours shift
              = Some ((if e - s <? 0 then e - s + 1440 else e - s) / 60)).
  { unfold _calculate_shift_hours. rewrite Hs, He. simpl.
    destruct (Z.ltb_spec e s), (Z.ltb_spec (e - s) 0); try lia;
      do 2 f_equal; lia. }
  split; [exact F|]. split.
  - intros -> ->. rewrite F. reflexivity.
  - intros -> Hr. split; [lia|].
    exists ((1440 - s) / 60). rewrite F.
    destruct (Z.ltb_spec (0 - s) 0); [|lia].
    split; [do 2 f_equal; lia|].
    split; [apply Z.div_pos; lia|].
    split; intros H1.
    + destruct (Z_le_gt_dec s (23 * 60)) as [L|G]; [exact L|].
      rewrite Z.div_small in H1 by lia. lia.
    + assert (1 <= (1440 - s) / 60) by (apply Z.div_le_lower_bound; lia). lia.
Qed.

Lemma shift_hours_formula_witness :
  _calculate_shift_hours (shift_at "n" "2024-03-01" "22:00" "06:00") = Some 8.
Proof.
  apply (shift_hours_formula (shift_at "n" "2024-03-01" "22:00" "06:00")
           (22 * 60) (6 * 60)); reflexivity.
Defined.

(** C7 as stated fails in its last part: a shift from 23:30 to midnight
    has a duration of 0 hours, which is not positive. *)
Lemma midnight_shift_zero_hours :
  Shift.end_time late_shift = "00:00"
  /\ _calculate_shift_hours late_shift = Some 0.
Proof. split; reflexivity. Qed.

(** *** Dictionaries *)

Lemma str_in_In (x : string) (xs : list string) :
  Py.str_in x xs = true <-> In x xs.
Proof.
  unfold Py.str_in. rewrite existsb_exists. split.
  - intros [y [Hy E]]. apply String.eqb_eq in E. now subst.
  - intros H. exists x. split; [exact H | apply String.eqb_refl].
Qed.

Lemma get_none_not_key {V : Type} (k : string) (d : Py.dict string V) :
  Py.get String.eqb k d = None <-> ~ In k (Py.keys d).
Proof.
  induction d as [|[k' v] r IH]; simpl.
  - split; [intros _ [] | reflexivity].
  - destruct (String.eqb_spec k k') as [->|N].
    + split; [discriminate | intros H; exfalso; apply H; now left].
    + rewrite IH. split.
      * intros H [E|I]; [now apply N | now apply H].
      * intros H I. apply H. now right.
Qed.

Lemma get_some_key {V : Type} (k : string) (d : Py.dict string V) :
  In k (Py.keys d) -> exists v, Py.get String.eqb k d = Some v.
Proof.
  intros H. destruct (Py.get String.eqb k d) as [v|] eqn:E; [now exists v|].
  apply get_none_not_key in E. contradiction.
Qed.

Lemma get_in {V : Type} (k : string) (v : V) (d : Py.dict string V) :
  Py.get String.eqb k d = Some v -> In (k, v) d.
Proof.
  induction d as [|[k' v'] r IH]; simpl; [discriminate|].
  destruct (String.eqb_spec k k') as [->|N].
  - intros [= ->]. now left.
  - intros H. right. now apply IH.
Qed.

Lemma get_set_same {V : Type} (k : string) (v : V) (d : Py.dict string V) :
  Py.get String.eqb k (Py.set String.eqb k v d) = Some v.
Proof.
  induction d as [|[k' v'] r IH]; simpl.
  - now rewrite String.eqb_refl.
  - destruct (String.eqb_spec k k') as [->|N]; simpl.
    + now rewrite String.eqb_refl.
    + destruct (String.eqb_spec k k'); [contradiction | exact IH].
Qed.

Lemma get_set_other {V : Type} (k k' : string) (v : V) (d : Py.dict string V) :
  k <> k' -> Py.get String.eqb k (Py.set String.eqb k' v d) = Py.get String.eqb k d.
Proof.
  intros N. induction d as [|[k0 v0] r IH]; simpl.
  - destruct (String.eqb_spec k k'); [contradiction | reflexivity].
  - destruct (String.eqb_spec k' k0) as [->|N0]; simpl.
    + destruct (String.eqb_spec k k0); [contradiction | reflexivity].
    + destruct (String.eqb_spec k k0); [reflexivity | exact IH].
Qed.

(** *** Preferences *)

(** C10: a shift on both the preferred and the avoid list of an employee
    scores +10, and an employee who is no key of the preferences map
    scores 0 on every shift. *)
Theorem preferred_wins (self : Problem) (employee_id shift_id : string) :
  (forall emp_prefs,
      Py.get String.eqb employee_id (preferences self) = Some emp_prefs ->
      In shift_id (get_or (Prefs.preferred_shifts emp_prefs) []) ->
      In shift_id (get_or (Prefs.avoid_shifts emp_prefs) []) ->
      _get_preference self employee_id shift_id = 10)
  /\ (~ In employee_id (Py.keys (preferences self)) ->
      _get_preference self employee_id shift_id = 0).
Proof.
  split.
  - intros p Hp Hpref _. unfold _get_preference. rewrite Hp.
    apply str_in_In in Hpref. now rewrite Hpref.
  - intros H. apply get_none_not_key in H.
    unfold _get_preference. now rewrite H.
Qed.

Lemma preferred_wins_witness :
  _get_preference
    (mkProblem [] [] [("e1", Prefs.mk (Some ["s1"; "s2"]) (Some ["s2"]))] [])
    "e1" "s2" = 10
  /\ _get_preference
       (mkProblem [] [] [("e1", Prefs.mk (Some ["s1"; "s2"]) (Some ["s2"]))] [])
       "e9" "s2" = 0.
Proof.
  pose (self := mkProblem [] []
                  [("e1", Prefs.mk (Some ["s1"; "s2"]) (Some ["s2"]))] []).
  split.
  - apply (proj1 (preferred_wins self "e1" "s2")
             (Prefs.mk (Some ["s1"; "s2"]) (Some ["s2"]))).
    + reflexivity.
    + simpl. right. now left.
    + simpl. now left.
  - apply (proj2 (preferred_wins self "e9" "s2")).
    simpl. intros [H|[]]. discriminate H.
Defined.

(** *** Solve orchestrator *)

(** C4, as the code has it: on INFEASIBLE, MODEL_INVALID or UNKNOWN the
    result carries that status, no objective value, an empty assignments
    list, and a statistics dictionary with exactly the three solver
    counters num_branches, num_conflicts and is_optimal (false): it has
    neither total_assigned_shifts nor coverage_stats. *)
Theorem solve_without_solution (self : Problem) (st : State) (solver : CpSolver) :
  solve_status solver = INFEASIBLE \/ solve_status solver = MODEL_INVALID
  \/ solve_status solver = UNKNOWN ->
  exists r,
    solve self st solver = Some r
    /\ Result.status r = _status_to_string (solve_status solver)
    /\ In (Result.status r) ["INFEASIBLE"; "MODEL_INVALID"; "UNKNOWN"]
    /\ Result.objective_value r = None
    /\ Result.assignments r = []
    /\ Result.statistics r
       = [ ("num_branches", SInt (NumBranches solver));
           ("num_conflicts", SInt (NumConflicts solver));
           ("is_optimal", SBool false) ]
    /\ Py.get String.eqb "coverage_stats" (Result.statistics r) = None
    /\ Py.get String.eqb "total_assigned_shifts" (Result.statistics r) = None.
Proof.
  intros H. unfold solve.
  destruct H as [E|[E|E]]; rewrite E; simpl;
    eexists; (split; [reflexivity|]); simpl; repeat split; auto.
Qed.

Lemma solve_without_solution_witness :
  exists r,
    solve nobody_free (built nobody_free) infeasible_solver = Some r
    /\ Result.status r = _status_to_string (solve_status infeasible_solver)
    /\ In (Result.status r) ["INFEASIBLE"; "MODEL_INVALID"; "UNKNOWN"]
    /\ Result.objective_value r = None
    /\ Result.assignments r = []
    /\ Result.statistics r
       = [ ("num_branches", SInt (NumBranches infeasible_solver));
           ("num_conflicts", SInt (NumConflicts infeasible_solver));
           ("is_optimal", SBool false) ]
    /\ Py.get String.eqb "coverage_stats" (Result.statistics r) = None
    /\ Py.get String.eqb "total_assigned_shifts" (Result.statistics r) = None.
Proof.
  apply (solve_without_solution nobody_free (built nobody_free) infeasible_solver).
  left. reflexivity.
Defined.

(** C4 as stated fails: on INFEASIBLE the result does carry statistics,
    the three solver counters. *)
Lemma infeasible_keeps_counters :
  option_map Result.statistics
    (st <-? run_build nobody_free ;; solve nobody_free st infeasible_solver)
  = Some [ ("num_branches", SInt 7); ("num_conflicts", SInt 3);
           ("is_optimal", SBool false) ].
Proof. reflexivity. Qed.

(** *** Week keys *)

(** C3 fails on the code: the key joins the calendar year, not the ISO
    year, with the ISO week number.  Monday 2024-12-30 and Wednesday
    2025-01-01 lie in one ISO week (week 1 of 2025) and get different
    keys, while 2024-01-01 lies in another ISO week (week 1 of 2024) and
    shares its key with 2024-12-30. *)
Theorem week_key_uses_calendar_year :
  _get_week_key "2024-12-30" = Some "2024-W1"
  /\ _get_week_key "2025-01-01" = Some "2025-W1"
  /\ same_iso_week "2024-12-30" "2025-01-01" = true
  /\ _get_week_key "2024-01-01" = Some "2024-W1"
  /\ same_iso_week "2024-01-01" "2024-12-30" = false.
Proof. repeat split. Qed.

(** The two dates of the first pair are two days apart and no Monday
    lies between them. *)
Lemma year_end_dates_share_a_week :
  option_map Datetime.isocalendar (Datetime.strptime_ymd "2024-12-30")
  = Some (2025, 1, 1)
  /\ option_map Datetime.isocalendar (Datetime.strptime_ymd "2025-01-01")
     = Some (2025, 1, 3)
  /\ option_map Datetime.toordinal (Datetime.strptime_ymd "2025-01-01")
     = option_map (fun d => Datetime.toordinal d + 2)
                  (Datetime.strptime_ymd "2024-12-30").
Proof. repeat split. Qed.

(** *** Overlap detector *)

(** C1 fails on the code: a group holds the shifts that overlap its
    first member, whether or not they overlap each other.  With A
    09:00-17:00, B 09:00-12:00 and C 13:00-17:00 the detector returns
    the one group [A, B, C], and B and C do not overlap. *)
Theorem overlap_group_not_pairwise :
  _find_overlapping_shifts nested_day ["A"; "B"; "C"] = Some [["A"; "B"; "C"]]
  /\ (b <-? Py.get String.eqb "B" (shifts nested_day) ;;
      c <-? Py.get String.eqb "C" (shifts nested_day) ;;
      _shifts_overlap b c) = Some false.
Proof. split; reflexivity. Qed.

(** The example of the specification: A and B are grouped, C is in no
    group. *)
Lemma overlap_chained_day :
  _find_overlapping_shifts chained_day ["A"; "B"; "C"] = Some [["A"; "B"]].
Proof. reflexivity. Qed.

(** What does hold of the overlap test and of the groups. *)

(** The overlap test does not depend on the order of its arguments. *)
Lemma shifts_overlap_sym (a b : Shift.t) :
  _shifts_overlap a b = _shifts_overlap b a.
Proof.
  unfold _shifts_overlap.
  destruct (_parse_time (Shift.start_time a)), (_parse_time (Shift.end_time a)),
    (_parse_time (Shift.start_time b)), (_parse_time (Shift.end_time b));
    cbn; try reflexivity.
  now rewrite orb_comm.
Qed.

(** Two shifts overlap unless one ends no later than the other starts. *)
Lemma shifts_overlap_open (a b : Shift.t) (s1 e1 s2 e2 : Z) :
  _parse_time (Shift.start_time a) = Some s1 ->
  _parse_time (Shift.end_time a) = Some e1 ->
  _parse_time (Shift.start_time b) = Some s2 ->
  _parse_time (Shift.end_time b) = Some e2 ->
  _shifts_overlap a b = Some true <-> (s2 < e1 /\ s1 < e2).
Proof.
  intros H1 H2 H3 H4. unfold _shifts_overlap. rewrite H1, H2, H3, H4. cbn.
  destruct (Z.leb_spec e1 s2), (Z.leb_spec e2 s1); cbn;
    split; intros X; try discriminate; try reflexivity; lia.
Qed.

Section Groups.
Variable self : Problem.

Lemma overlapping_later_sound (shift_1 : Shift.t) (later tail : list string) :
  overlapping_later self shift_1 later = Some tail ->
  forall id, In id tail ->
    In id later
    /\ exists shift_2, Py.get String.eqb id (shifts self) = Some shift_2
                       /\ _shifts_overlap shift_1 shift_2 = Some true.
Proof.
  revert tail. induction later as [|id2 r IH]; intros tail H id Hid.
  - injection H as <-. destruct Hid.
  - cbn in H.
    destruct (Py.get String.eqb id2 (shifts self)) as [sh2|] eqn:G; [|discriminate].
    cbn in H. destruct (_shifts_overlap shift_1 sh2) as [b|] eqn:O; [|discriminate].
    cbn in H. destruct (overlapping_later self shift_1 r) as [t|] eqn:R; [|discriminate].
    cbn in H. injection H as <-.
    destruct b.
    + destruct Hid as [<-|Hid].
      * split; [now left|]. now exists sh2.
      * destruct (IH t eq_refl id Hid) as [I X]. split; [now right | exact X].
    + destruct (IH t eq_refl id Hid) as [I X]. split; [now right | exact X].
Qed.

(** What does hold of the detector: every group has a first shift and
    at least one more, and every further member overlaps the first. *)
Lemma overlap_groups_anchored (shift_ids : list string) (groups : list (list string)) :
  _find_overlapping_shifts self shift_ids = Some groups ->
  forall g, In g groups ->
    (2 <= List.length g)%nat
    /\ exists first rest shift_1,
         g = first :: rest
         /\ Py.get String.eqb first (shifts self) = Some shift_1
         /\ forall id, In id rest ->
              exists shift_2, Py.get String.eqb id (shifts self) = Some shift_2
                              /\ _shifts_overlap shift_1 shift_2 = Some true.
Proof.
  revert groups. induction shift_ids as [|id1 later IH]; intros groups H g Hg.
  - injection H as <-. destruct Hg.
  - cbn in H.
    destruct (Py.get String.eqb id1 (shifts self)) as [sh1|] eqn:G; [|discriminate].
    cbn in H. destruct (overlapping_later self sh1 later) as [tail|] eqn:T; [|discriminate].
    cbn in H. destruct (_find_overlapping_shifts self later) as [gs|] eqn:R; [|discriminate].
    cbn in H. injection H as <-.
    destruct tail as [|t0 tl].
    + cbn in Hg. now apply (IH gs eq_refl).
    + cbn in Hg. destruct Hg as [<-|Hg]; [|now apply (IH gs eq_refl)].
      split; [cbn; lia|]. exists id1, (t0 :: tl), sh1.
      split; [reflexivity|]. split; [exact G|].
      intros id Hid. exact (proj2 (overlapping_later_sound sh1 later _ T id Hid)).
Qed.
End Groups.

Lemma overlap_groups_anchored_witness :
  (2 <= List.length ["A"; "B"])%nat
  /\ exists first rest shift_1,
       ["A"; "B"] = first :: rest
       /\ Py.get String.eqb first (shifts chained_day) = Some shift_1
       /\ forall id, In id rest ->
            exists shift_2,
              Py.get String.eqb id (shifts chained_day) = Some shift_2
              /\ _shifts_overlap shift_1 shift_2 = Some true.
Proof.
  apply (overlap_groups_anchored chained_day ["A"; "B"; "C"] [["A"; "B"]]).
  - reflexivity.
  - simpl. left. reflexivity.
Defined.

Lemma shifts_overlap_open_witness :
  _shifts_overlap (shift_at "A" "2024-03-01" "09:00" "13:00")
                  (shift_at "B" "2024-03-01" "12:00" "16:00") = Some true
  <-> (720 < 780 /\ 540 < 960).
Proof.
  apply (shifts_overlap_open (shift_at "A" "2024-03-01" "09:00" "13:00")
           (shift_at "B" "2024-03-01" "12:00" "16:00") 540 780 720 960);
    reflexivity.
Defined.

(** *** Weekly hours *)

(** C2 fails on the code, through the week key of C3: on [year_end] the
    model is built, the all-true valuation satisfies every constraint
    of it, and the solution extracted from it gives e1 48 hours in ISO
    week 1 of 2025 against a cap of 24. *)
Theorem weekly_cap_split_at_new_year :
  exists st r,
    run_build year_end = Some st
    /\ satisfies (values year_end_solver) (model st) = true
    /\ solve year_end st year_end_solver = Some r
    /\ Result.status r = "OPTIMAL"
    /\ week_hours (Result.assignments r) "e1" (2025, 1) = 48
    /\ option_map Employee.max_hours_per_week
         (Py.get String.eqb "e1" (employees year_end)) = Some (Some 24).
Proof.
  eexists. eexists.
  split; [vm_compute; reflexivity|].
  repeat split.
Qed.

(** On [year_end] the solver has no choice: every valuation satisfying
    the model assigns e1 all four shifts. *)
Lemma year_end_forced (v : valuation) :
  satisfies v (model (built year_end)) = true ->
  v 0%nat = true /\ v 1%nat = true /\ v 2%nat = true /\ v 3%nat = true.
Proof.
  intros H. vm_compute in H.
  destruct (v 0%nat), (v 1%nat), (v 2%nat), (v 3%nat);
    try discriminate; repeat split.
Qed.

Lemma year_end_forced_witness :
  values year_end_solver 0%nat = true /\ values year_end_solver 1%nat = true
  /\ values year_end_solver 2%nat = true /\ values year_end_solver 3%nat = true.
Proof. apply (year_end_forced (values year_end_solver)). vm_compute. reflexivity. Defined.

(** *** Coverage statistics *)

(** The counting dictionary agrees with counting the solution's entries. *)

Lemma shift_counts_from (s : string) (l : list Assignment.t) (acc : Py.dict string Z) :
  get_or (Py.get String.eqb s
            (fold_left
               (fun counts a =>
                  let shift_id := Assignment.shift_id a in
                  Py.set String.eqb shift_id
                    (get_or (Py.get String.eqb shift_id counts) 0 + 1) counts)
               l acc)) 0
  = get_or (Py.get String.eqb s acc) 0 + count_assigned s l.
Proof.
  revert acc. induction l as [|a r IH]; intros acc.
  - unfold count_assigned. simpl. lia.
  - cbn [fold_left]. rewrite IH. unfold count_assigned. cbn [filter].
    destruct (String.eqb_spec (Assignment.shift_id a) s) as [E|N].
    + rewrite E, get_set_same. cbn [get_or List.length]. lia.
    + rewrite get_set_other by congruence. lia.
Qed.

Lemma shift_counts_count (s : string) (l : list Assignment.t) :
  get_or (Py.get String.eqb s (shift_counts l)) 0 = count_assigned s l.
Proof. unfold shift_counts. rewrite shift_counts_from. reflexivity. Qed.

(** C8: when the solver reports OPTIMAL or FEASIBLE, the result's
    coverage statistics give total_shifts as the number of shifts,
    fully_covered_shifts as the number of shifts whose count of
    assignments in the solution reaches min_staff (1 when absent), and
    coverage_percentage as the float fully_covered / total * 100, or the
    integer 0 when there is no shift; with 4 shifts and 3 of them
    covered the percentage is 75.0. *)
Theorem coverage_stats_report (self : Problem) (st : State) (solver : CpSolver)
  (r : Result.t) :
  solve_status solver = OPTIMAL \/ solve_status solver = FEASIBLE ->
  solve self st solver = Some r ->
  exists c,
    Py.get String.eqb "coverage_stats" (Result.statistics r) = Some (SCoverage c)
    /\ total_shifts c = Z.of_nat (List.length (shifts self))
    /\ fully_covered_shifts c
       = Z.of_nat (List.length
           (filter (fun p => get_or (Shift.min_staff (snd p)) 1
                             <=? count_assigned (fst p) (Result.assignments r))
                   (shifts self)))
    /\ coverage_percentage c
       = (if total_shifts c =? 0 then NInt 0
          else NFloat (float_of_count (fully_covered_shifts c)
                       / float_of_count (total_shifts c)
                       * float_of_count 100)%float)
    /\ (total_shifts c = 4 -> fully_covered_shifts c = 3 ->
        coverage_percentage c = NFloat 75%float).
Proof.
  intros Hs Hr. unfold solve in Hr.
  assert (F : found (solve_status solver) = true) by (destruct Hs as [E|E]; now rewrite E).
  rewrite F in Hr.
  destruct (_extract_solution self st solver) as [assigned|] eqn:E; [|discriminate].
  cbn [obind] in Hr. injection Hr as <-.
  exists (_calculate_coverage_stats self assigned).
  split; [reflexivity|].
  cbn [Result.assignments].
  assert (Hf : fully_covered_shifts (_calculate_coverage_stats self assigned)
       = Z.of_nat (List.length
           (filter (fun p => get_or (Shift.min_staff (snd p)) 1
                             <=? count_assigned (fst p) assigned)
                   (shifts self)))).
  { unfold _calculate_coverage_stats. cbn [fully_covered_shifts].
    do 2 f_equal. apply filter_ext. intros [s_id shift]. cbn [fst snd].
    now rewrite shift_counts_count. }
  assert (Hp : coverage_percentage (_calculate_coverage_stats self assigned)
       = (if total_shifts (_calculate_coverage_stats self assigned) =? 0 then NInt 0
          else NFloat (float_of_count (fully_covered_shifts (_calculate_coverage_stats self assigned))
                       / float_of_count (total_shifts (_calculate_coverage_stats self assigned))
                       * float_of_count 100)%float)).
  { unfold _calculate_coverage_stats.
    cbn [coverage_percentage total_shifts fully_covered_shifts].
    destruct (Z.ltb_spec 0 (Z.of_nat (List.length (shifts self)))),
             (Z.eqb_spec (Z.of_nat (List.length (shifts self))) 0);
      try reflexivity; lia. }
  split; [reflexivity|]. split; [exact Hf|]. split; [exact Hp|].
  intros H4 H3. rewrite Hp, H4, H3. reflexivity.
Qed.

(** *** Grouping by date *)

Lemma by_date_step (d : string) (acc : Py.dict string (list string))
  (shift_id : string) (shift : Shift.t) :
  let date := Shift.date shift in
  let acc' := if Py.contains String.eqb date acc then acc
              else Py.set String.eqb date [] acc in
  get_or (Py.get String.eqb d
            (Py.set String.eqb date
               (get_or (Py.get String.eqb date acc') [] ++ [shift_id]) acc')) []
  = get_or (Py.get String.eqb d acc) []
    ++ (if String.eqb (Shift.date shift) d then [shift_id] else []).
Proof.
  cbv zeta. unfold Py.contains.
  destruct (String.eqb_spec (Shift.date shift) d) as [E|N].
  - subst d. rewrite get_set_same. cbn [get_or].
    destruct (Py.get String.eqb (Shift.date shift) acc) as [l|] eqn:G.
    + rewrite G. reflexivity.
    + rewrite get_set_same. reflexivity.
  - rewrite get_set_other by congruence. rewrite app_nil_r.
    destruct (Py.get String.eqb (Shift.date shift) acc) as [l|] eqn:G.
    + reflexivity.
    + rewrite get_set_other by congruence. reflexivity.
Qed.

Lemma by_date_fold (d : string) (l : Py.dict string Shift.t)
  (acc : Py.dict string (list string)) :
  get_or (Py.get String.eqb d
    (fold_left
       (fun acc '(shift_id, shift) =>
          let date := Shift.date shift in
          let acc := if Py.contains String.eqb date acc then acc
                     else Py.set String.eqb date [] acc in
          Py.set String.eqb date
                 (get_or (Py.get String.eqb date acc) [] ++ [shift_id]) acc)
       l acc)) []
  = get_or (Py.get String.eqb d acc) []
    ++ map fst (filter (fun p => String.eqb (Shift.date (snd p)) d) l).
Proof.
  revert acc. induction l as [|[sid sh] r IH]; intros acc.
  - simpl. now rewrite app_nil_r.
  - cbn [fold_left]. rewrite IH.
    etransitivity;
      [apply f_equal2; [apply (by_date_step d acc sid sh) | reflexivity]|].
    cbn [filter snd]. rewrite <- app_assoc. f_equal.
    destruct (String.eqb (Shift.date sh) d); reflexivity.
Qed.

Lemma shifts_by_date_get (self : Problem) (d : string) (l : list string) :
  Py.get String.eqb d (shifts_by_date self) = Some l -> l = ids_on self d.
Proof.
  intros H. pose proof (by_date_fold d (shifts self) []) as F.
  change (get_or (Py.get String.eqb d (shifts_by_date self)) []
          = [] ++ ids_on self d) in F.
  rewrite H in F. exact F.
Qed.

Lemma in_ids_on (self : Problem) (d s : string) :
  In s (ids_on self d) <->
  exists shift, In (s, shift) (shifts self) /\ Shift.date shift = d.
Proof.
  unfold ids_on. rewrite in_map_iff. split.
  - intros [[s' sh] [E I]]. cbn in E. subst s'.
    apply filter_In in I. destruct I as [I D]. cbn in D.
    apply String.eqb_eq in D. now exists sh.
  - intros [sh [I D]]. exists (s, sh). split; [reflexivity|].
    apply filter_In. split; [exact I|]. cbn. now apply String.eqb_eq.
Qed.

(** *** Sorting keeps the elements *)

Lemma in_insert_sorted (x y : string) (l : list string) :
  In y (Py.insert_sorted x l) <-> y = x \/ In y l.
Proof.
  induction l as [|z r IH]; simpl.
  - intuition congruence.
  - destruct (String.leb x z); simpl; [intuition congruence|].
    rewrite IH. intuition congruence.
Qed.

Lemma in_sorted (y : string) (l : list string) :
  In y (Py.sorted l) <-> In y l.
Proof.
  induction l as [|x r IH]; simpl; [reflexivity|].
  rewrite in_insert_sorted, IH. intuition congruence.
Qed.

Lemma in_slice {A : Type} (x : A) (n i : nat) (l : list A) :
  In x (firstn n (skipn i l)) -> In x l.
Proof.
  intros H. rewrite <- (firstn_skipn i l). apply in_or_app. right.
  rewrite <- (firstn_skipn n (skipn i l)). apply in_or_app. now left.
Qed.

Lemma in_window_dates (self : Problem) (e : string) (i : nat) (d : string) :
  In d (window_dates self e i) -> In d (Py.keys (shifts_by_date self)).
Proof.
  unfold window_dates, sorted_dates. intros H.
  apply in_slice in H. exact (proj1 (in_sorted _ _) H).
Qed.

Lemma window_dates_length (self : Problem) (e : string) (i : nat) :
  (i < num_windows self e)%nat ->
  List.length (window_dates self e i) = (max_consec_of self e + 1)%nat.
Proof.
  unfold num_windows, window_dates. intros H.
  rewrite length_firstn, length_skipn. lia.
Qed.

(** *** Meaning of the constraints the objective builder emits *)

Lemma satisfies_prefix (v : valuation) (m m' : CpModel.t) :
  (exists cs, constraints m' = constraints m ++ cs) ->
  satisfies v m' = true -> satisfies v m = true.
Proof.
  intros [cs E]. unfold satisfies. rewrite E, forallb_app.
  intros H. now apply andb_prop in H.
Qed.

Lemma eval_sum_of_bounds (v : valuation) (ys : list var) :
  0 <= eval v (sum_of ys) <= Z.of_nat (List.length ys).
Proof.
  induction ys as [|y r IH]; simpl; [lia|].
  unfold value. destruct (v y); lia.
Qed.

Lemma eval_sum_of_full (v : valuation) (ys : list var) :
  eval v (sum_of ys) = Z.of_nat (List.length ys) <-> Forall (fun y => v y = true) ys.
Proof.
  induction ys as [|y r IH].
  - simpl. split; [constructor | reflexivity].
  - pose proof (eval_sum_of_bounds v r) as B.
    cbn [sum_of map eval List.length]. fold (sum_of r).
    unfold value. split.
    + intros H. destruct (v y) eqn:E.
      * constructor; [exact E|]. apply IH. lia.
      * lia.
    + intros H. inversion H as [|? ? Hy Hr]; subst.
      rewrite Hy. apply IH in Hr. lia.
Qed.

Lemma Forall2_in_r {A B : Type} (R : A -> B -> Prop) (l : list A) (l' : list B) (b : B) :
  Forall2 R l l' -> In b l' -> exists a, In a l /\ R a b.
Proof.
  induction 1 as [|a b' l l' H F IH]; simpl; [intros []|].
  intros [->|I]; [exists a; auto|].
  destruct (IH I) as [a' [Ia Ra]]. exists a'. auto.
Qed.

Lemma Forall2_in_l {A B : Type} (R : A -> B -> Prop) (l : list A) (l' : list B) (a : A) :
  Forall2 R l l' -> In a l -> exists b, In b l' /\ R a b.
Proof.
  induction 1 as [|a' b l l' H F IH]; simpl; [intros []|].
  intros [->|I]; [exists b; auto|].
  destruct (IH I) as [b' [Ib Rb]]. exists b'. auto.
Qed.

Lemma Forall2_nth {A B : Type} (R : A -> B -> Prop) (l : list A) (l' : list B)
  (i : nat) (a : A) :
  Forall2 R l l' -> nth_error l i = Some a ->
  exists b, nth_error l' i = Some b /\ R a b.
Proof.
  intros F. revert i. induction F as [|a' b l l' H F IH]; intros [|i]; simpl;
    try discriminate.
  - intros [= ->]. now exists b.
  - apply IH.
Qed.

Section Runs.
Variable self : Problem.

(** *** How a run grows the model *)

Lemma grows_refl (st : State) : grows self st st [].
Proof.
  constructor.
  - reflexivity.
  - now rewrite app_nil_r.
  - exists []. now rewrite app_nil_r.
  - intros y e d Hy Hn.
    assert (nth_error (variables (model st)) y = None) as N
        by now apply nth_error_None.
    congruence.
Qed.

Lemma day_ok_later (st st' : State) (vs : list VarName) (y : var) (e d : string) :
  grows self st st' vs -> day_ok self st y e d -> day_ok self st' y e d.
Proof.
  intros G H v Hv. rewrite (g_assignments _ _ _ _ G).
  apply H. eapply satisfies_prefix; [exact (g_constraints _ _ _ _ G) | exact Hv].
Qed.

Lemma grows_trans (st st1 st2 : State) (vs1 vs2 : list VarName) :
  grows self st st1 vs1 -> grows self st1 st2 vs2 ->
  grows self st st2 (vs1 ++ vs2).
Proof.
  intros G1 G2. constructor.
  - rewrite (g_assignments _ _ _ _ G2). apply (g_assignments _ _ _ _ G1).
  - rewrite (g_variables _ _ _ _ G2), (g_variables _ _ _ _ G1).
    now rewrite app_assoc.
  - destruct (g_constraints _ _ _ _ G1) as [c1 E1].
    destruct (g_constraints _ _ _ _ G2) as [c2 E2].
    exists (c1 ++ c2). now rewrite E2, E1, app_assoc.
  - intros y e d Hy Hn.
    destruct (Nat.lt_ge_cases y (List.length (variables (model st1)))) as [L|L].
    + apply (day_ok_later st1 st2 vs2); [exact G2|].
      apply (g_days _ _ _ _ G1); [exact Hy|].
      rewrite (g_variables _ _ _ _ G2) in Hn.
      now rewrite nth_error_app1 in Hn.
    + apply (g_days _ _ _ _ G2); assumption.
Qed.

(** A step that appends constraints and one variable that is no day
    indicator. *)
Lemma grows_plain (st : State) (n : VarName) (cs : list Constraint) :
  (forall e d, n <> WorkedVar e d) ->
  grows self st
    (mkState (CpModel.mk (variables (model st) ++ [n])
                         (constraints (model st) ++ cs)
                         (objective (model st)))
             (assignments st)) [n].
Proof.
  intros Hn. constructor; cbn.
  - reflexivity.
  - reflexivity.
  - now exists cs.
  - intros y e d Hy Hnth. exfalso.
    rewrite nth_error_app2 in Hnth by exact Hy.
    destruct (y - List.length (variables (model st)))%nat as [|k]; cbn in Hnth.
    + injection Hnth as E. now apply (Hn e d).
    + destruct k; discriminate.
Qed.

Lemma nth_error_later (st st' : State) (vs : list VarName) (x : var) (n : VarName) :
  grows self st st' vs ->
  nth_error (variables (model st)) x = Some n ->
  nth_error (variables (model st')) x = Some n.
Proof.
  intros G H. rewrite (g_variables _ _ _ _ G).
  rewrite nth_error_app1; [exact H|].
  apply nth_error_Some. congruence.
Qed.

Lemma window_ok_later (weight : Z) (e : string) (i : nat) (t : Z * var)
  (st st' : State) (vs : list VarName) :
  window_ok self weight e i t st -> grows self st st' vs ->
  window_ok self weight e i t st'.
Proof.
  intros [Hc [Hn Hv]] G. split; [exact Hc|]. split.
  - eapply nth_error_later; eassumption.
  - intros v Sv. rewrite (g_assignments _ _ _ _ G). apply Hv.
    eapply satisfies_prefix; [exact (g_constraints _ _ _ _ G) | exact Sv].
Qed.

Lemma employee_ok_later (weight : Z) (e : string) (terms : LinExpr)
  (st st' : State) (vs : list VarName) :
  employee_ok self weight st e terms -> grows self st st' vs ->
  employee_ok self weight st' e terms.
Proof.
  intros [Hl [Hz Hw]] G. split; [exact Hl|]. split; [exact Hz|].
  intros i Hi. destruct (Hw i Hi) as [L [x [Hx Ho]]].
  split; [exact L|]. exists x. split; [exact Hx|].
  eapply window_ok_later; eassumption.
Qed.

(** *** Loops *)

Lemma forM_run {A B : Type} (body : A -> M B) (P : A -> State -> Prop)
  (f : A -> list VarName) (Q : A -> B -> State -> Prop) :
  (forall a st st' vs, P a st -> grows self st st' vs -> P a st') ->
  (forall a b st st' vs, Q a b st -> grows self st st' vs -> Q a b st') ->
  (forall a st, P a st ->
     exists b st', body a st = Some (b, st') /\ grows self st st' (f a) /\ Q a b st') ->
  forall xs st, Forall (fun a => P a st) xs ->
    exists bs st',
      forM xs body st = Some (bs, st')
      /\ grows self st st' (flat_map f xs)
      /\ Forall2 (fun a b => Q a b st') xs bs.
Proof.
  intros HP HQ Hbody. induction xs as [|a r IH]; intros st HF.
  - exists [], st. split; [reflexivity|]. split; [apply grows_refl | constructor].
  - inversion HF as [|? ? Pa Pr]; subst.
    destruct (Hbody a st Pa) as [b [st1 [E1 [G1 Q1]]]].
    assert (Pr1 : Forall (fun a => P a st1) r).
    { eapply Forall_impl; [|exact Pr]. intros a' Pa'. exact (HP a' st st1 (f a) Pa' G1). }
    destruct (IH st1 Pr1) as [bs [st2 [E2 [G2 Q2]]]].
    exists (b :: bs), st2. split.
    + cbn [forM]. unfold bind. rewrite E1, E2. reflexivity.
    + split; [cbn [flat_map]; eapply grows_trans; eassumption|].
      constructor; [eapply HQ; eassumption | exact Q2].
Qed.

(** Reading the assignment table leaves the state alone. *)
Lemma forM_assignment (e : string) (l : list string) (st : State) :
  (forall s, In s l -> exists x, Py.get Py.pair_eqb (e, s) (assignments st) = Some x) ->
  exists xs,
    forM l (fun s_id => assignment e s_id) st = Some (xs, st)
    /\ Forall2 (fun s x => Py.get Py.pair_eqb (e, s) (assignments st) = Some x) l xs.
Proof.
  induction l as [|s r IH]; intros H.
  - exists []. split; [reflexivity | constructor].
  - destruct (H s (or_introl eq_refl)) as [x Hx].
    destruct IH as [xs [E F]]; [intros s' I; apply H; now right|].
    exists (x :: xs). split.
    + cbn [forM]. unfold bind at 1. unfold assignment at 1. rewrite Hx.
      unfold bind. rewrite E. reflexivity.
    + now constructor.
Qed.

End Runs.

Lemma flat_map_single {A B : Type} (g : A -> B) (l : list A) :
  flat_map (fun a => [g a]) l = map g l.
Proof. induction l as [|a r IH]; cbn; congruence. Qed.

Section Penalty.
Variable self : Problem.

Lemma covered_later (e : string) (st st' : State) (vs : list VarName) :
  covered self e st -> grows self st st' vs -> covered self e st'.
Proof.
  intros H G s Hs. rewrite (g_assignments _ _ _ _ G). now apply H.
Qed.

Lemma ids_on_keys (d s : string) :
  In s (ids_on self d) -> In s (Py.keys (shifts self)).
Proof.
  intros H. apply in_ids_on in H. destruct H as [sh [I _]].
  unfold Py.keys. apply in_map_iff. now exists (s, sh).
Qed.

(** *** The day loop body *)

Lemma day_indicator_run (e d : string) (st : State) :
  In d (Py.keys (shifts_by_date self)) -> covered self e st ->
  exists y st',
    day_indicator self e d st = Some (y, st')
    /\ grows self st st' [WorkedVar e d]
    /\ day_ok self st' y e d.
Proof.
  intros Hd Hc.
  destruct (get_some_key d _ Hd) as [l Hl].
  pose proof (shifts_by_date_get self d l Hl) as El.
  set (y := List.length (variables (model st))).
  set (st1 := mkState (CpModel.mk (variables (model st) ++ [WorkedVar e d])
                         (constraints (model st)) (objective (model st)))
                      (assignments st)).
  destruct (forM_assignment e l st1) as [xs [E F]].
  { intros s Hs. cbn. apply Hc. apply (ids_on_keys d). now rewrite <- El. }
  set (st' := mkState (CpModel.mk (variables (model st) ++ [WorkedVar e d])
                         (constraints (model st) ++ [MaxEquality y xs])
                         (objective (model st)))
                      (assignments st)).
  assert (Hok : day_ok self st' y e d).
  { intros v Sv. unfold satisfies in Sv. cbn in Sv.
    rewrite forallb_app in Sv. apply andb_prop in Sv. destruct Sv as [_ Sv].
    cbn in Sv. rewrite andb_true_r in Sv. apply eqb_prop in Sv.
    rewrite Sv, existsb_exists. cbn [assignments st']. split.
    - intros [x [Ix Vx]].
      destruct (Forall2_in_r _ _ _ _ F Ix) as [s [Is Gs]].
      rewrite El in Is. apply in_ids_on in Is. destruct Is as [sh [Ish Dsh]].
      exists s, sh, x. cbn in Gs. auto.
    - intros [s [sh [x [Ish [Dsh [Gs Vx]]]]]].
      assert (Is : In s l) by (rewrite El; apply in_ids_on; now exists sh).
      destruct (Forall2_in_l _ _ _ _ F Is) as [x' [Ix' Gx']].
      cbn in Gx'. rewrite Gs in Gx'. injection Gx' as <-.
      now exists x. }
  exists y, st'. split; [|split; [|exact Hok]].
  - unfold day_indicator, bind, lift. rewrite Hl.
    unfold NewBoolVar. fold st1. fold y. rewrite E. reflexivity.
  - constructor; cbn.
    + reflexivity.
    + reflexivity.
    + now eexists.
    + intros y' e' d' Hy Hn.
      rewrite nth_error_app2 in Hn by exact Hy.
      destruct (y' - List.length (variables (model st)))%nat as [|k] eqn:Ek;
        cbn in Hn; [|destruct k; discriminate].
      injection Hn as <- <-.
      replace y' with y by (unfold y; lia). exact Hok.
Qed.

(** *** The window loop body *)

Lemma window_terms_run (weight : Z) (e : string) (i : nat) (st : State) :
  covered self e st ->
  exists t st',
    window_terms self weight e (sorted_dates self) (max_consec_of self e) i st
    = Some (t, st')
    /\ grows self st st'
         (map (WorkedVar e) (window_dates self e i) ++ [ConsecVar e i])
    /\ window_ok self weight e i t st'.
Proof.
  intros Hc.
  destruct (forM_run self (day_indicator self e)
              (fun d st => In d (Py.keys (shifts_by_date self)) /\ covered self e st)
              (fun d => [WorkedVar e d])
              (fun d y st' => day_ok self st' y e d))
    with (xs := window_dates self e i) (st := st)
    as [ys [st1 [E1 [G1 F1]]]].
  - intros d s s' vs [Hd Hcov] G. split; [exact Hd|].
    eapply covered_later; eassumption.
  - intros d y s s' vs H G. eapply day_ok_later; eassumption.
  - intros d s [Hd Hcov]. now apply day_indicator_run.
  - apply Forall_forall. intros d Hd. split; [|exact Hc].
    eapply in_window_dates; eassumption.
  - set (x := List.length (variables (model st1))).
    set (n := Z.of_nat (List.length ys)).
    set (cs := [Linear (sum_of ys) Eq n (Some (Pos x));
                Linear (sum_of ys) Lt n (Some (Neg x))]).
    set (st' := mkState (CpModel.mk (variables (model st1) ++ [ConsecVar e i])
                           (constraints (model st1) ++ cs)
                           (objective (model st1)))
                        (assignments st1)).
    assert (G2 : grows self st1 st' [ConsecVar e i]).
    { apply grows_plain. intros e' d'. discriminate. }
    exists (- (1) * weight, x), st'. split; [|split].
    + unfold window_terms, Py.slice.
      replace (i + max_consec_of self e + 1 - i)%nat
        with (max_consec_of self e + 1)%nat by lia.
      fold (window_dates self e i).
      unfold bind at 1. rewrite E1.
      unfold bind, NewBoolVar, AddCount, with_constraint, ret. cbn.
      unfold st', cs, n, x. rewrite <- !app_assoc. reflexivity.
    + replace (flat_map (fun d => [WorkedVar e d]) (window_dates self e i))
        with (map (WorkedVar e) (window_dates self e i)) in G1
        by (symmetry; apply flat_map_single).
      eapply grows_trans; eassumption.
    + split; [cbn [fst]; lia|]. split.
      * cbn. rewrite nth_error_app2 by (unfold x; lia).
        unfold x. now rewrite Nat.sub_diag.
      * intros v Sv. cbn [snd].
        assert (S1 : satisfies v (model st1) = true)
          by (eapply satisfies_prefix; [exact (g_constraints _ _ _ _ G2) | exact Sv]).
        assert (Hdays : Forall2 (fun d y => v y = true <->
                                   works_on self (assignments st') v e d)
                                (window_dates self e i) ys).
        { eapply Forall2_impl; [|exact F1]. intros d y H. apply (H v S1). }
        unfold satisfies in Sv. cbn in Sv. rewrite forallb_app in Sv.
        apply andb_prop in Sv. destruct Sv as [_ Sv]. cbn in Sv.
        rewrite andb_true_r in Sv. apply andb_prop in Sv.
        destruct Sv as [Cpos Cneg].
        pose proof (eval_sum_of_bounds v ys) as B. fold n in B.
        pose proof (eval_sum_of_full v ys) as Full. fold n in Full.
        assert (All : Forall (fun y => v y = true) ys <->
                      (forall d, In d (window_dates self e i) ->
                                 works_on self (assignments st') v e d)).
        { split.
          - intros Fa d Hd.
            destruct (Forall2_in_l _ _ _ _ Hdays Hd) as [y [Iy Hy]].
            apply Hy. rewrite Forall_forall in Fa. now apply Fa.
          - intros Hw. apply Forall_forall. intros y Iy.
            destruct (Forall2_in_r _ _ _ _ Hdays Iy) as [d [Id Hy]].
            apply Hy. now apply Hw. }
        rewrite <- All, <- Full.
        destruct (v x) eqn:Vx; cbn in Cpos, Cneg.
        -- apply Z.eqb_eq in Cpos. split; [intros _; exact Cpos | reflexivity].
        -- apply Z.ltb_lt in Cneg. split; [discriminate | lia].
Qed.
End Penalty.

Lemma nth_error_seq0 (n i : nat) : (i < n)%nat -> nth_error (seq 0 n) i = Some i.
Proof.
  intros H. rewrite (nth_error_nth' _ 0%nat) by (now rewrite length_seq).
  now rewrite seq_nth.
Qed.

Section Penalty2.
Variable self : Problem.

Lemma employee_terms_run (weight : Z) (e : string) (st : State) :
  In e (Py.keys (employees self)) -> covered self e st ->
  exists ts st',
    employee_terms self weight e st = Some (ts, st')
    /\ grows self st st' (window_vars self e)
    /\ employee_ok self weight st' e ts.
Proof.
  intros He Hc.
  destruct (get_some_key e _ He) as [emp Hemp].
  assert (Hmc : get_or (Employee.max_consecutive_days emp) 5%nat
                = max_consec_of self e)
    by (unfold max_consec_of; now rewrite Hemp).
  destruct (forM_run self
              (window_terms self weight e (sorted_dates self) (max_consec_of self e))
              (fun _ st => covered self e st)
              (fun i => map (WorkedVar e) (window_dates self e i) ++ [ConsecVar e i])
              (fun i t st' => window_ok self weight e i t st'))
    with (xs := seq 0 (num_windows self e)) (st := st)
    as [ts [st' [E [G F]]]].
  - intros _ s s' vs H G. eapply covered_later; eassumption.
  - intros i t s s' vs H G. eapply window_ok_later; eassumption.
  - intros i s H. now apply window_terms_run.
  - apply Forall_forall. intros i _. exact Hc.
  - exists ts, st'. split; [|split; [exact G|]].
    + unfold employee_terms, bind at 1, lift. rewrite Hemp, Hmc. exact E.
    + pose proof (Forall2_length F) as L. rewrite length_seq in L.
      split; [now symmetry|]. split.
      * intros Hn. unfold num_windows in L.
        destruct ts; [reflexivity | cbn in L; lia].
      * intros i Hi. split; [now apply window_dates_length|].
        destruct (Forall2_nth _ _ _ i i F (nth_error_seq0 _ _ Hi))
          as [[c x] [Hn Hw]].
        exists x. pose proof Hw as [Hc' _]. cbn in Hc'. subst c. auto.
Qed.

Lemma consecutive_days_run (weight : Z) (st : State) :
  assignments_complete self st ->
  exists per_employee st',
    _add_consecutive_days_terms self weight st
    = Some (List.concat per_employee, st')
    /\ grows self st st' (flat_map (window_vars self) (Py.keys (employees self)))
    /\ Forall2 (employee_ok self weight st') (Py.keys (employees self)) per_employee.
Proof.
  intros Hc.
  destruct (forM_run self (employee_terms self weight)
              (fun e st => In e (Py.keys (employees self)) /\ covered self e st)
              (window_vars self)
              (fun e ts st' => employee_ok self weight st' e ts))
    with (xs := Py.keys (employees self)) (st := st)
    as [per [st' [E [G F]]]].
  - intros e s s' vs [He H] G. split; [exact He|].
    eapply covered_later; eassumption.
  - intros e ts s s' vs H G. eapply employee_ok_later; eassumption.
  - intros e s [He H]. now apply employee_terms_run.
  - apply Forall_forall. intros e He. split; [exact He|].
    intros s Hs. now apply Hc.
  - exists per, st'. split; [|split; assumption].
    unfold _add_consecutive_days_terms, bind. rewrite E. reflexivity.
Qed.


(** C6, as the code has it: the pass creates its variables employee
    after employee and window after window, one day indicator for each
    date of the window followed by the window's indicator
    ([window_vars]); so a (employee, date) pair gets one day indicator
    per window of that employee holding the date.  Each day indicator,
    in every valuation satisfying the model's constraints, is true
    exactly when the employee is assigned a shift on that date
    ([day_ok]). *)
Theorem day_indicator_per_window_date (weight : Z) (st : State) :
  assignments_complete self st ->
  exists terms st',
    _add_consecutive_days_terms self weight st = Some (terms, st')
    /\ variables (model st')
       = variables (model st)
         ++ flat_map (window_vars self) (Py.keys (employees self))
    /\ forall y e d,
         (List.length (variables (model st)) <= y)%nat ->
         nth_error (variables (model st')) y = Some (WorkedVar e d) ->
         day_ok self st' y e d.
Proof.
  intros Hc. destruct (consecutive_days_run weight st Hc) as [per [st' [E [G _]]]].
  exists (List.concat per), st'. split; [exact E|]. split.
  - exact (g_variables _ _ _ _ G).
  - exact (g_days _ _ _ _ G).
Qed.
End Penalty2.



Lemma day_indicator_per_window_date_witness :
  exists terms st',
    _add_consecutive_days_terms three_days 30 three_days_state = Some (terms, st')
    /\ variables (model st')
       = variables (model three_days_state)
         ++ flat_map (window_vars three_days) (Py.keys (employees three_days))
    /\ forall y e d,
         (List.length (variables (model three_days_state)) <= y)%nat ->
         nth_error (variables (model st')) y = Some (WorkedVar e d) ->
         day_ok three_days st' y e d.
Proof.
  apply (day_indicator_per_window_date three_days 30 three_days_state).
  intros e s He Hs. cbn in He, Hs.
  destruct He as [<-|[<-|[]]]; destruct Hs as [<-|[<-|[<-|[]]]];
    eexists; vm_compute; reflexivity.
Defined.

(** C6 as stated fails: in the model built for [three_days] the pair
    (e1, 2024-03-02) has two day indicators, one per window holding the
    date, and the pair (e2, 2024-03-01) has none, e2 having no window. *)
Lemma day_indicator_twice_or_never :
  count_name (WorkedVar "e1" "2024-03-02") (model (built three_days)) = 2%nat
  /\ count_name (WorkedVar "e2" "2024-03-01") (model (built three_days)) = 0%nat.
Proof. split; vm_compute; reflexivity. Qed.

(** On [three_days] the pass yields one penalty term per window of e1,
    and the valuation in which e1 works every shift satisfies the
    constraints it emits with both window indicators true. *)
Lemma three_days_penalties :
  exists st',
    _add_consecutive_days_terms three_days 30 three_days_state
    = Some ([(-30, 8%nat); (-30, 11%nat)], st')
    /\ satisfies e1_works_all (model st') = true
    /\ e1_works_all 8%nat = true /\ e1_works_all 11%nat = true.
Proof. eexists. split; [vm_compute; reflexivity|]. repeat split. Qed.

Lemma coverage_stats_report_witness :
  exists c,
    Py.get String.eqb "coverage_stats" (Result.statistics three_of_four_result)
    = Some (SCoverage c)
    /\ total_shifts c = Z.of_nat (List.length (shifts four_shifts))
    /\ fully_covered_shifts c
       = Z.of_nat (List.length
           (filter (fun p => get_or (Shift.min_staff (snd p)) 1
                             <=? count_assigned (fst p)
                                   (Result.assignments three_of_four_result))
                   (shifts four_shifts)))
    /\ coverage_percentage c
       = (if total_shifts c =? 0 then NInt 0
          else NFloat (float_of_count (fully_covered_shifts c)
                       / float_of_count (total_shifts c)
                       * float_of_count 100)%float)
    /\ (total_shifts c = 4 -> fully_covered_shifts c = 3 ->
        coverage_percentage c = NFloat 75%float).
Proof.
  apply (coverage_stats_report four_shifts (built four_shifts) three_of_four
           three_of_four_result).
  - right. reflexivity.
  - vm_compute. reflexivity.
Defined.

(** The example of the specification: four shifts, three of them
    staffed, coverage 75.0. *)
Lemma coverage_three_of_four :
  Py.get String.eqb "coverage_stats" (Result.statistics three_of_four_result)
  = Some (SCoverage (mkCoverage 4 3 (NFloat 75%float))).
Proof. vm_compute. reflexivity. Qed.

(** *** The assignment table *)

Lemma pair_eqb_refl (k : string * string) : Py.pair_eqb k k = true.
Proof. unfold Py.pair_eqb. now rewrite !String.eqb_refl. Qed.

Lemma pair_set_keeps (k k' : string * string) (v : var)
  (d : Py.dict (string * string) var) :
  k = k' \/ (exists x, Py.get Py.pair_eqb k d = Some x) ->
  exists x, Py.get Py.pair_eqb k (Py.set Py.pair_eqb k' v d) = Some x.
Proof.
  induction d as [|[k0 v0] r IH]; intros H.
  - destruct H as [->|[x Hx]]; [|discriminate].
    cbn. rewrite pair_eqb_refl. now exists v.
  - cbn [Py.set]. destruct (Py.pair_eqb k' k0) eqn:E0; cbn [Py.get].
    + destruct (Py.pair_eqb k k0) eqn:E; [now eexists|].
      destruct H as [->|[x Hx]]; [congruence|].
      cbn in Hx. rewrite E in Hx. now exists x.
    + destruct (Py.pair_eqb k k0) eqn:E; [now eexists|].
      apply IH. destruct H as [->|[x Hx]]; [now left|].
      right. cbn in Hx. rewrite E in Hx. now exists x.
Qed.

Section Table.
Variable self : Problem.

Lemma create_for_shift (s : string) (emps : Py.dict string Employee.t) (st : State) :
  exists st',
    for_ emps (fun '(employee_id, employee) =>
      x <- NewBoolVar (AssignVar employee_id s) ;;
      set_assignment employee_id s x) st = Some (tt, st')
    /\ (forall k, (exists x, Py.get Py.pair_eqb k (assignments st) = Some x) ->
                  exists x, Py.get Py.pair_eqb k (assignments st') = Some x)
    /\ (forall e, In e (Py.keys emps) ->
                  exists x, Py.get Py.pair_eqb (e, s) (assignments st') = Some x).
Proof.
  revert st. induction emps as [|[e0 emp0] r IH]; intros st.
  - exists st. split; [reflexivity|]. split; [auto | intros e []].
  - set (st1 := mkState
                  (CpModel.mk (variables (model st) ++ [AssignVar e0 s])
                     (constraints (model st)) (objective (model st)))
                  (Py.set Py.pair_eqb (e0, s)
                     (List.length (variables (model st))) (assignments st))).
    destruct (IH st1) as [st' [E [Keep New]]].
    exists st'. split; [|split].
    + cbn [for_]. unfold bind at 1. unfold bind at 1.
      unfold NewBoolVar, set_assignment. cbn [model assignments variables].
      fold st1. exact E.
    + intros k Hk. apply Keep. cbn. apply pair_set_keeps. now right.
    + intros e [<-|He].
      * apply Keep. cbn. apply pair_set_keeps. now left.
      * now apply New.
Qed.

Lemma create_for_shifts (l : Py.dict string Shift.t) (st : State) :
  exists st',
    for_ l (fun '(shift_id, shift) =>
      for_ (employees self) (fun '(employee_id, employee) =>
        x <- NewBoolVar (AssignVar employee_id shift_id) ;;
        set_assignment employee_id shift_id x)) st = Some (tt, st')
    /\ (forall k, (exists x, Py.get Py.pair_eqb k (assignments st) = Some x) ->
                  exists x, Py.get Py.pair_eqb k (assignments st') = Some x)
    /\ (forall e s, In e (Py.keys (employees self)) -> In s (Py.keys l) ->
                    exists x, Py.get Py.pair_eqb (e, s) (assignments st') = Some x).
Proof.
  revert st. induction l as [|[s0 sh0] r IH]; intros st.
  - exists st. split; [reflexivity|]. split; [auto | intros e s _ []].
  - destruct (create_for_shift s0 (employees self) st) as [st1 [E1 [K1 N1]]].
    destruct (IH st1) as [st' [E [Keep New]]].
    exists st'. split; [|split].
    + cbn [for_]. unfold bind at 1. rewrite E1. exact E.
    + intros k Hk. apply Keep, K1, Hk.
    + intros e s He [<-|Hs].
      * apply Keep. now apply N1.
      * now apply New.
Qed.

(** [_create_assignment_variables] never raises and leaves a variable
    for every (employee, shift) pair. *)
Lemma create_assignment_variables_complete (st : State) :
  exists st',
    _create_assignment_variables self st = Some (tt, st')
    /\ assignments_complete self st'.
Proof.
  destruct (create_for_shifts (shifts self) st) as [st' [E [_ New]]].
  exists st'. split; [exact E|]. intros e s He Hs. now apply New.
Qed.

(** The objective handed to the solver: the preference terms, one per
    assignment variable, then the penalty terms of the consecutive-days
    pass run with the truncated [consecutive_days] weight. *)
Lemma objective_terms (st st' : State) :
  _build_objective_function self st = Some (tt, st') ->
  exists pref_weight consec_weight penalties st1,
    weight_of self "employee_preferences" 55%float = Some pref_weight
    /\ weight_of self "consecutive_days" 30%float = Some consec_weight
    /\ _add_consecutive_days_terms self consec_weight st = Some (penalties, st1)
    /\ objective (model st')
       = Some (map (fun '((emp_id, shift_id), x) =>
                      (_get_preference self emp_id shift_id * pref_weight, x))
                   (assignments st) ++ penalties).
Proof.
  unfold _build_objective_function, bind, lift. intros H.
  destruct (weight_of self "employee_preferences" 55%float) as [pw|]; [|discriminate].
  destruct (weight_of self "workload_fairness" 40%float) as [fw|]; [|discriminate].
  destruct (weight_of self "consecutive_days" 30%float) as [cw|]; [|discriminate].
  destruct (_add_consecutive_days_terms self cw st) as [[pen st1]|] eqn:E;
    [|discriminate].
  apply Maximize_inv in H. destruct H as [_ ->].
  exists pw, cw, pen, st1. repeat split. exact E.
Qed.
End Table.

Lemma create_for_shift_vars (s : string) (emps : Py.dict string Employee.t)
  (st st' : State) :
  for_ emps (fun '(employee_id, employee) =>
    x <- NewBoolVar (AssignVar employee_id s) ;;
    set_assignment employee_id s x) st = Some (tt, st') ->
  variables (model st')
  = variables (model st) ++ map (fun e => AssignVar e s) (Py.keys emps).
Proof.
  revert st. induction emps as [|[e0 emp0] r IH]; intros st H.
  - injection H as <-. cbn. now rewrite app_nil_r.
  - cbn [for_] in H. unfold bind at 1 in H. unfold bind at 1 in H.
    unfold NewBoolVar, set_assignment in H. cbn [model assignments variables] in H.
    apply IH in H. cbn [model variables] in H.
    rewrite H. cbn. now rewrite <- app_assoc.
Qed.

Lemma create_for_shifts_vars (self : Problem) (l : Py.dict string Shift.t)
  (st st' : State) :
  for_ l (fun '(shift_id, shift) =>
    for_ (employees self) (fun '(employee_id, employee) =>
      x <- NewBoolVar (AssignVar employee_id shift_id) ;;
      set_assignment employee_id shift_id x)) st = Some (tt, st') ->
  variables (model st')
  = variables (model st)
    ++ flat_map (fun s => map (fun e => AssignVar e s) (Py.keys (employees self)))
                (Py.keys l).
Proof.
  revert st. induction l as [|[s0 sh0] r IH]; intros st H.
  - injection H as <-. cbn. now rewrite app_nil_r.
  - cbn [for_] in H. unfold bind at 1 in H.
    destruct (create_for_shift s0 (employees self) st) as [st1 [E1 _]].
    rewrite E1 in H. apply IH in H.
    rewrite H, (create_for_shift_vars s0 _ _ _ E1). cbn. now rewrite <- app_assoc.
Qed.

(** The assignment variables: [_create_assignment_variables] never
    raises; afterwards every (employee, shift) pair has a variable in
    the table, and the variables created are one [assign_e{e}_s{s}] per
    shift and employee, shift by shift. *)
Theorem assignment_variables_created (self : Problem) (st : State) :
  exists st',
    _create_assignment_variables self st = Some (tt, st')
    /\ assignments_complete self st'
    /\ variables (model st')
       = variables (model st)
         ++ flat_map (fun s => map (fun e => AssignVar e s)
                                   (Py.keys (employees self)))
                     (Py.keys (shifts self)).
Proof.
  destruct (create_for_shifts self (shifts self) st) as [st' [E [_ New]]].
  exists st'. split; [exact E|]. split.
  - intros e s He Hs. now apply New.
  - now apply create_for_shifts_vars.
Qed.

(** *** The constraint builder leaves the assignment table alone *)

Lemma keeps_ret {A : Type} (a : A) : keeps (ret a).
Proof. intros st b st' [= _ <-]. reflexivity. Qed.

Lemma keeps_lift {A : Type} (o : option A) : keeps (lift o).
Proof. intros st b st' H. unfold lift in H. destruct o; [|discriminate]. now injection H as _ <-. Qed.

Lemma keeps_Add (c : Constraint) : keeps (Add c).
Proof. intros st b st' H. apply Add_inv in H. destruct H as [_ ->]. reflexivity. Qed.

Lemma keeps_assignment (e s : string) : keeps (assignment e s).
Proof.
  intros st b st' H. unfold assignment in H.
  destruct (Py.get Py.pair_eqb (e, s) (assignments st)); [|discriminate].
  now injection H as _ <-.
Qed.

Lemma keeps_bind {A B : Type} (m : M A) (k : A -> M B) :
  keeps m -> (forall a, keeps (k a)) -> keeps (bind m k).
Proof.
  intros Hm Hk st b st' H. unfold bind in H.
  destruct (m st) as [[a st1]|] eqn:E; [|discriminate].
  rewrite (Hk a _ _ _ H). exact (Hm _ _ _ E).
Qed.

Lemma keeps_forM {A B : Type} (xs : list A) (body : A -> M B) :
  (forall a, keeps (body a)) -> keeps (forM xs body).
Proof.
  intros Hb. induction xs as [|x r IH]; cbn [forM].
  - apply keeps_ret.
  - apply keeps_bind; [apply Hb|]. intros b.
    apply keeps_bind; [exact IH|]. intros bs. apply keeps_ret.
Qed.

Lemma keeps_for {A : Type} (xs : list A) (body : A -> M unit) :
  (forall a, keeps (body a)) -> keeps (for_ xs body).
Proof.
  intros Hb. induction xs as [|x r IH]; cbn [for_].
  - apply keeps_ret.
  - apply keeps_bind; [apply Hb | intros _; exact IH].
Qed.

Create HintDb keeps discriminated.
#[local] Hint Resolve keeps_ret keeps_lift keeps_Add keeps_assignment : keeps.

Ltac keeps_step :=
  match goal with
  | |- keeps (bind _ _) => apply keeps_bind
  | |- keeps (for_ _ _) => apply keeps_for
  | |- keeps (forM _ _) => apply keeps_forM
  | |- keeps (let '(_, _) := ?p in _) => destruct p
  | |- keeps (match ?l with [] => _ | _ :: _ => _ end) => destruct l
  | |- keeps (if ?b then _ else _) => destruct b
  | |- forall _, _ => intro
  | |- keeps _ => solve [auto with keeps]
  end.

Section Passes.
Variable self : Problem.

Lemma keeps_coverage : keeps (_add_shift_coverage_constraints self).
Proof. unfold _add_shift_coverage_constraints. repeat keeps_step. Qed.

Lemma keeps_double_booking : keeps (_add_no_double_booking_constraints self).
Proof. unfold _add_no_double_booking_constraints. repeat keeps_step. Qed.

Lemma keeps_skills : keeps (_add_skill_requirements_constraints self).
Proof. unfold _add_skill_requirements_constraints. repeat keeps_step. Qed.

Lemma keeps_availability : keeps (_add_availability_constraints self).
Proof. unfold _add_availability_constraints. repeat keeps_step. Qed.

Lemma keeps_max_hours : keeps (_add_max_hours_constraints self).
Proof. unfold _add_max_hours_constraints. repeat keeps_step. Qed.

(** When [build_model] succeeds, the objective builder ran on a state
    whose assignment table was complete. *)
Lemma build_model_objective_state (st0 st : State) :
  build_model self st0 = Some (tt, st) ->
  exists st1,
    assignments_complete self st1
    /\ _build_objective_function self st1 = Some (tt, st).
Proof.
  unfold build_model. intros H.
  destruct (create_assignment_variables_complete self st0) as [sa [Ea Ca]].
  unfold bind at 1 in H. rewrite Ea in H.
  unfold bind at 1 in H.
  destruct (_add_shift_coverage_constraints self sa) as [[[] s1]|] eqn:E1; [|discriminate].
  unfold bind at 1 in H.
  destruct (_add_no_double_booking_constraints self s1) as [[[] s2]|] eqn:E2; [|discriminate].
  unfold bind at 1 in H.
  destruct (_add_skill_requirements_constraints self s2) as [[[] s3]|] eqn:E3; [|discriminate].
  unfold bind at 1 in H.
  destruct (_add_availability_constraints self s3) as [[[] s4]|] eqn:E4; [|discriminate].
  unfold bind at 1 in H.
  destruct (_add_max_hours_constraints self s4) as [[[] s5]|] eqn:E5; [|discriminate].
  exists s5. split; [|exact H].
  intros e s He Hs.
  rewrite (keeps_max_hours _ _ _ E5), (keeps_availability _ _ _ E4),
    (keeps_skills _ _ _ E3), (keeps_double_booking _ _ _ E2),
    (keeps_coverage _ _ _ E1).
  now apply Ca.
Qed.
End Passes.

(** The model [build_model] hands to the solver: its objective ends
    with the penalty terms, one list per employee, each window's
    indicator meaning that the employee works the whole window. *)
Theorem built_model_penalties (self : Problem) (st0 st : State) :
  build_model self st0 = Some (tt, st) ->
  exists consec_weight preference_terms per_employee,
    weight_of self "consecutive_days" 30%float = Some consec_weight
    /\ objective (model st)
       = Some (preference_terms ++ List.concat per_employee)
    /\ Forall2 (employee_ok self consec_weight st)
               (Py.keys (employees self)) per_employee.
Proof.
  intros H.
  destruct (build_model_objective_state self st0 st H) as [st1 [C B]].
  destruct (objective_terms self st1 st B) as [pw [cw [pen [st2 [Hp [Hc [E O]]]]]]].
  destruct (consecutive_days_run self cw st1 C) as [per [st2' [E' [_ F]]]].
  rewrite E in E'. injection E' as -> <-.
  exists cw. eexists. exists per. split; [exact Hc|]. split; [exact O|].
  (* [Maximize] only sets the objective *)
  unfold _build_objective_function, bind, lift in B.
  rewrite Hp, Hc in B.
  destruct (weight_of self "workload_fairness" 40%float); [|discriminate].
  rewrite E in B. apply Maximize_inv in B. destruct B as [_ ->].
  eapply Forall2_impl; [|exact F]. intros e ts Ho.
  apply (employee_ok_later self cw e ts st2 _ []); [exact Ho|].
  constructor; cbn.
  - reflexivity.
  - now rewrite app_nil_r.
  - exists []. now rewrite app_nil_r.
  - intros y e' d Hy Hn.
    assert (nth_error (variables (model st2)) y = None) as N
        by now apply nth_error_None.
    congruence.
Qed.

Lemma built_model_penalties_witness :
  exists consec_weight preference_terms per_employee,
    weight_of three_days "consecutive_days" 30%float = Some consec_weight
    /\ objective (model (built three_days))
       = Some (preference_terms ++ List.concat per_employee)
    /\ Forall2 (employee_ok three_days consec_weight (built three_days))
               (Py.keys (employees three_days)) per_employee.
Proof.
  apply (built_model_penalties three_days (mkState CpModel.empty [])
           (built three_days)).
  vm_compute. reflexivity.
Defined.

(* ------------------------------------------------------------------ *)
(** *** The hard constraints of the built model *)

(** *** Steady computations *)

Lemma after_refl (st : State) : after st st.
Proof. split; [reflexivity|]. exists []. now rewrite app_nil_r. Qed.

Lemma after_trans (st st1 st2 : State) :
  after st st1 -> after st1 st2 -> after st st2.
Proof.
  intros [A1 [c1 C1]] [A2 [c2 C2]]. split; [congruence|].
  exists (c1 ++ c2). now rewrite C2, C1, app_assoc.
Qed.

Lemma after_constraint (st st' : State) (c : Constraint) :
  after st st' -> In c (constraints (model st)) -> In c (constraints (model st')).
Proof. intros [_ [cs E]] H. rewrite E. apply in_or_app. now left. Qed.

Lemma satisfies_in (v : valuation) (m : CpModel.t) (c : Constraint) :
  satisfies v m = true -> In c (constraints m) -> sat v c = true.
Proof. unfold satisfies. rewrite forallb_forall. auto. Qed.

Lemma steady_ret {A : Type} (a : A) : steady (ret a).
Proof.
  intros st b st' [= _ <-]. apply after_refl.
Qed.

Lemma steady_lift {A : Type} (o : option A) : steady (lift o).
Proof.
  intros st b st' H. unfold lift in H. destruct o; [|discriminate].
  injection H as _ <-. apply after_refl.
Qed.

Lemma steady_read {A : Type} (f : State -> A) : steady (fun st => Some (f st, st)).
Proof.
  intros st b st' [= _ <-]. apply after_refl.
Qed.

Lemma steady_Add (c : Constraint) : steady (Add c).
Proof.
  intros st b st' H. apply Add_inv in H. destruct H as [_ ->].
  split; [reflexivity|]. now exists [c].
Qed.

Lemma steady_AddCount (xs : list var) (r : Rel) (l : Lit) : steady (AddCount xs r l).
Proof. intros st b st' [= _ <-]. split; [reflexivity|]. now eexists [_]. Qed.

Lemma steady_NewBoolVar (n : VarName) : steady (NewBoolVar n).
Proof.
  intros st b st' [= _ <-]. split; [reflexivity|]. exists []. cbn. now rewrite app_nil_r.
Qed.

Lemma steady_Maximize (e : LinExpr) : steady (Maximize e).
Proof.
  intros st b st' H. apply Maximize_inv in H. destruct H as [_ ->].
  split; [reflexivity|]. exists []. cbn. now rewrite app_nil_r.
Qed.

Lemma steady_assignment (e s : string) : steady (assignment e s).
Proof.
  intros st b st' H. unfold assignment in H.
  destruct (Py.get Py.pair_eqb (e, s) (assignments st)); [|discriminate].
  injection H as _ <-. apply after_refl.
Qed.

Lemma steady_bind {A B : Type} (m : M A) (k : A -> M B) :
  steady m -> (forall a, steady (k a)) -> steady (bind m k).
Proof.
  intros Hm Hk st b st' H. unfold bind in H.
  destruct (m st) as [[a st1]|] eqn:E; [|discriminate].
  exact (after_trans _ _ _ (Hm _ _ _ E) (Hk a _ _ _ H)).
Qed.

Lemma steady_forM {A B : Type} (xs : list A) (body : A -> M B) :
  (forall a, steady (body a)) -> steady (forM xs body).
Proof.
  intros Hb. induction xs as [|x r IH]; cbn [forM].
  - apply steady_ret.
  - apply steady_bind; [apply Hb|]. intros b.
    apply steady_bind; [exact IH|]. intros bs. apply steady_ret.
Qed.

Lemma steady_for {A : Type} (xs : list A) (body : A -> M unit) :
  (forall a, steady (body a)) -> steady (for_ xs body).
Proof.
  intros Hb. induction xs as [|x r IH]; cbn [for_].
  - apply steady_ret.
  - apply steady_bind; [apply Hb | intros _; exact IH].
Qed.

Create HintDb steady discriminated.
#[local] Hint Resolve steady_ret steady_lift steady_read steady_Add
  steady_AddCount steady_NewBoolVar steady_Maximize steady_assignment : steady.

Ltac steady_step :=
  match goal with
  | |- steady (bind _ _) => apply steady_bind
  | |- steady (for_ _ _) => apply steady_for
  | |- steady (forM _ _) => apply steady_forM
  | |- steady (let '(_, _) := ?p in _) => destruct p
  | |- steady (match ?l with [] => _ | _ :: _ => _ end) => destruct l
  | |- steady (if ?b then _ else _) => destruct b
  | |- forall _, _ => intro
  | |- steady _ => solve [auto with steady]
  end.

Section SteadyPasses.
Variable self : Problem.

Lemma steady_coverage : steady (_add_shift_coverage_constraints self).
Proof. unfold _add_shift_coverage_constraints. repeat steady_step. Qed.

Lemma steady_double_booking : steady (_add_no_double_booking_constraints self).
Proof. unfold _add_no_double_booking_constraints. repeat steady_step. Qed.

Lemma steady_skills : steady (_add_skill_requirements_constraints self).
Proof. unfold _add_skill_requirements_constraints. repeat steady_step. Qed.

Lemma steady_availability : steady (_add_availability_constraints self).
Proof. unfold _add_availability_constraints. repeat steady_step. Qed.

Lemma steady_max_hours : steady (_add_max_hours_constraints self).
Proof. unfold _add_max_hours_constraints. repeat steady_step. Qed.

Lemma steady_objective : steady (_build_objective_function self).
Proof.
  unfold _build_objective_function, _add_consecutive_days_terms, employee_terms,
    window_terms, day_indicator.
  repeat steady_step.
Qed.
End SteadyPasses.

(** *** Finding a loop iteration's constraints in the final model *)

Lemma for_in {A : Type} (body : A -> M unit) (xs : list A) (a : A)
  (st st' : State) :
  In a xs -> for_ xs body st = Some (tt, st') -> (forall a, steady (body a)) ->
  exists t1 t2, after st t1 /\ body a t1 = Some (tt, t2) /\ after t2 st'.
Proof.
  intros Ha H Hb. revert st Ha H.
  induction xs as [|x r IH]; intros st Ha H; [destruct Ha|].
  cbn [for_] in H. unfold bind in H.
  destruct (body x st) as [[[] s1]|] eqn:E; [|discriminate].
  destruct Ha as [->|Ha].
  - exists st, s1. split; [apply after_refl|]. split; [exact E|].
    exact (steady_for r body Hb _ _ _ H).
  - destruct (IH s1 Ha H) as [t1 [t2 [A1 [B A2]]]].
    exists t1, t2. split; [|now split].
    eapply after_trans; [exact (Hb x _ _ _ E) | exact A1].
Qed.

Lemma forM_assignment_inv (e_of : string -> string) (s_of : string -> string)
  (l : list string) (st st' : State) (xs : list var) :
  forM l (fun k => assignment (e_of k) (s_of k)) st = Some (xs, st') ->
  st' = st
  /\ Forall2 (fun k x => Py.get Py.pair_eqb (e_of k, s_of k) (assignments st) = Some x)
             l xs.
Proof.
  revert xs. induction l as [|k r IH]; intros xs H.
  - injection H as <- <-. split; [reflexivity | constructor].
  - cbn [forM] in H. unfold bind at 1 in H. unfold assignment at 1 in H.
    destruct (Py.get Py.pair_eqb (e_of k, s_of k) (assignments st)) as [x|] eqn:G;
      [|discriminate].
    unfold bind in H.
    destruct (forM r (fun k => assignment (e_of k) (s_of k)) st) as [[ys s1]|] eqn:E;
      [|discriminate].
    injection H as <- <-. destruct (IH ys eq_refl) as [-> F].
    split; [reflexivity|]. now constructor.
Qed.

Lemma eval_sum_of_count (v : valuation) (xs : list var) :
  eval v (sum_of xs) = count_true v xs.
Proof.
  unfold count_true. induction xs as [|x r IH]; [reflexivity|].
  cbn [sum_of map eval filter]. fold (sum_of r). rewrite IH.
  unfold value. destruct (v x); cbn [List.length]; lia.
Qed.

Section Coverage.
Variable self : Problem.

(** The passes of [build_model], one after the other. *)
Lemma build_model_phases (st0 st : State) :
  build_model self st0 = Some (tt, st) ->
  exists sa s1 s2 s3 s4 s5,
    _create_assignment_variables self st0 = Some (tt, sa)
    /\ _add_shift_coverage_constraints self sa = Some (tt, s1)
    /\ _add_no_double_booking_constraints self s1 = Some (tt, s2)
    /\ _add_skill_requirements_constraints self s2 = Some (tt, s3)
    /\ _add_availability_constraints self s3 = Some (tt, s4)
    /\ _add_max_hours_constraints self s4 = Some (tt, s5)
    /\ _build_objective_function self s5 = Some (tt, st).
Proof.
  unfold build_model. intros H.
  unfold bind at 1 in H.
  destruct (_create_assignment_variables self st0) as [[[] sa]|] eqn:Ea; [|discriminate].
  unfold bind at 1 in H.
  destruct (_add_shift_coverage_constraints self sa) as [[[] s1]|] eqn:E1; [|discriminate].
  unfold bind at 1 in H.
  destruct (_add_no_double_booking_constraints self s1) as [[[] s2]|] eqn:E2; [|discriminate].
  unfold bind at 1 in H.
  destruct (_add_skill_requirements_constraints self s2) as [[[] s3]|] eqn:E3; [|discriminate].
  unfold bind at 1 in H.
  destruct (_add_availability_constraints self s3) as [[[] s4]|] eqn:E4; [|discriminate].
  unfold bind at 1 in H.
  destruct (_add_max_hours_constraints self s4) as [[[] s5]|] eqn:E5; [|discriminate].
  exists sa, s1, s2, s3, s4, s5. repeat split; assumption.
Qed.

Lemma run_build_phases (st : State) :
  run_build self = Some st ->
  exists sa s1 s2 s3 s4 s5,
    _create_assignment_variables self (mkState CpModel.empty []) = Some (tt, sa)
    /\ _add_shift_coverage_constraints self sa = Some (tt, s1)
    /\ _add_no_double_booking_constraints self s1 = Some (tt, s2)
    /\ _add_skill_requirements_constraints self s2 = Some (tt, s3)
    /\ _add_availability_constraints self s3 = Some (tt, s4)
    /\ _add_max_hours_constraints self s4 = Some (tt, s5)
    /\ _build_objective_function self s5 = Some (tt, st).
Proof.
  unfold run_build. intros H.
  destruct (build_model self (mkState CpModel.empty [])) as [[[] st']|] eqn:E;
    [|discriminate].
  injection H as <-. now apply build_model_phases.
Qed.

(** *** Coverage *)

(** The two coverage constraints of a shift are in the built model, over
    the shift's variables in employee order. *)
Lemma coverage_constraints (st : State) (s : string) (shift : Shift.t) :
  run_build self = Some st -> In (s, shift) (shifts self) ->
  exists xs,
    Forall2 (fun e x => Py.get Py.pair_eqb (e, s) (assignments st) = Some x)
            (Py.keys (employees self)) xs
    /\ In (Linear (sum_of xs) Ge (get_or (Shift.min_staff shift) 1) None)
          (constraints (model st))
    /\ In (Linear (sum_of xs) Le
             (get_or (Shift.max_staff shift)
                (get_or (Shift.min_staff shift) 1 + 2)) None)
          (constraints (model st)).
Proof.
  intros Hb Hs.
  destruct (run_build_phases st Hb) as [sa [s1 [s2 [s3 [s4 [s5 [Ea [E1 [E2 [E3 [E4 [E5 E6]]]]]]]]]]]].
  assert (L : after s1 st).
  { eapply after_trans; [exact (steady_double_booking self _ _ _ E2)|].
    eapply after_trans; [exact (steady_skills self _ _ _ E3)|].
    eapply after_trans; [exact (steady_availability self _ _ _ E4)|].
    eapply after_trans; [exact (steady_max_hours self _ _ _ E5)|].
    exact (steady_objective self _ _ _ E6). }
  unfold _add_shift_coverage_constraints in E1.
  edestruct (for_in _ _ _ _ _ Hs E1) as [t1 [t2 [A1 [B A2]]]];
    [repeat steady_step|].
  cbv beta iota zeta in B. unfold bind at 1 in B.
  destruct (forM (Py.keys (employees self)) (fun emp_id => assignment emp_id s) t1)
    as [[xs t1']|] eqn:F; [|discriminate].
  apply (forM_assignment_inv (fun k => k) (fun _ => s)) in F. destruct F as [-> F].
  unfold bind in B.
  match type of B with
  | match ?m with _ => _ end = _ => destruct m as [[[] t1a]|] eqn:B1; [|discriminate]
  end.
  apply Add_inv in B1. destruct B1 as [_ ->].
  apply Add_inv in B. destruct B as [_ ->].
  assert (At : assignments st = assignments t1).
  { destruct A2 as [A2 _]. destruct L as [L1 _]. cbn in A2. congruence. }
  exists xs. split; [rewrite At; exact F|]. split.
  - apply (after_constraint s1); [exact L|].
    eapply after_constraint; [exact A2|]. cbn.
    apply in_or_app. left. apply in_or_app. right. now left.
  - apply (after_constraint s1); [exact L|].
    eapply after_constraint; [exact A2|]. cbn.
    apply in_or_app. right. now left.
Qed.

Lemma coverage_bounds (st : State) (v : valuation) (s : string) (shift : Shift.t) :
  run_build self = Some st -> satisfies v (model st) = true ->
  In (s, shift) (shifts self) ->
  exists xs,
    Forall2 (fun e x => Py.get Py.pair_eqb (e, s) (assignments st) = Some x)
            (Py.keys (employees self)) xs
    /\ get_or (Shift.min_staff shift) 1 <= count_true v xs
       <= get_or (Shift.max_staff shift) (get_or (Shift.min_staff shift) 1 + 2).
Proof.
  intros Hb Hv Hs.
  destruct (coverage_constraints st s shift Hb Hs) as [xs [F [In1 In2]]].
  exists xs. split; [exact F|].
  apply (satisfies_in v _ _ Hv) in In1. apply (satisfies_in v _ _ Hv) in In2.
  cbn in In1, In2. rewrite eval_sum_of_count in In1, In2.
  apply Z.leb_le in In1. apply Z.leb_le in In2. lia.
Qed.

(** Coverage is a hard constraint of the built model: in every
    valuation that satisfies it, the number of employees assigned to a
    shift lies between [min_staff] (default 1) and [max_staff] (default
    [min_staff + 2]); the shift's variables are the table's, one per
    employee. *)
Theorem coverage_enforced (st : State) (v : valuation) (s : string) (shift : Shift.t) :
  run_build self = Some st -> satisfies v (model st) = true ->
  In (s, shift) (shifts self) ->
  exists xs,
    Forall2 (fun e x => Py.get Py.pair_eqb (e, s) (assignments st) = Some x)
            (Py.keys (employees self)) xs
    /\ List.length xs = List.length (employees self)
    /\ get_or (Shift.min_staff shift) 1 <= count_true v xs
       <= get_or (Shift.max_staff shift) (get_or (Shift.min_staff shift) 1 + 2).
Proof.
  intros Hb Hv Hs.
  destruct (coverage_bounds st v s shift Hb Hv Hs) as [xs [F B]].
  exists xs. split; [exact F|]. split; [|exact B].
  rewrite <- (Forall2_length F). unfold Py.keys. apply length_map.
Qed.
End Coverage.

Lemma after_assignments (st st' : State) : after st st' -> assignments st' = assignments st.
Proof. now intros [H _]. Qed.

(** A variable pinned to 0 is false. *)
Lemma pinned_false (v : valuation) (m : CpModel.t) (x : var) :
  satisfies v m = true -> In (Linear [(1, x)] Eq 0 None) (constraints m) ->
  v x = false.
Proof.
  intros Hv Hin. apply (satisfies_in v _ _ Hv) in Hin. cbn in Hin.
  unfold value in Hin. destruct (v x); [discriminate | reflexivity].
Qed.

Section Pins.
Variable self : Problem.

(** Every pass after the first leaves a state the final one comes after. *)
Lemma run_build_passes (st : State) :
  run_build self = Some st ->
  exists sa s1 s2 s3 s4 s5,
    (_create_assignment_variables self (mkState CpModel.empty []) = Some (tt, sa)
     /\ _add_shift_coverage_constraints self sa = Some (tt, s1)
     /\ _add_no_double_booking_constraints self s1 = Some (tt, s2)
     /\ _add_skill_requirements_constraints self s2 = Some (tt, s3)
     /\ _add_availability_constraints self s3 = Some (tt, s4)
     /\ _add_max_hours_constraints self s4 = Some (tt, s5)
     /\ _build_objective_function self s5 = Some (tt, st))
    /\ after sa st /\ after s1 st /\ after s2 st /\ after s3 st
    /\ after s4 st /\ after s5 st.
Proof.
  intros Hb.
  destruct (run_build_phases self st Hb)
    as [sa [s1 [s2 [s3 [s4 [s5 [Ea [E1 [E2 [E3 [E4 [E5 E6]]]]]]]]]]]].
  pose proof (steady_objective self _ _ _ E6) as A5.
  pose proof (after_trans _ _ _ (steady_max_hours self _ _ _ E5) A5) as A4.
  pose proof (after_trans _ _ _ (steady_availability self _ _ _ E4) A4) as A3.
  pose proof (after_trans _ _ _ (steady_skills self _ _ _ E3) A3) as A2.
  pose proof (after_trans _ _ _ (steady_double_booking self _ _ _ E2) A2) as A1.
  pose proof (after_trans _ _ _ (steady_coverage self _ _ _ E1) A1) as A0.
  exists sa, s1, s2, s3, s4, s5.
  split; [repeat split; assumption|].
  exact (conj A0 (conj A1 (conj A2 (conj A3 (conj A4 A5))))).
Qed.

(** *** Skills *)

(** Skills are a hard constraint of the built model: an employee whose
    skills do not include all the skills a shift requires is assigned to
    it in no valuation that satisfies the model. *)
Theorem skills_enforced (st : State) (v : valuation)
  (s : string) (shift : Shift.t) (e : string) (emp : Employee.t) (x : var) :
  run_build self = Some st -> satisfies v (model st) = true ->
  In (s, shift) (shifts self) -> In (e, emp) (employees self) ->
  issubset (get_or (Shift.required_skills shift) [])
           (get_or (Employee.skills emp) []) = false ->
  Py.get Py.pair_eqb (e, s) (assignments st) = Some x ->
  v x = false.
Proof.
  intros Hb Hv Hs He Hsk Hx.
  destruct (run_build_passes st Hb)
    as [sa [s1 [s2 [s3 [s4 [s5 [[_ [_ [_ [E3 _]]]] [_ [_ [A2 [A3 _]]]]]]]]]]].
  unfold _add_skill_requirements_constraints in E3.
  edestruct (for_in _ _ _ _ _ Hs E3) as [t1 [t2 [B1 [B B2]]]];
    [repeat steady_step|].
  cbv beta iota zeta in B.
  destruct (get_or (Shift.required_skills shift) []) as [|r0 rs] eqn:R;
    [discriminate Hsk|].
  edestruct (for_in _ _ _ _ _ He B) as [u1 [u2 [C1 [C C2]]]];
    [repeat steady_step|].
  cbv beta iota zeta in C. rewrite Hsk in C. cbn [negb] in C.
  unfold bind, assignment in C.
  assert (Hu : assignments u1 = assignments st).
  { rewrite (after_assignments _ _ C1), (after_assignments _ _ B1).
    symmetry. exact (after_assignments _ _ A2). }
  rewrite Hu, Hx in C. apply Add_inv in C. destruct C as [_ ->].
  apply (pinned_false v (model st)); [exact Hv|].
  apply (after_constraint s3); [exact A3|].
  apply (after_constraint t2); [exact B2|].
  eapply after_constraint; [exact C2|]. cbn. apply in_or_app. right. now left.
Qed.

(** *** Availability *)

(** Availability is a hard constraint of the built model: an employee is
    assigned to no shift whose date is among the employee's unavailable
    dates, in any valuation that satisfies the model. *)
Theorem availability_enforced (st : State) (v : valuation)
  (s : string) (shift : Shift.t) (e : string) (emp : Employee.t) (x : var) :
  run_build self = Some st -> satisfies v (model st) = true ->
  In (s, shift) (shifts self) -> In (e, emp) (employees self) ->
  In (Shift.date shift) (get_or (Employee.unavailable_dates emp) []) ->
  Py.get Py.pair_eqb (e, s) (assignments st) = Some x ->
  v x = false.
Proof.
  intros Hb Hv Hs He Hun Hx.
  destruct (run_build_passes st Hb)
    as [sa [s1 [s2 [s3 [s4 [s5 [[_ [_ [_ [_ [E4 _]]]]] [_ [_ [_ [A3 [A4 _]]]]]]]]]]]].
  unfold _add_availability_constraints in E4.
  edestruct (for_in _ _ _ _ _ He E4) as [t1 [t2 [B1 [B B2]]]];
    [repeat steady_step|].
  cbv beta iota zeta in B.
  edestruct (for_in _ _ _ _ _ Hs B) as [u1 [u2 [C1 [C C2]]]];
    [repeat steady_step|].
  cbv beta iota zeta in C.
  apply str_in_In in Hun. rewrite Hun in C.
  unfold bind, assignment in C.
  assert (Hu : assignments u1 = assignments st).
  { rewrite (after_assignments _ _ C1), (after_assignments _ _ B1).
    symmetry. exact (after_assignments _ _ A3). }
  rewrite Hu, Hx in C. apply Add_inv in C. destruct C as [_ ->].
  apply (pinned_false v (model st)); [exact Hv|].
  apply (after_constraint s4); [exact A4|].
  apply (after_constraint t2); [exact B2|].
  eapply after_constraint; [exact C2|]. cbn. apply in_or_app. right. now left.
Qed.
End Pins.

(** *** Grouping by week key *)

Lemma group_step (d k : string) (acc : Py.dict string (list string))
  (shift_id : string) :
  get_or (Py.get String.eqb d
            (Py.set String.eqb k
               (get_or (Py.get String.eqb k
                          (if Py.contains String.eqb k acc then acc
                           else Py.set String.eqb k [] acc)) [] ++ [shift_id])
               (if Py.contains String.eqb k acc then acc
                else Py.set String.eqb k [] acc))) []
  = get_or (Py.get String.eqb d acc) []
    ++ (if String.eqb k d then [shift_id] else []).
Proof.
  unfold Py.contains.
  destruct (String.eqb_spec k d) as [E|N].
  - subst d. rewrite get_set_same. cbn [get_or].
    destruct (Py.get String.eqb k acc) as [l|] eqn:G.
    + rewrite G. reflexivity.
    + rewrite get_set_same. reflexivity.
  - rewrite get_set_other by congruence. rewrite app_nil_r.
    destruct (Py.get String.eqb k acc) as [l|] eqn:G.
    + reflexivity.
    + rewrite get_set_other by congruence. reflexivity.
Qed.

Lemma group_by_week_get (key : string) (l : Py.dict string Shift.t)
  (acc res : Py.dict string (list string)) :
  group_by_week l acc = Some res ->
  get_or (Py.get String.eqb key res) []
  = get_or (Py.get String.eqb key acc) []
    ++ map fst
         (filter (fun p => match _get_week_key (Shift.date (snd p)) with
                           | Some k => String.eqb k key
                           | None => false
                           end) l).
Proof.
  revert acc. induction l as [|[sid sh] r IH]; intros acc H.
  - injection H as <-. cbn. now rewrite app_nil_r.
  - cbn [group_by_week] in H.
    destruct (_get_week_key (Shift.date sh)) as [wk|] eqn:W; [|discriminate].
    cbn [obind] in H. apply IH in H. rewrite H.
    etransitivity;
      [apply f_equal2; [apply (group_step key wk acc sid) | reflexivity]|].
    cbn [filter snd]. rewrite W, <- app_assoc. f_equal.
    destruct (String.eqb wk key); reflexivity.
Qed.

Lemma shifts_by_week_group (self : Problem) (by_week : Py.dict string (list string))
  (key s : string) (shift : Shift.t) :
  shifts_by_week self = Some by_week ->
  In (s, shift) (shifts self) -> _get_week_key (Shift.date shift) = Some key ->
  In (key, ids_in_week self key) by_week /\ In s (ids_in_week self key).
Proof.
  intros Hw Hs Hk.
  assert (Hin : In s (ids_in_week self key)).
  { unfold ids_in_week. apply in_map_iff. exists (s, shift). split; [reflexivity|].
    apply filter_In. split; [exact Hs|]. cbn. rewrite Hk. apply String.eqb_refl. }
  split; [|exact Hin].
  pose proof (group_by_week_get key _ _ _ Hw) as G.
  fold (ids_in_week self key) in G. cbn in G.
  destruct (Py.get String.eqb key by_week) as [l|] eqn:E.
  - cbn in G. subst l. now apply get_in.
  - cbn in G. rewrite <- G in Hin. destruct Hin.
Qed.

Section WeeklyHours.
Variable self : Problem.

Lemma hours_terms_inv (e : string) (ids : list string) (st st' : State)
  (terms : LinExpr) :
  forM ids (fun shift_id =>
      shift <- lift (Py.get String.eqb shift_id (shifts self)) ;;
      hours <- lift (_calculate_shift_hours shift) ;;
      a <- assignment e shift_id ;;
      ret (hours, a)) st = Some (terms, st') ->
  st' = st /\ Forall2 (hours_term self st e) ids terms.
Proof.
  revert terms. induction ids as [|s r IH]; intros terms H.
  - injection H as <- <-. split; [reflexivity | constructor].
  - cbn [forM] in H. unfold bind at 1 in H. unfold bind at 1 in H.
    unfold lift at 1 in H.
    destruct (Py.get String.eqb s (shifts self)) as [sh|] eqn:G; [|discriminate].
    unfold bind at 1 in H. unfold lift at 1 in H.
    destruct (_calculate_shift_hours sh) as [h|] eqn:Hh; [|discriminate].
    unfold bind at 1 in H. unfold assignment at 1 in H.
    destruct (Py.get Py.pair_eqb (e, s) (assignments st)) as [x|] eqn:Gx; [|discriminate].
    unfold ret at 1 in H. unfold bind in H.
    match type of H with
    | match ?m with _ => _ end = _ => destruct m as [[ts s1]|] eqn:E; [|discriminate]
    end.
    injection H as <- <-. destruct (IH ts E) as [-> F].
    split; [reflexivity|]. constructor; [|exact F].
    exists sh. cbn. auto.
Qed.

(** *** Weekly hours *)

(** The weekly cap as the model has it: for an employee and a week key,
    the hours of the shifts with that key, each counted when the
    employee is assigned to it, sum to at most [max_hours_per_week]
    (default 40) in every valuation that satisfies the built model.  The
    sum runs over all shifts whose date has that key, in input order. *)
Theorem weekly_cap_enforced (st : State) (v : valuation) (key : string)
  (s : string) (shift : Shift.t) (e : string) (emp : Employee.t) :
  run_build self = Some st -> satisfies v (model st) = true ->
  In (s, shift) (shifts self) -> _get_week_key (Shift.date shift) = Some key ->
  In (e, emp) (employees self) ->
  In s (ids_in_week self key)
  /\ exists terms,
       Forall2 (hours_term self st e) (ids_in_week self key) terms
       /\ eval v terms <= get_or (Employee.max_hours_per_week emp) 40.
Proof.
  intros Hb Hv Hs Hk He.
  destruct (run_build_passes self st Hb)
    as [sa [s1 [s2 [s3 [s4 [s5 [[_ [_ [_ [_ [_ [E5 _]]]]]] [_ [_ [_ [_ [A4 A5]]]]]]]]]]]].
  unfold _add_max_hours_constraints in E5. unfold bind at 1 in E5. unfold lift at 1 in E5.
  destruct (shifts_by_week self) as [by_week|] eqn:W; [|discriminate].
  destruct (shifts_by_week_group self by_week key s shift W Hs Hk) as [Hg Hin].
  split; [exact Hin|].
  edestruct (for_in _ _ _ _ _ He E5) as [t1 [t2 [B1 [B B2]]]];
    [repeat steady_step|].
  cbv beta iota zeta in B.
  edestruct (for_in _ _ _ _ _ Hg B) as [u1 [u2 [C1 [C C2]]]];
    [repeat steady_step|].
  cbv beta iota zeta in C. unfold bind at 1 in C.
  match type of C with
  | match ?m with _ => _ end = _ => destruct m as [[terms u1']|] eqn:F; [|discriminate]
  end.
  apply hours_terms_inv in F. destruct F as [-> F].
  apply Add_inv in C. destruct C as [_ ->].
  assert (Hu : assignments u1 = assignments st).
  { rewrite (after_assignments _ _ C1), (after_assignments _ _ B1).
    symmetry. exact (after_assignments _ _ A4). }
  exists terms. split.
  - eapply Forall2_impl; [|exact F]. intros s' t [sh [G1 [G2 G3]]].
    exists sh. rewrite <- Hu. auto.
  - assert (Hin' : In (Linear terms Le (get_or (Employee.max_hours_per_week emp) 40) None)
                      (constraints (model st))).
    { apply (after_constraint s5); [exact A5|].
      apply (after_constraint t2); [exact B2|].
      eapply after_constraint; [exact C2|]. cbn. apply in_or_app. right. now left. }
    apply (satisfies_in v _ _ Hv) in Hin'. cbn in Hin'. now apply Z.leb_le.
Qed.
End WeeklyHours.

(** *** No double booking *)

Lemma in_two_order {A : Type} (a b : A) (l : list A) :
  In a l -> In b l -> a <> b ->
  (exists l1 l2, l = l1 ++ a :: l2 /\ In b l2)
  \/ (exists l1 l2, l = l1 ++ b :: l2 /\ In a l2).
Proof.
  induction l as [|x r IH]; intros Ha Hb N; [destruct Ha|].
  destruct Ha as [->|Ha], Hb as [->|Hb].
  - contradiction.
  - left. exists [], r. now split.
  - right. exists [], r. now split.
  - destruct (IH Ha Hb N) as [[l1 [l2 [-> I]]]|[l1 [l2 [-> I]]]].
    + left. exists (x :: l1), l2. now split.
    + right. exists (x :: l1), l2. now split.
Qed.

Lemma value_le_eval (v : valuation) (x : var) (xs : list var) :
  In x xs -> value v x <= eval v (sum_of xs).
Proof.
  induction xs as [|y r IH]; intros H; [destruct H|].
  pose proof (eval_sum_of_bounds v r) as B.
  cbn [sum_of map eval]. fold (sum_of r).
  destruct H as [->|H].
  - lia.
  - specialize (IH H). unfold value in *. destruct (v y); lia.
Qed.

Lemma shifts_by_date_entry (self : Problem) (s : string) (shift : Shift.t) :
  In (s, shift) (shifts self) ->
  In (Shift.date shift, ids_on self (Shift.date shift)) (shifts_by_date self)
  /\ In s (ids_on self (Shift.date shift)).
Proof.
  intros Hs.
  assert (Hin : In s (ids_on self (Shift.date shift)))
    by (apply in_ids_on; now exists shift).
  split; [|exact Hin].
  destruct (Py.get String.eqb (Shift.date shift) (shifts_by_date self)) as [l|] eqn:E.
  - rewrite <- (shifts_by_date_get self _ _ E). now apply get_in.
  - exfalso. pose proof (by_date_fold (Shift.date shift) (shifts self) []) as F.
    change (get_or (Py.get String.eqb (Shift.date shift) (shifts_by_date self)) []
            = [] ++ ids_on self (Shift.date shift)) in F.
    rewrite E in F. cbn in F. rewrite <- F in Hin. destruct Hin.
Qed.

Section DoubleBooking.
Variable self : Problem.

Lemma overlapping_later_complete (shift_1 : Shift.t) (later tail : list string)
  (id : string) (shift_2 : Shift.t) :
  overlapping_later self shift_1 later = Some tail ->
  In id later ->
  Py.get String.eqb id (shifts self) = Some shift_2 ->
  _shifts_overlap shift_1 shift_2 = Some true ->
  In id tail.
Proof.
  revert tail. induction later as [|id2 r IH]; intros tail H Hin G O; [destruct Hin|].
  cbn in H.
  destruct (Py.get String.eqb id2 (shifts self)) as [sh2|] eqn:G2; [|discriminate].
  cbn in H. destruct (_shifts_overlap shift_1 sh2) as [b|] eqn:O2; [|discriminate].
  cbn in H. destruct (overlapping_later self shift_1 r) as [t|] eqn:R; [|discriminate].
  cbn in H. injection H as <-.
  destruct Hin as [->|Hin].
  - rewrite G in G2. injection G2 as <-. rewrite O in O2. injection O2 as <-.
    now left.
  - specialize (IH t eq_refl Hin G O). destruct b; [now right | exact IH].
Qed.

(** The group anchored at a shift is among the groups whenever it has a
    second member. *)
Lemma anchored_group_found (l1 l2 : list string) (a : string) (sha : Shift.t)
  (groups : list (list string)) :
  _find_overlapping_shifts self (l1 ++ a :: l2) = Some groups ->
  Py.get String.eqb a (shifts self) = Some sha ->
  exists tail,
    overlapping_later self sha l2 = Some tail
    /\ (tail <> [] -> In (a :: tail) groups).
Proof.
  revert groups. induction l1 as [|x r IH]; intros groups H G.
  - cbn in H. rewrite G in H. cbn in H.
    destruct (overlapping_later self sha l2) as [tail|]; [|discriminate].
    cbn in H. destruct (_find_overlapping_shifts self l2) as [gs|]; [|discriminate].
    cbn in H. injection H as <-. exists tail. split; [reflexivity|].
    intros N. destruct tail as [|t0 tl]; [contradiction|]. now left.
  - cbn in H.
    destruct (Py.get String.eqb x (shifts self)) as [shx|]; [|discriminate].
    cbn in H. destruct (overlapping_later self shx (r ++ a :: l2)) as [tx|];
      [|discriminate].
    cbn in H.
    destruct (_find_overlapping_shifts self (r ++ a :: l2)) as [gs|] eqn:R;
      [|discriminate].
    cbn in H. injection H as <-.
    destruct (IH gs eq_refl G) as [tail [T I]].
    exists tail. split; [exact T|]. intros N. specialize (I N).
    match goal with
    | |- In _ (if ?c then _ else _) => destruct c
    end; [now right | exact I].
Qed.

(** Of two shifts in a list, the earlier one with the later one in its
    group: one constraint covers the pair. *)
Lemma pair_in_some_group (ids : list string) (groups : list (list string))
  (a b : string) (sha shb : Shift.t) :
  _find_overlapping_shifts self ids = Some groups ->
  In a ids -> In b ids -> a <> b ->
  Py.get String.eqb a (shifts self) = Some sha ->
  Py.get String.eqb b (shifts self) = Some shb ->
  _shifts_overlap sha shb = Some true ->
  exists first tail,
    In (first :: tail) groups
    /\ ((first = a /\ In b tail) \/ (first = b /\ In a tail)).
Proof.
  intros H Ha Hb N Ga Gb O.
  destruct (in_two_order a b ids Ha Hb N) as [[l1 [l2 [-> I]]]|[l1 [l2 [-> I]]]].
  - destruct (anchored_group_found l1 l2 a sha groups H Ga) as [tail [T F]].
    pose proof (overlapping_later_complete sha l2 tail b shb T I Gb O) as Hin.
    exists a, tail. split; [|left; now split].
    apply F. intros ->. destruct Hin.
  - rewrite shifts_overlap_sym in O.
    destruct (anchored_group_found l1 l2 b shb groups H Gb) as [tail [T F]].
    pose proof (overlapping_later_complete shb l2 tail a sha T I Ga O) as Hin.
    exists b, tail. split; [|right; now split].
    apply F. intros ->. destruct Hin.
Qed.

(** No double booking is a hard constraint of the built model: two
    different shifts on one date that overlap are never both assigned
    to the same employee in a valuation that satisfies the model. *)
Theorem no_double_booking_enforced (st : State) (v : valuation) (e : string)
  (a b : string) (sha shb : Shift.t) (xa xb : var) :
  run_build self = Some st -> satisfies v (model st) = true ->
  In e (Py.keys (employees self)) ->
  Py.get String.eqb a (shifts self) = Some sha ->
  Py.get String.eqb b (shifts self) = Some shb ->
  a <> b -> Shift.date sha = Shift.date shb ->
  _shifts_overlap sha shb = Some true ->
  Py.get Py.pair_eqb (e, a) (assignments st) = Some xa ->
  Py.get Py.pair_eqb (e, b) (assignments st) = Some xb ->
  v xa && v xb = false.
Proof.
  intros Hb Hv He Ga Gb N D O Xa Xb.
  destruct (run_build_passes self st Hb)
    as [sa [s1 [s2 [s3 [s4 [s5 [[_ [_ [E2 _]]] [_ [A1 [A2 _]]]]]]]]]].
  unfold _add_no_double_booking_constraints in E2.
  edestruct (for_in _ _ _ _ _ He E2) as [t1 [t2 [B1 [B B2]]]];
    [repeat steady_step|].
  cbv beta iota zeta in B.
  destruct (shifts_by_date_entry self a sha (get_in _ _ _ Ga)) as [Hd Ia].
  destruct (shifts_by_date_entry self b shb (get_in _ _ _ Gb)) as [_ Ib].
  rewrite <- D in Ib.
  edestruct (for_in _ _ _ _ _ Hd B) as [u1 [u2 [C1 [C C2]]]];
    [repeat steady_step|].
  cbv beta iota zeta in C. unfold bind at 1 in C. unfold lift at 1 in C.
  destruct (_find_overlapping_shifts self (ids_on self (Shift.date sha)))
    as [groups|] eqn:F; [|discriminate].
  destruct (pair_in_some_group _ groups a b sha shb F Ia Ib N Ga Gb O)
    as [first [tail [Hg Hcase]]].
  edestruct (for_in _ _ _ _ _ Hg C) as [w1 [w2 [D1 [W D2]]]];
    [repeat steady_step|].
  cbv beta iota zeta in W. unfold bind at 1 in W.
  match type of W with
  | match ?m with _ => _ end = _ => destruct m as [[xs w1']|] eqn:FM; [|discriminate]
  end.
  apply (forM_assignment_inv (fun _ => e) (fun k => k)) in FM. destruct FM as [-> FM].
  apply Add_inv in W. destruct W as [_ ->].
  assert (Hw : assignments w1 = assignments st).
  { rewrite (after_assignments _ _ D1), (after_assignments _ _ C1),
      (after_assignments _ _ B1).
    symmetry. exact (after_assignments _ _ A1). }
  rewrite Hw in FM.
  assert (Hin : In (Linear (sum_of xs) Le 1 None) (constraints (model st))).
  { apply (after_constraint s2); [exact A2|].
    apply (after_constraint t2); [exact B2|].
    apply (after_constraint u2); [exact C2|].
    eapply after_constraint; [exact D2|]. cbn. apply in_or_app. right. now left. }
  apply (satisfies_in v _ _ Hv) in Hin. cbn in Hin. apply Z.leb_le in Hin.
  inversion FM as [|k x ks xt Hk Ht]; subst.
  cbn [sum_of map eval] in Hin. fold (sum_of xt) in Hin.
  assert (Both : forall p q xp xq,
             first = p -> In q tail ->
             Py.get Py.pair_eqb (e, p) (assignments st) = Some xp ->
             Py.get Py.pair_eqb (e, q) (assignments st) = Some xq ->
             v xp && v xq = false).
  { intros p q xp xq -> Iq Gp Gq.
    rewrite Gp in Hk. injection Hk as <-.
    destruct (Forall2_in_l _ _ _ _ Ht Iq) as [xq' [Ixq Gq']].
    cbn in Gq'. rewrite Gq in Gq'. injection Gq' as <-.
    pose proof (value_le_eval v xq xt Ixq) as Le.
    unfold value in *. destruct (v xp), (v xq); try reflexivity. lia. }
  destruct Hcase as [[Ef It]|[Ef It]].
  - exact (Both a b xa xb Ef It Xa Xb).
  - rewrite andb_comm. exact (Both b a xb xa Ef It Xb Xa).
Qed.
End DoubleBooking.

(** *** The assignment table as a dictionary *)

Lemma pair_eqb_eq (a b : string * string) : Py.pair_eqb a b = true <-> a = b.
Proof.
  destruct a as [a1 a2], b as [b1 b2]. unfold Py.pair_eqb. cbn.
  rewrite andb_true_iff, !String.eqb_eq. split.
  - intros [-> ->]. reflexivity.
  - intros [= -> ->]. now split.
Qed.

Lemma pair_get_in (k : string * string) (x : var) (d : Py.dict (string * string) var) :
  Py.get Py.pair_eqb k d = Some x -> In (k, x) d.
Proof.
  induction d as [|[k' v'] r IH]; cbn; [discriminate|].
  destruct (Py.pair_eqb k k') eqn:E.
  - intros [= ->]. apply pair_eqb_eq in E. subst. now left.
  - intros H. right. now apply IH.
Qed.

Lemma in_unique_key {K V : Type} (k : K) (x y : V) (d : list (K * V)) :
  NoDup (map fst d) -> In (k, x) d -> In (k, y) d -> x = y.
Proof.
  induction d as [|[k' v'] r IH]; cbn; intros N Hx Hy; [destruct Hx|].
  inversion N as [|? ? Nk Nr]; subst.
  destruct Hx as [Hx|Hx], Hy as [Hy|Hy].
  - congruence.
  - injection Hx as -> ->. exfalso. apply Nk. apply in_map_iff. now exists (k, y).
  - injection Hy as -> ->. exfalso. apply Nk. apply in_map_iff. now exists (k, x).
  - now apply IH.
Qed.

Lemma set_fresh_keys (k : string * string) (v : var)
  (d : Py.dict (string * string) var) :
  ~ In k (map fst d) ->
  map fst (Py.set Py.pair_eqb k v d) = map fst d ++ [k].
Proof.
  induction d as [|[k' v'] r IH]; cbn; intros N; [reflexivity|].
  destruct (Py.pair_eqb k k') eqn:E.
  - apply pair_eqb_eq in E. subst. exfalso. apply N. now left.
  - cbn. f_equal. apply IH. intros I. apply N. now right.
Qed.

(** *** The keys of the assignment table *)

Lemma create_for_shift_keys (s : string) (emps : Py.dict string Employee.t)
  (st st' : State) :
  for_ emps (fun '(employee_id, employee) =>
    x <- NewBoolVar (AssignVar employee_id s) ;;
    set_assignment employee_id s x) st = Some (tt, st') ->
  NoDup (Py.keys emps) ->
  (forall e, In e (Py.keys emps) -> ~ In (e, s) (map fst (assignments st))) ->
  map fst (assignments st')
  = map fst (assignments st) ++ map (fun e => (e, s)) (Py.keys emps).
Proof.
  revert st. induction emps as [|[e0 emp0] r IH]; intros st H N F.
  - injection H as <-. cbn. now rewrite app_nil_r.
  - cbn [for_] in H. unfold bind at 1 in H. unfold bind at 1 in H.
    unfold NewBoolVar, set_assignment in H. cbn [model assignments variables] in H.
    cbn [Py.keys map fst] in N. inversion N as [|? ? N0 Nr]; subst.
    pose proof (set_fresh_keys (e0, s) (List.length (variables (model st)))
                  (assignments st) (F e0 (or_introl eq_refl))) as K1.
    apply IH in H; [|exact Nr|].
    + rewrite H. cbn [assignments].
      etransitivity; [apply f_equal2; [exact K1 | reflexivity]|].
      cbn. now rewrite <- app_assoc.
    + intros e He. cbn [assignments]. intros I.
      apply (eq_ind _ (fun l => In (e, s) l) I _) in K1.
      apply in_app_or in K1. destruct K1 as [J|[J|[]]].
      * apply (F e); [now right | exact J].
      * injection J as ->. now apply N0.
Qed.

Lemma create_for_shifts_keys (self : Problem) (l : Py.dict string Shift.t)
  (st st' : State) :
  for_ l (fun '(shift_id, shift) =>
    for_ (employees self) (fun '(employee_id, employee) =>
      x <- NewBoolVar (AssignVar employee_id shift_id) ;;
      set_assignment employee_id shift_id x)) st = Some (tt, st') ->
  NoDup (Py.keys l) -> NoDup (Py.keys (employees self)) ->
  (forall e s, In s (Py.keys l) -> ~ In (e, s) (map fst (assignments st))) ->
  map fst (assignments st')
  = map fst (assignments st)
    ++ flat_map (fun s => map (fun e => (e, s)) (Py.keys (employees self)))
                (Py.keys l).
Proof.
  revert st. induction l as [|[s0 sh0] r IH]; intros st H N NE F.
  - injection H as <-. cbn. now rewrite app_nil_r.
  - cbn [for_] in H. unfold bind at 1 in H.
    match type of H with
    | match ?m with _ => _ end = _ => destruct m as [[[] st1]|] eqn:E1; [|discriminate]
    end.
    cbn [Py.keys map fst] in N. inversion N as [|? ? N0 Nr]; subst.
    pose proof (create_for_shift_keys s0 (employees self) st st1 E1 NE
                  (fun e _ => F e s0 (or_introl eq_refl))) as K1.
    apply IH in H; [|exact Nr|exact NE|].
    + rewrite H, K1. cbn. now rewrite <- app_assoc.
    + intros e s Hs. rewrite K1. intros I.
      apply in_app_or in I. destruct I as [I|I].
      * apply (F e s); [now right | exact I].
      * apply in_map_iff in I. destruct I as [e' [[= _ ->] _]]. now apply N0.
Qed.

Lemma nodup_map_inj {A B : Type} (f : A -> B) (l : list A) :
  (forall a b, f a = f b -> a = b) -> NoDup l -> NoDup (map f l).
Proof.
  intros Hf. induction 1 as [|a r Ha Hr IH]; cbn; constructor; [|exact IH].
  intros I. apply in_map_iff in I. destruct I as [b [E Hb]].
  apply Hf in E. now subst.
Qed.

Lemma nodup_all_pairs (self : Problem) :
  NoDup (Py.keys (shifts self)) -> NoDup (Py.keys (employees self)) ->
  NoDup (all_pairs self).
Proof.
  unfold all_pairs. intros NS NE.
  induction (Py.keys (shifts self)) as [|s r IH]; cbn; [constructor|].
  inversion NS as [|? ? N0 Nr]; subst.
  apply NoDup_app.
  - apply nodup_map_inj; [|exact NE]. intros a b [= ->]. reflexivity.
  - now apply IH.
  - intros p I1 I2. apply in_map_iff in I1. destruct I1 as [e [<- _]].
    apply in_flat_map in I2. destruct I2 as [s' [Is' I2]].
    apply in_map_iff in I2. destruct I2 as [e' [[= _ ->] _]]. now apply N0.
Qed.

Section TableKeys.
Variable self : Problem.
Hypothesis shift_ids_unique : NoDup (Py.keys (shifts self)).
Hypothesis employee_ids_unique : NoDup (Py.keys (employees self)).

(** On a fresh optimizer the table's keys are the pairs, each once, in
    creation order; the later passes do not touch the table. *)
Lemma table_keys (st : State) :
  run_build self = Some st ->
  map fst (assignments st) = all_pairs self.
Proof.
  intros Hb.
  destruct (run_build_passes self st Hb)
    as [sa [s1 [s2 [s3 [s4 [s5 [[Ea _] [A0 _]]]]]]]].
  rewrite (after_assignments _ _ A0).
  unfold _create_assignment_variables in Ea.
  exact (create_for_shifts_keys self (shifts self) _ _ Ea shift_ids_unique
           employee_ids_unique (fun e s _ (I : In (e, s) []) => I)).
Qed.

Lemma table_lookup (st : State) (k : string * string) (x y : var) :
  run_build self = Some st ->
  Py.get Py.pair_eqb k (assignments st) = Some x ->
  In (k, y) (assignments st) -> x = y.
Proof.
  intros Hb G I. apply (in_unique_key k x y (assignments st)).
  - rewrite (table_keys st Hb). now apply nodup_all_pairs.
  - now apply pair_get_in.
  - exact I.
Qed.
End TableKeys.

(** *** Extraction *)

Lemma value_is_one (solver : CpSolver) (x : var) :
  (Value solver x =? 1) = values solver x.
Proof. unfold Value, value. destruct (values solver x); reflexivity. Qed.

Lemma extract_spec (self : Problem) (solver : CpSolver)
  (items : Py.dict (string * string) var) (assigned : list Assignment.t) :
  extract self solver items = Some assigned ->
  map (fun a => (Assignment.employee_id a, Assignment.shift_id a)) assigned
  = map fst (filter (fun p => values solver (snd p)) items)
  /\ Forall (entry_of_shift self) assigned.
Proof.
  revert assigned. induction items as [|[[e s] x] r IH]; intros assigned H.
  - injection H as <-. split; [reflexivity | constructor].
  - cbn [extract] in H. rewrite value_is_one in H. cbn [filter snd].
    destruct (values solver x).
    + destruct (Py.get String.eqb s (shifts self)) as [sh|] eqn:G; [|discriminate].
      cbn [obind] in H.
      destruct (_calculate_shift_hours sh) as [h|] eqn:Hh; [|discriminate].
      cbn [obind] in H.
      destruct (extract self solver r) as [rest|]; [|discriminate].
      cbn [obind] in H. injection H as <-.
      destruct (IH rest eq_refl) as [M F]. split.
      * cbn. now rewrite M.
      * constructor; [|exact F]. exists sh. cbn. auto.
    + now apply IH.
Qed.

Lemma extract_total (self : Problem) (solver : CpSolver)
  (items : Py.dict (string * string) var) :
  (forall k x, In (k, x) items ->
     exists sh h, Py.get String.eqb (snd k) (shifts self) = Some sh
                  /\ _calculate_shift_hours sh = Some h) ->
  exists assigned, extract self solver items = Some assigned.
Proof.
  induction items as [|[[e s] x] r IH]; intros H.
  - now exists [].
  - destruct IH as [rest E]; [intros k y I; apply (H k y); now right|].
    cbn [extract]. destruct (Value solver x =? 1).
    + destruct (H (e, s) x (or_introl eq_refl)) as [sh [h [G Hh]]].
      cbn in G. rewrite G. cbn [obind]. rewrite Hh. cbn [obind]. rewrite E.
      cbn [obind]. now eexists.
    + now exists rest.
Qed.

(** *** Counting a shift's entries *)

Lemma filter_map_comm {A B : Type} (f : A -> B) (p : B -> bool) (l : list A) :
  filter p (map f l) = map f (filter (fun a => p (f a)) l).
Proof.
  induction l as [|a r IH]; cbn; [reflexivity|].
  destruct (p (f a)); cbn; now rewrite IH.
Qed.

Lemma filter_filter {A : Type} (p q : A -> bool) (l : list A) :
  filter p (filter q l) = filter (fun a => q a && p a) l.
Proof.
  induction l as [|a r IH]; cbn; [reflexivity|].
  destruct (q a); cbn; [destruct (p a); now rewrite IH | exact IH].
Qed.

Lemma filter_row_same (s : string) (es : list string) :
  filter (fun k : string * string => String.eqb (snd k) s) (map (fun e => (e, s)) es)
  = map (fun e => (e, s)) es.
Proof.
  induction es as [|e r IH]; cbn; [reflexivity|].
  now rewrite String.eqb_refl, IH.
Qed.

Lemma filter_row_other (s s' : string) (es : list string) :
  s' <> s ->
  filter (fun k : string * string => String.eqb (snd k) s) (map (fun e => (e, s')) es)
  = [].
Proof.
  intros N. induction es as [|e r IH]; cbn; [reflexivity|].
  destruct (String.eqb_spec s' s); [contradiction | exact IH].
Qed.

Lemma filter_rows_absent (s : string) (es ss : list string) :
  ~ In s ss ->
  filter (fun k : string * string => String.eqb (snd k) s)
         (flat_map (fun s' => map (fun e => (e, s')) es) ss) = [].
Proof.
  induction ss as [|s' r IH]; intros N; cbn; [reflexivity|].
  rewrite filter_app, filter_row_other, IH; [reflexivity| |].
  - intros I. apply N. now right.
  - intros ->. apply N. now left.
Qed.

Lemma filter_rows (s : string) (es ss : list string) :
  NoDup ss -> In s ss ->
  filter (fun k : string * string => String.eqb (snd k) s)
         (flat_map (fun s' => map (fun e => (e, s')) es) ss)
  = map (fun e => (e, s)) es.
Proof.
  induction ss as [|s' r IH]; intros N I; [destruct I|].
  inversion N as [|? ? N0 Nr]; subst. cbn. rewrite filter_app.
  destruct I as [->|I].
  - rewrite filter_row_same, filter_rows_absent by exact N0. apply app_nil_r.
  - rewrite filter_row_other, IH; [reflexivity|exact Nr|exact I|].
    intros ->. contradiction.
Qed.

(** The variables of one shift, read from the table in row order, are
    the ones the lookups employee by employee give. *)
Lemma row_variables (table : Py.dict (string * string) var) (s : string)
  (es : list string) (row : list (string * string * var)) (xs : list var) :
  (forall k x y, Py.get Py.pair_eqb k table = Some x -> In (k, y) table -> x = y) ->
  map fst row = map (fun e => (e, s)) es ->
  (forall p, In p row -> In p table) ->
  Forall2 (fun e x => Py.get Py.pair_eqb (e, s) table = Some x) es xs ->
  map snd row = xs.
Proof.
  intros U. revert row xs. induction es as [|e r IH]; intros row xs M I F.
  - destruct row; [|discriminate]. inversion F. reflexivity.
  - destruct row as [|[k y] row']; [discriminate|].
    cbn in M. injection M as -> M.
    inversion F as [|? x ? xs' G F']; subst. cbn. f_equal.
    + symmetry. apply (U (e, s) x y G). apply I. now left.
    + apply IH; [exact M | intros p Hp; apply I; now right | exact F'].
Qed.

Section Staffing.
Variable self : Problem.
Hypothesis shift_ids_unique : NoDup (Py.keys (shifts self)).
Hypothesis employee_ids_unique : NoDup (Py.keys (employees self)).

Lemma count_assigned_row (st : State) (solver : CpSolver)
  (assigned : list Assignment.t) (s : string) (xs : list var) :
  run_build self = Some st ->
  _extract_solution self st solver = Some assigned ->
  In s (Py.keys (shifts self)) ->
  Forall2 (fun e x => Py.get Py.pair_eqb (e, s) (assignments st) = Some x)
          (Py.keys (employees self)) xs ->
  count_assigned s assigned = count_true (values solver) xs.
Proof.
  intros Hb He Hs F.
  destruct (extract_spec self solver _ _ He) as [M _].
  set (row := filter (fun p : string * string * var => String.eqb (snd (fst p)) s)
                     (assignments st)).
  assert (R : map snd row = xs).
  { apply (row_variables (assignments st) s (Py.keys (employees self))).
    - intros k x y G I.
      exact (table_lookup self shift_ids_unique employee_ids_unique st k x y Hb G I).
    - unfold row.
      rewrite <- (filter_map_comm fst (fun k => String.eqb (snd k) s)).
      rewrite (table_keys self shift_ids_unique employee_ids_unique st Hb).
      now apply filter_rows.
    - intros p Hp. unfold row in Hp. now apply filter_In in Hp.
    - exact F. }
  unfold count_assigned, count_true. f_equal.
  transitivity (List.length
    (filter (fun k : string * string => String.eqb (snd k) s)
       (map (fun a => (Assignment.employee_id a, Assignment.shift_id a)) assigned))).
  - rewrite filter_map_comm, length_map. reflexivity.
  - rewrite M, filter_map_comm, length_map, filter_filter.
    rewrite <- R, filter_map_comm, length_map. unfold row. rewrite filter_filter.
    f_equal. apply filter_ext. intros p. apply andb_comm.
Qed.

(** *** Staffing of a returned solution *)

Lemma solution_staffing (st : State) (solver : CpSolver)
  (assigned : list Assignment.t) (s : string) (shift : Shift.t) :
  run_build self = Some st ->
  satisfies (values solver) (model st) = true ->
  _extract_solution self st solver = Some assigned ->
  In (s, shift) (shifts self) ->
  get_or (Shift.min_staff shift) 1 <= count_assigned s assigned
  <= get_or (Shift.max_staff shift) (get_or (Shift.min_staff shift) 1 + 2).
Proof.
  intros Hb Hv He Hs.
  destruct (coverage_bounds self st (values solver) s shift Hb Hv Hs) as [xs [F B]].
  rewrite (count_assigned_row st solver assigned s xs Hb He); [exact B| |exact F].
  unfold Py.keys. apply in_map_iff. now exists (s, shift).
Qed.
End Staffing.

(** *** [__init__]: dictionaries by identifier *)

Lemma set_keys {V : Type} (k : string) (v : V) (d : Py.dict string V) :
  Py.keys (Py.set String.eqb k v d)
  = if Py.contains String.eqb k d then Py.keys d else Py.keys d ++ [k].
Proof.
  unfold Py.contains, Py.keys. induction d as [|[k' v'] r IH]; cbn; [reflexivity|].
  destruct (String.eqb_spec k k') as [->|N]; cbn; [reflexivity|].
  rewrite IH. destruct (Py.get String.eqb k r); reflexivity.
Qed.

Lemma contains_key {V : Type} (k : string) (d : Py.dict string V) :
  Py.contains String.eqb k d = true <-> In k (Py.keys d).
Proof.
  unfold Py.contains. destruct (Py.get String.eqb k d) as [v|] eqn:E.
  - split; [intros _|reflexivity].
    apply get_in in E. unfold Py.keys. apply in_map_iff. now exists (k, v).
  - apply get_none_not_key in E. split; [discriminate | contradiction].
Qed.

Lemma set_nodup {V : Type} (k : string) (v : V) (d : Py.dict string V) :
  NoDup (Py.keys d) -> NoDup (Py.keys (Py.set String.eqb k v d)).
Proof.
  intros N. rewrite set_keys.
  destruct (Py.contains String.eqb k d) eqn:C; [exact N|].
  apply NoDup_app; [exact N | repeat constructor; intros [] |].
  intros a Ia [<-|[]]. apply contains_key in Ia. congruence.
Qed.

Section ById.
Context {A : Type}.
Variable id : A -> string.

Lemma by_id_fold_nodup (xs : list A) (d : Py.dict string A) :
  NoDup (Py.keys d) ->
  NoDup (Py.keys (fold_left (fun d x => Py.set String.eqb (id x) x d) xs d)).
Proof.
  revert d. induction xs as [|x r IH]; intros d N; cbn; [exact N|].
  apply IH. now apply set_nodup.
Qed.

Lemma by_id_fold_keys (xs : list A) (d : Py.dict string A) (k : string) :
  In k (Py.keys (fold_left (fun d x => Py.set String.eqb (id x) x d) xs d))
  <-> In k (Py.keys d) \/ In k (map id xs).
Proof.
  revert d. induction xs as [|x r IH]; intros d; cbn [fold_left map In].
  - tauto.
  - rewrite IH, set_keys.
    destruct (Py.contains String.eqb (id x) d) eqn:C.
    + apply contains_key in C. split; [tauto|].
      intros [H|[<-|H]]; auto.
    + rewrite in_app_iff. cbn. tauto.
Qed.

Lemma by_id_fold_keeps (xs : list A) (d : Py.dict string A) (k : string) :
  ~ In k (map id xs) ->
  Py.get String.eqb k (fold_left (fun d x => Py.set String.eqb (id x) x d) xs d)
  = Py.get String.eqb k d.
Proof.
  revert d. induction xs as [|x r IH]; intros d N; cbn; [reflexivity|].
  rewrite IH by (intros I; apply N; now right).
  apply get_set_other. intros ->. apply N. now left.
Qed.

Lemma by_id_fold_get (xs : list A) (d : Py.dict string A) (k : string) (x : A) :
  (forall y, Py.get String.eqb k d = Some y -> id y = k) ->
  Py.get String.eqb k (fold_left (fun d x => Py.set String.eqb (id x) x d) xs d)
  = Some x ->
  id x = k /\ (In x xs \/ Py.get String.eqb k d = Some x).
Proof.
  revert d. induction xs as [|y r IH]; intros d Hd H; cbn in H.
  - split; [now apply Hd | now right].
  - apply IH in H.
    + destruct H as [E [I|G]]; split; try exact E.
      * left. now right.
      * destruct (String.eqb_spec k (id y)) as [->|N].
        -- rewrite get_set_same in G. injection G as ->. left. now left.
        -- rewrite get_set_other in G by exact N. now right.
    + intros z G. destruct (String.eqb_spec k (id y)) as [->|N].
      * rewrite get_set_same in G. now injection G as ->.
      * rewrite get_set_other in G by exact N. now apply Hd.
Qed.

(** The dictionaries [__init__] builds, [{x['id']: x for x in xs}]:
    every identifier is a key exactly once, a key's record carries that
    identifier and comes from the list, and of the records sharing an
    identifier the last one listed is kept. *)
Theorem dict_by_id_lookup (xs : list A) :
  NoDup (Py.keys (dict_by_id id xs))
  /\ (forall k, In k (Py.keys (dict_by_id id xs)) <-> In k (map id xs))
  /\ (forall k x, Py.get String.eqb k (dict_by_id id xs) = Some x ->
                  id x = k /\ In x xs)
  /\ (forall l1 x l2, xs = l1 ++ x :: l2 -> ~ In (id x) (map id l2) ->
                      Py.get String.eqb (id x) (dict_by_id id xs) = Some x).
Proof.
  unfold dict_by_id. split; [|split; [|split]].
  - apply by_id_fold_nodup. constructor.
  - intros k. rewrite by_id_fold_keys. cbn. tauto.
  - intros k x H. apply by_id_fold_get in H; [|discriminate].
    destruct H as [E [I|G]]; [now split | discriminate].
  - intros l1 x l2 -> N. rewrite fold_left_app. cbn.
    rewrite by_id_fold_keeps by exact N. apply get_set_same.
Qed.
End ById.

(** The problem [__init__] makes has unique shift and employee
    identifiers. *)
Lemma init_ids_unique (shift_list : list Shift.t) (employee_list : list Employee.t)
  (prefs : option (Py.dict string Prefs.t)) (wts : option (Py.dict string num)) :
  NoDup (Py.keys (shifts (fst (__init__ shift_list employee_list prefs wts))))
  /\ NoDup (Py.keys (employees (fst (__init__ shift_list employee_list prefs wts)))).
Proof.
  cbn. split.
  - apply by_id_fold_nodup. constructor.
  - apply by_id_fold_nodup. constructor.
Qed.

(** *** What a successful build has checked *)

Lemma group_by_week_defined (l : Py.dict string Shift.t)
  (acc res : Py.dict string (list string)) (s : string) (sh : Shift.t) :
  group_by_week l acc = Some res -> In (s, sh) l ->
  exists key, _get_week_key (Shift.date sh) = Some key.
Proof.
  revert acc. induction l as [|[s0 sh0] r IH]; intros acc H I; [destruct I|].
  cbn [group_by_week] in H.
  destruct (_get_week_key (Shift.date sh0)) as [wk|] eqn:W; [|discriminate].
  cbn [obind] in H. destruct I as [[= <- <-]|I].
  - now exists wk.
  - eapply IH; eassumption.
Qed.

Lemma set_in (k k' : string * string) (v v' : var)
  (d : Py.dict (string * string) var) :
  In (k', v') (Py.set Py.pair_eqb k v d) -> k' = k \/ In (k', v') d.
Proof.
  induction d as [|[k0 v0] r IH]; cbn.
  - intros [[= -> ->]|[]]. now left.
  - destruct (Py.pair_eqb k k0) eqn:E; cbn.
    + intros [[= <- <-]|I]; [left; symmetry; now apply pair_eqb_eq | right; now right].
    + intros [I|I]; [right; now left|].
      destruct (IH I) as [->|J]; [now left | right; now right].
Qed.

Lemma create_for_shift_in (s : string) (emps : Py.dict string Employee.t)
  (st st' : State) (p : string * string * var) :
  for_ emps (fun '(employee_id, employee) =>
    x <- NewBoolVar (AssignVar employee_id s) ;;
    set_assignment employee_id s x) st = Some (tt, st') ->
  In p (assignments st') ->
  In p (assignments st) \/ (In (fst (fst p)) (Py.keys emps) /\ snd (fst p) = s).
Proof.
  revert st. induction emps as [|[e0 emp0] r IH]; intros st H I.
  - injection H as <-. now left.
  - cbn [for_] in H. unfold bind at 1 in H. unfold bind at 1 in H.
    unfold NewBoolVar, set_assignment in H. cbn [model assignments variables] in H.
    destruct (IH _ H I) as [J|[J1 J2]].
    + cbn [assignments] in J. destruct p as [k x]. apply set_in in J.
      destruct J as [->|J]; [right; cbn; auto | now left].
    + right. split; [now right | exact J2].
Qed.

Lemma create_for_shifts_in (self : Problem) (l : Py.dict string Shift.t)
  (st st' : State) (p : string * string * var) :
  for_ l (fun '(shift_id, shift) =>
    for_ (employees self) (fun '(employee_id, employee) =>
      x <- NewBoolVar (AssignVar employee_id shift_id) ;;
      set_assignment employee_id shift_id x)) st = Some (tt, st') ->
  In p (assignments st') ->
  In p (assignments st)
  \/ (In (fst (fst p)) (Py.keys (employees self)) /\ In (snd (fst p)) (Py.keys l)).
Proof.
  revert st. induction l as [|[s0 sh0] r IH]; intros st H I.
  - injection H as <-. now left.
  - cbn [for_] in H. unfold bind at 1 in H.
    match type of H with
    | match ?m with _ => _ end = _ => destruct m as [[[] st1]|] eqn:E1; [|discriminate]
    end.
    destruct (IH _ H I) as [J|[J1 J2]].
    + destruct (create_for_shift_in s0 _ _ _ p E1 J) as [K|[K1 K2]].
      * now left.
      * right. split; [exact K1 | now left].
    + right. split; [exact J1 | now right].
Qed.

Section Checked.
Variable self : Problem.

(** The build computed the hours of every shift (if there is any
    employee), so they are defined. *)
Lemma hours_defined (st : State) (e : string) (emp : Employee.t)
  (s : string) (shift : Shift.t) :
  run_build self = Some st ->
  In (e, emp) (employees self) -> In (s, shift) (shifts self) ->
  exists sh h, Py.get String.eqb s (shifts self) = Some sh
               /\ _calculate_shift_hours sh = Some h.
Proof.
  intros Hb He Hs.
  destruct (run_build_passes self st Hb)
    as [sa [s1 [s2 [s3 [s4 [s5 [[_ [_ [_ [_ [_ [E5 _]]]]]] _]]]]]]].
  unfold _add_max_hours_constraints in E5. unfold bind at 1 in E5. unfold lift at 1 in E5.
  destruct (shifts_by_week self) as [by_week|] eqn:W; [|discriminate].
  destruct (group_by_week_defined _ _ _ s shift W Hs) as [key Hk].
  destruct (shifts_by_week_group self by_week key s shift W Hs Hk) as [Hg Hin].
  edestruct (for_in _ _ _ _ _ He E5) as [t1 [t2 [B1 [B B2]]]];
    [repeat steady_step|].
  cbv beta iota zeta in B.
  edestruct (for_in _ _ _ _ _ Hg B) as [u1 [u2 [C1 [C C2]]]];
    [repeat steady_step|].
  cbv beta iota zeta in C. unfold bind at 1 in C.
  match type of C with
  | match ?m with _ => _ end = _ => destruct m as [[terms u1']|] eqn:F; [|discriminate]
  end.
  apply hours_terms_inv in F. destruct F as [_ F].
  destruct (Forall2_in_l _ _ _ _ F Hin) as [t [_ [sh [G [Hh _]]]]].
  now exists sh, (fst t).
Qed.

Lemma table_entries (st : State) (p : string * string * var) :
  run_build self = Some st -> In p (assignments st) ->
  In (fst (fst p)) (Py.keys (employees self))
  /\ In (snd (fst p)) (Py.keys (shifts self)).
Proof.
  intros Hb I.
  destruct (run_build_passes self st Hb)
    as [sa [s1 [s2 [s3 [s4 [s5 [[Ea _] [A0 _]]]]]]]].
  rewrite (after_assignments _ _ A0) in I.
  unfold _create_assignment_variables in Ea.
  destruct (create_for_shifts_in self _ _ _ p Ea I) as [[]|J]. exact J.
Qed.

(** *** [solve] after a successful build *)

(** Once [build_model] has completed, [solve] returns a result whatever
    the solver answers: extraction finds every shift and its hours.  The
    entries carry their shift's date, times and hours; when a solution
    was found they are the pairs whose variable is 1, in the order the
    variables were created, and the statistics count them. *)
Theorem solve_never_raises (st : State) (solver : CpSolver) :
  run_build self = Some st ->
  exists r,
    solve self st solver = Some r
    /\ Result.status r = _status_to_string (solve_status solver)
    /\ Forall (entry_of_shift self) (Result.assignments r)
    /\ (found (solve_status solver) = true ->
        map (fun a => (Assignment.employee_id a, Assignment.shift_id a))
            (Result.assignments r)
        = map fst (filter (fun p => values solver (snd p)) (assignments st))
        /\ Result.objective_value r = Some (ObjectiveValue solver)
        /\ Py.get String.eqb "total_assigned_shifts" (Result.statistics r)
           = Some (SInt (Z.of_nat (List.length (Result.assignments r))))
        /\ Py.get String.eqb "is_optimal" (Result.statistics r)
           = Some (SBool (match solve_status solver with
                          | OPTIMAL => true
                          | _ => false
                          end))).
Proof.
  intros Hb. unfold solve.
  destruct (found (solve_status solver)) eqn:F.
  - destruct (extract_total self solver (assignments st)) as [assigned E].
    { intros [e s] x I. destruct (table_entries st _ Hb I) as [He Hs]. cbn in He, Hs.
      unfold Py.keys in He, Hs. apply in_map_iff in He, Hs.
      destruct He as [[e' emp] [<- He]]. destruct Hs as [[s' shift] [<- Hs]].
      exact (hours_defined st e' emp s' shift Hb He Hs). }
    unfold _extract_solution. rewrite E. cbn [obind].
    destruct (extract_spec self solver _ _ E) as [M Fa].
    eexists. split; [reflexivity|]. cbn.
    split; [reflexivity|]. split; [exact Fa|]. intros _.
    split; [exact M|]. split; [reflexivity|]. split; reflexivity.
  - eexists. split; [reflexivity|]. cbn.
    split; [reflexivity|]. split; [constructor | discriminate].
Qed.
End Checked.

Section Reported.
Variable self : Problem.
Hypothesis shift_ids_unique : NoDup (Py.keys (shifts self)).
Hypothesis employee_ids_unique : NoDup (Py.keys (employees self)).

(** *** What a real solution looks like in the result *)

(** With unique identifiers, when the solver's values satisfy the built
    model, the returned assignments staff every shift within its
    bounds, and the coverage statistics report every shift as fully
    covered. *)
Theorem solution_within_staffing (st : State) (solver : CpSolver) (r : Result.t) :
  run_build self = Some st ->
  satisfies (values solver) (model st) = true ->
  found (solve_status solver) = true ->
  solve self st solver = Some r ->
  (forall s shift, In (s, shift) (shifts self) ->
     get_or (Shift.min_staff shift) 1
     <= count_assigned s (Result.assignments r)
     <= get_or (Shift.max_staff shift) (get_or (Shift.min_staff shift) 1 + 2))
  /\ exists c,
       Py.get String.eqb "coverage_stats" (Result.statistics r) = Some (SCoverage c)
       /\ fully_covered_shifts c = total_shifts c.
Proof.
  intros Hb Hv F Hr. unfold solve in Hr. rewrite F in Hr.
  destruct (_extract_solution self st solver) as [assigned|] eqn:E; [|discriminate].
  cbn [obind] in Hr. injection Hr as <-. cbn [Result.assignments Result.statistics].
  assert (B : forall s shift, In (s, shift) (shifts self) ->
     get_or (Shift.min_staff shift) 1 <= count_assigned s assigned
     <= get_or (Shift.max_staff shift) (get_or (Shift.min_staff shift) 1 + 2)).
  { intros s shift Hs.
    exact (solution_staffing self shift_ids_unique employee_ids_unique
             st solver assigned s shift Hb Hv E Hs). }
  split; [exact B|].
  exists (_calculate_coverage_stats self assigned). split; [reflexivity|].
  unfold _calculate_coverage_stats. cbn [fully_covered_shifts total_shifts].
  do 2 f_equal.
  assert (All : forall l : list (string * Shift.t),
             (forall p, In p l -> In p (shifts self)) ->
             filter (fun '(s_id, shift) =>
                       get_or (Shift.min_staff shift) 1
                       <=? get_or (Py.get String.eqb s_id (shift_counts assigned)) 0) l
             = l).
  { induction l as [|[s sh] l' IH]; intros Hl; [reflexivity|].
    cbn [filter]. rewrite shift_counts_count.
    destruct (B s sh (Hl _ (or_introl eq_refl))) as [Lo _].
    apply Z.leb_le in Lo. rewrite Lo. f_equal. apply IH.
    intros p Hp. apply Hl. now right. }
  now rewrite All.
Qed.
End Reported.

(** *** The weights the model depends on *)

(** Only two weights reach the model.  Problems with the same shifts,
    employees and preferences whose weights agree on
    [int(employee_preferences)] and [int(consecutive_days)] build the
    same model; the fairness weight is converted by [int] and then
    dropped, so it matters only in that the conversion must succeed. *)
Theorem unused_weights (self self' : Problem) (st0 : State) :
  shifts self' = shifts self -> employees self' = employees self ->
  preferences self' = preferences self ->
  weight_of self' "employee_preferences" 55%float
  = weight_of self "employee_preferences" 55%float ->
  weight_of self' "consecutive_days" 30%float
  = weight_of self "consecutive_days" 30%float ->
  (weight_of self' "workload_fairness" 40%float = None
   <-> weight_of self "workload_fairness" 40%float = None) ->
  build_model self' st0 = build_model self st0.
Proof.
  destruct self as [s e p w], self' as [s' e' p' w']. cbn [shifts employees preferences].
  intros -> -> -> Hp Hc Hf.
  unfold build_model.
  change (_create_assignment_variables (mkProblem s e p w'))
    with (_create_assignment_variables (mkProblem s e p w)).
  change (_add_shift_coverage_constraints (mkProblem s e p w'))
    with (_add_shift_coverage_constraints (mkProblem s e p w)).
  change (_add_no_double_booking_constraints (mkProblem s e p w'))
    with (_add_no_double_booking_constraints (mkProblem s e p w)).
  change (_add_skill_requirements_constraints (mkProblem s e p w'))
    with (_add_skill_requirements_constraints (mkProblem s e p w)).
  change (_add_availability_constraints (mkProblem s e p w'))
    with (_add_availability_constraints (mkProblem s e p w)).
  change (_add_max_hours_constraints (mkProblem s e p w'))
    with (_add_max_hours_constraints (mkProblem s e p w)).
  assert (O : forall st, _build_objective_function (mkProblem s e p w') st
                         = _build_objective_function (mkProblem s e p w) st).
  { intros st. unfold _build_objective_function. rewrite Hp, Hc.
    unfold bind, lift.
    destruct (weight_of (mkProblem s e p w) "employee_preferences" 55%float);
      [|reflexivity].
    destruct (weight_of (mkProblem s e p w') "workload_fairness" 40%float) eqn:F',
             (weight_of (mkProblem s e p w) "workload_fairness" 40%float) eqn:F.
    - reflexivity.
    - destruct Hf as [_ Hf]. discriminate (Hf eq_refl).
    - destruct Hf as [Hf _]. discriminate (Hf eq_refl).
    - reflexivity. }
  unfold bind.
  repeat match goal with
  | |- match ?m with _ => _ end = match ?m with _ => _ end =>
      destruct m as [[[] ?]|]; [|reflexivity]
  end.
  apply O.
Qed.

(** *** The value of the objective *)

Lemma eval_app (v : valuation) (a b : LinExpr) :
  eval v (a ++ b) = eval v a + eval v b.
Proof.
  induction a as [|[c x] r IH]; cbn [app eval]; [reflexivity|]. rewrite IH. lia.
Qed.

Lemma eval_same_coefficient (v : valuation) (c : Z) (xs : list var) :
  eval v (map (fun x => (c, x)) xs) = c * count_true v xs.
Proof.
  unfold count_true. induction xs as [|x r IH]; cbn [map eval filter].
  - cbn. lia.
  - rewrite IH. unfold value. destruct (v x); cbn [List.length]; lia.
Qed.

Lemma eval_preference_terms (self : Problem) (v : valuation) (w : Z)
  (table : Py.dict (string * string) var) :
  eval v (map (fun '((emp_id, shift_id), x) =>
                 (_get_preference self emp_id shift_id * w, x)) table)
  = w * preference_total self v table.
Proof.
  induction table as [|[[e s] x] r IH]; cbn [map eval preference_total].
  - lia.
  - rewrite IH. unfold value. destruct (v x); lia.
Qed.

Lemma count_true_app (v : valuation) (a b : list var) :
  count_true v (a ++ b) = count_true v a + count_true v b.
Proof. unfold count_true. rewrite filter_app, length_app. lia. Qed.

(** A list known entry by entry. *)
Lemma terms_by_index (c : Z) (P : nat -> var -> Prop) (l : LinExpr) (k : nat) :
  (forall i, (i < List.length l)%nat ->
     exists x, nth_error l i = Some (c, x) /\ P (k + i)%nat x) ->
  l = map (fun x => (c, x)) (map snd l)
  /\ Forall2 (fun x i => P i x) (map snd l) (seq k (List.length l)).
Proof.
  revert k. induction l as [|[c0 x0] r IH]; intros k H.
  - split; [reflexivity | constructor].
  - destruct (H 0%nat) as [x [E Px]]; [cbn; lia|].
    cbn in E. injection E as -> ->. rewrite Nat.add_0_r in Px.
    destruct (IH (S k)) as [E1 F1].
    { intros i Hi. destruct (H (S i)) as [y [Ey Py]]; [cbn; lia|].
      exists y. split; [exact Ey|]. now rewrite Nat.add_succ_comm. }
    split.
    + cbn [map snd]. now rewrite <- E1.
    + cbn [map snd List.length seq]. now constructor.
Qed.

Lemma Forall2_map_r {A B C : Type} (R : A -> C -> Prop) (f : B -> C)
  (l : list A) (l' : list B) :
  Forall2 (fun a b => R a (f b)) l l' -> Forall2 R l (map f l').
Proof. induction 1; cbn; constructor; assumption. Qed.

Section Objective.
Variable self : Problem.

Lemma employee_indicators (weight : Z) (st : State) (e : string) (terms : LinExpr) :
  employee_ok self weight st e terms ->
  terms = map (fun x => (- weight, x)) (map snd terms)
  /\ Forall2 (fun x name => nth_error (variables (model st)) x = Some name)
             (map snd terms) (map (ConsecVar e) (seq 0 (num_windows self e))).
Proof.
  intros [L [_ H]].
  destruct (terms_by_index (- weight)
              (fun i x => nth_error (variables (model st)) x = Some (ConsecVar e i))
              terms 0) as [E F].
  { intros i Hi. rewrite L in Hi. destruct (H i Hi) as [_ [x [N [_ [V _]]]]].
    exists x. split; [exact N | exact V]. }
  split; [exact E|]. rewrite L in F. now apply Forall2_map_r.
Qed.

Lemma indicators_per_employee (weight : Z) (st : State) (es : list string)
  (per : list LinExpr) :
  Forall2 (employee_ok self weight st) es per ->
  List.concat per = map (fun x => (- weight, x)) (map snd (List.concat per))
  /\ Forall2 (fun x name => nth_error (variables (model st)) x = Some name)
             (map snd (List.concat per))
             (flat_map (fun e => map (ConsecVar e) (seq 0 (num_windows self e))) es).
Proof.
  induction 1 as [|e ts es' per' Ho Hr [IE IF]]; cbn [List.concat flat_map].
  - split; [reflexivity | constructor].
  - destruct (employee_indicators weight st e ts Ho) as [E F].
    rewrite !map_app. split.
    + now rewrite <- E, <- IE.
    + now apply Forall2_app.
Qed.

(** The objective of the built model, evaluated: a schedule scores
    [int(employee_preferences weight)] times the sum of the preference
    scores of its assigned pairs, minus [int(consecutive_days weight)]
    for every window indicator that is true; the indicators are the
    variables named [consec_e{e}_w{i}], in creation order. *)
Theorem objective_scores (st : State) :
  run_build self = Some st ->
  exists pref_weight consec_weight terms indicators,
    weight_of self "employee_preferences" 55%float = Some pref_weight
    /\ weight_of self "consecutive_days" 30%float = Some consec_weight
    /\ objective (model st) = Some terms
    /\ Forall2 (fun x name => nth_error (variables (model st)) x = Some name)
               indicators (window_names self)
    /\ forall v,
         eval v terms
         = pref_weight * preference_total self v (assignments st)
           - consec_weight * count_true v indicators.
Proof.
  unfold run_build. intros Hb.
  destruct (build_model self (mkState CpModel.empty [])) as [[[] st']|] eqn:H;
    [|discriminate].
  injection Hb as ->.
  destruct (build_model_objective_state self _ st H) as [st1 [C B]].
  destruct (objective_terms self st1 st B) as [pw [cw [pen [st2 [Hp [Hc [E O]]]]]]].
  destruct (consecutive_days_run self cw st1 C) as [per [st2' [E' [_ F]]]].
  rewrite E in E'. injection E' as -> <-.
  destruct (indicators_per_employee cw st2 _ _ F) as [Ep Fp].
  assert (V : variables (model st) = variables (model st2)
              /\ assignments st = assignments st1).
  { pose proof (after_assignments _ _ (steady_objective self _ _ _ B)) as A.
    unfold _build_objective_function, bind, lift in B.
    rewrite Hp, Hc in B.
    destruct (weight_of self "workload_fairness" 40%float); [|discriminate].
    rewrite E in B. apply Maximize_inv in B. destruct B as [_ ->]. cbn.
    split; [reflexivity | exact A]. }
  destruct V as [V A].
  exists pw, cw. eexists. exists (map snd (List.concat per)).
  split; [exact Hp|]. split; [exact Hc|]. split; [exact O|]. split.
  - rewrite V. exact Fp.
  - intros v. rewrite eval_app, eval_preference_terms, A, Ep, eval_same_coefficient.
    rewrite <- Ep. lia.
Qed.
End Objective.

(** *** What [build_model] rejects *)

Lemma hours_times (shift : Shift.t) (hours : Z) :
  _calculate_shift_hours shift = Some hours ->
  exists start end_,
    _parse_time (Shift.start_time shift) = Some start
    /\ _parse_time (Shift.end_time shift) = Some end_.
Proof.
  unfold _calculate_shift_hours.
  destruct (_parse_time (Shift.start_time shift)) as [a|]; [|discriminate].
  destruct (_parse_time (Shift.end_time shift)) as [b|]; [|discriminate].
  intros _. now exists a, b.
Qed.

(** A build that completes has read its input: every shift's date is a
    [%Y-%m-%d] date; if there is an employee at all, every shift
    identifier leads to a shift whose start and end are times; and the
    three weights the objective reads are numbers [int] accepts.  So a
    bad date, a bad time (with an employee present) or a bad weight
    makes [build_model] raise. *)
Theorem build_checks_input (self : Problem) (st : State) :
  run_build self = Some st ->
  (forall s shift, In (s, shift) (shifts self) ->
     exists key, _get_week_key (Shift.date shift) = Some key)
  /\ (employees self <> [] ->
      forall s shift, In (s, shift) (shifts self) ->
        exists shift' start end_,
          Py.get String.eqb s (shifts self) = Some shift'
          /\ _parse_time (Shift.start_time shift') = Some start
          /\ _parse_time (Shift.end_time shift') = Some end_)
  /\ (exists w, weight_of self "employee_preferences" 55%float = Some w)
  /\ (exists w, weight_of self "workload_fairness" 40%float = Some w)
  /\ (exists w, weight_of self "consecutive_days" 30%float = Some w).
Proof.
  intros Hb.
  destruct (run_build_passes self st Hb)
    as [sa [s1 [s2 [s3 [s4 [s5 [[_ [_ [_ [_ [_ [E5 E6]]]]]] _]]]]]]].
  split; [|split].
  - intros s shift Hs.
    unfold _add_max_hours_constraints in E5. unfold bind at 1 in E5.
    unfold lift at 1 in E5.
    destruct (shifts_by_week self) as [by_week|] eqn:W; [|discriminate].
    exact (group_by_week_defined _ _ _ s shift W Hs).
  - intros N s shift Hs.
    destruct (employees self) as [|[e emp] r] eqn:Ee; [contradiction|].
    destruct (hours_defined self st e emp s shift Hb) as [sh [h [G Hh]]];
      [rewrite Ee; now left | exact Hs |].
    destruct (hours_times sh h Hh) as [a [b [Ha Hb']]].
    now exists sh, a, b.
  - unfold _build_objective_function, bind, lift in E6.
    destruct (weight_of self "employee_preferences" 55%float) as [pw|];
      [|discriminate].
    destruct (weight_of self "workload_fairness" 40%float) as [fw|];
      [|discriminate].
    destruct (weight_of self "consecutive_days" 30%float) as [cw|];
      [|discriminate].
    split; [now exists pw|]. split; [now exists fw | now exists cw].
Qed.

(* ------------------------------------------------------------------ *)
(** *** The ward and the split day *)

Lemma ward_built : run_build ward = Some (built ward).
Proof. vm_compute. reflexivity. Qed.

Lemma ward_satisfied : satisfies ward_values (model (built ward)) = true.
Proof. vm_compute. reflexivity. Qed.

Lemma split_day_built : run_build split_day = Some (built split_day).
Proof. vm_compute. reflexivity. Qed.

Lemma coverage_enforced_witness :
  exists xs,
    Forall2 (fun e x => Py.get Py.pair_eqb (e, "s1") (assignments (built ward)) = Some x)
            (Py.keys (employees ward)) xs
    /\ List.length xs = List.length (employees ward)
    /\ 1 <= count_true ward_values xs <= 1.
Proof.
  apply (coverage_enforced ward (built ward) ward_values "s1" ward_s1).
  - vm_compute. reflexivity.
  - vm_compute. reflexivity.
  - simpl. left. reflexivity.
Defined.

Lemma skills_enforced_witness : ward_values 1%nat = false.
Proof.
  apply (skills_enforced ward (built ward) ward_values "s1" ward_s1
           "e2" (Employee.mk "e2" None None None None) 1%nat).
  - vm_compute. reflexivity.
  - vm_compute. reflexivity.
  - simpl. left. reflexivity.
  - simpl. right. left. reflexivity.
  - reflexivity.
  - vm_compute. reflexivity.
Defined.

Lemma availability_enforced_witness : ward_values 2%nat = false.
Proof.
  apply (availability_enforced ward (built ward) ward_values "s2"
           (Shift.mk "s2" "2024-03-02" "09:00" "17:00" None None None)
           "e1" ward_e1 2%nat).
  - vm_compute. reflexivity.
  - vm_compute. reflexivity.
  - simpl. right. left. reflexivity.
  - simpl. left. reflexivity.
  - simpl. left. reflexivity.
  - vm_compute. reflexivity.
Defined.

Lemma weekly_cap_enforced_witness :
  In "s1" (ids_in_week ward "2024-W9")
  /\ exists terms,
       Forall2 (hours_term ward (built ward) "e1") (ids_in_week ward "2024-W9") terms
       /\ eval ward_values terms <= 40.
Proof.
  apply (weekly_cap_enforced ward (built ward) ward_values "2024-W9" "s1" ward_s1
           "e1" ward_e1).
  - vm_compute. reflexivity.
  - vm_compute. reflexivity.
  - simpl. left. reflexivity.
  - vm_compute. reflexivity.
  - simpl. left. reflexivity.
Defined.

Lemma no_double_booking_enforced_witness :
  ward_values 0%nat && ward_values 2%nat = false.
Proof.
  apply (no_double_booking_enforced split_day (built split_day) ward_values "e1"
           "A" "B" split_day_A split_day_B 0%nat 2%nat).
  - vm_compute. reflexivity.
  - vm_compute. reflexivity.
  - simpl. left. reflexivity.
  - reflexivity.
  - reflexivity.
  - discriminate.
  - reflexivity.
  - vm_compute. reflexivity.
  - vm_compute. reflexivity.
  - vm_compute. reflexivity.
Defined.

Lemma solve_never_raises_witness :
  exists r,
    solve ward (built ward) ward_solver = Some r
    /\ Result.status r = "OPTIMAL"
    /\ Forall (entry_of_shift ward) (Result.assignments r)
    /\ (found OPTIMAL = true ->
        map (fun a => (Assignment.employee_id a, Assignment.shift_id a))
            (Result.assignments r)
        = map fst (filter (fun p => ward_values (snd p)) (assignments (built ward)))
        /\ Result.objective_value r = Some 0%float
        /\ Py.get String.eqb "total_assigned_shifts" (Result.statistics r)
           = Some (SInt (Z.of_nat (List.length (Result.assignments r))))
        /\ Py.get String.eqb "is_optimal" (Result.statistics r)
           = Some (SBool true)).
Proof.
  apply (solve_never_raises ward (built ward) ward_solver).
  vm_compute. reflexivity.
Defined.

Lemma solution_within_staffing_witness :
  (forall s shift, In (s, shift) (shifts ward) ->
     get_or (Shift.min_staff shift) 1
     <= count_assigned s (Result.assignments ward_result)
     <= get_or (Shift.max_staff shift) (get_or (Shift.min_staff shift) 1 + 2))
  /\ exists c,
       Py.get String.eqb "coverage_stats" (Result.statistics ward_result)
       = Some (SCoverage c)
       /\ fully_covered_shifts c = total_shifts c.
Proof.
  apply (solution_within_staffing ward) with (st := built ward) (solver := ward_solver).
  - vm_compute. repeat constructor; simpl; intuition discriminate.
  - vm_compute. repeat constructor; simpl; intuition discriminate.
  - vm_compute. reflexivity.
  - vm_compute. reflexivity.
  - reflexivity.
  - vm_compute. reflexivity.
Defined.

Lemma unused_weights_witness :
  build_model ward_reweighted (mkState CpModel.empty [])
  = build_model ward (mkState CpModel.empty []).
Proof.
  apply (unused_weights ward ward_reweighted (mkState CpModel.empty [])).
  - reflexivity.
  - reflexivity.
  - reflexivity.
  - vm_compute. reflexivity.
  - vm_compute. reflexivity.
  - vm_compute. split; discriminate.
Defined.

Lemma objective_scores_witness :
  exists pref_weight consec_weight terms indicators,
    weight_of three_days "employee_preferences" 55%float = Some pref_weight
    /\ weight_of three_days "consecutive_days" 30%float = Some consec_weight
    /\ objective (model (built three_days)) = Some terms
    /\ Forall2 (fun x name =>
                  nth_error (variables (model (built three_days))) x = Some name)
               indicators (window_names three_days)
    /\ forall v,
         eval v terms
         = pref_weight * preference_total three_days v (assignments (built three_days))
           - consec_weight * count_true v indicators.
Proof.
  apply (objective_scores three_days (built three_days)).
  vm_compute. reflexivity.
Defined.

Lemma build_checks_input_witness :
  (forall s shift, In (s, shift) (shifts ward) ->
     exists key, _get_week_key (Shift.date shift) = Some key)
  /\ (employees ward <> [] ->
      forall s shift, In (s, shift) (shifts ward) ->
        exists shift' start end_,
          Py.get String.eqb s (shifts ward) = Some shift'
          /\ _parse_time (Shift.start_time shift') = Some start
          /\ _parse_time (Shift.end_time shift') = Some end_)
  /\ (exists w, weight_of ward "employee_preferences" 55%float = Some w)
  /\ (exists w, weight_of ward "workload_fairness" 40%float = Some w)
  /\ (exists w, weight_of ward "consecutive_days" 30%float = Some w).
Proof.
  apply (build_checks_input ward (built ward)).
  vm_compute. reflexivity.
Defined.
